(** * Notebook diff view: a model of the editor integration

    A shallow embedding of the notebook diff-view engine of the VS Code
    extension: the two virtual file-system providers
    ([diff-origin-notebook-provider.ts], [diff-changes-notebook-provider.ts])
    and the session class [NotebookDiffView] with its registry and tab
    reconciler ([notebook-diff-view.ts]).

    Conventions.
    - Content strings are JavaScript strings: sequences of UTF-16 code
      units ([jsstring]).  Identifiers that the code only compares or
      concatenates (session ids, paths, URI components, map keys) are
      [string]s.
    - Host objects mutated in place (the notebook document behind a
      session's editor, the tab groups, the registry) are threaded
      explicitly; every call into the VS Code API is also appended to a
      log of [HostCall]s, so that "no second side effect" is a statement
      about that log.
    - A listener the code installs is called where the host fires its
      event: closing a tab calls the tab handler for as long as the hook
      is installed.  Work the code starts and does not await (the file
      check of [dispose], the refocusing the handler starts) is queued
      in the state and runs when it is resumed.
    - A call that may throw has an [outcome]; a host command that can
      answer a value, answer [undefined] or reject has a [reply].
    - What belongs to the host or to a library ([run-exclusive], the
      [diff] package, Node's [Buffer]) is either a member of the class
      [Host] or a reference definition that says so. *)

From Stdlib Require Import List String Ascii ZArith NArith Lia Bool.
From stdpp Require Import prelude strings gmap pretty.
Import ListNotations.

Local Open Scope string_scope.
Local Open Scope list_scope.

(* ------------------------------------------------------------------ *)
(** ** JavaScript strings *)

Module Js.

(** A string value: its UTF-16 code units. *)
Definition jsstring : Type := list N.

(** An ASCII literal as a JavaScript string. *)
Definition lit (s : string) : jsstring :=
  map N_of_ascii (list_ascii_of_string s).

Definition LF : N := 10.
Definition CR : N := 13.
(** U+FEFF, the byte-order mark. *)
Definition BOM : N := 65279.

Definition eqb (a b : jsstring) : bool := bool_decide (a = b).

(** [s.startsWith(p)] *)
Fixpoint startsWith (p s : jsstring) : bool :=
  match p, s with
  | [], _ => true
  | _ :: _, [] => false
  | a :: p', b :: s' => (a =? b)%N && startsWith p' s'
  end.

(** [s.slice(n)] for [n >= 0] *)
Definition slice (n : nat) (s : jsstring) : jsstring := drop n s.

(** [s.split("\n")]: never empty, [""] splits to [[""]]. *)
Fixpoint split_LF (s : jsstring) : list jsstring :=
  match s with
  | [] => [[]]
  | c :: s' =>
      if (c =? LF)%N then [] :: split_LF s'
      else match split_LF s' with
           | l :: ls => (c :: l) :: ls
           | [] => [[c]]
           end
  end.

(** [s.includes("\r\n")] *)
Fixpoint includes_CRLF (s : jsstring) : bool :=
  match s with
  | [] => false
  | c :: s' =>
      match s' with
      | d :: _ => ((c =? CR)%N && (d =? LF)%N) || includes_CRLF s'
      | [] => false
      end
  end.

(** [s.replace(/\r\n|\n/g, eol)]: the scan is left to right, a CR LF pair
    is one match, a lone LF is one match, a lone CR is kept. *)
Fixpoint replace_EOL (eol s : jsstring) : jsstring :=
  match s with
  | [] => []
  | c :: s' =>
      if (c =? LF)%N then eol ++ replace_EOL eol s'
      else if (c =? CR)%N then
        match s' with
        | d :: s'' =>
            if (d =? LF)%N then eol ++ replace_EOL eol s''
            else c :: replace_EOL eol s'
        | [] => [c]
        end
      else c :: replace_EOL eol s'
  end.

(** ECMAScript WhiteSpace and LineTerminator code points, the characters
    [trimEnd] removes.  U+FEFF is one of them. *)
Definition isWhiteSpace (c : N) : bool :=
  ((c =? 9) || (c =? 10) || (c =? 11) || (c =? 12) || (c =? 13) ||
   (c =? 32) || (c =? 160) || (c =? 5760) ||
   ((8192 <=? c) && (c <=? 8202)) ||
   (c =? 8232) || (c =? 8233) || (c =? 8239) || (c =? 8287) ||
   (c =? 12288) || (c =? BOM))%N.

(** [s.trimEnd()] *)
Fixpoint trimEnd (s : jsstring) : jsstring :=
  match s with
  | [] => []
  | c :: s' =>
      match trimEnd s' with
      | [] => if isWhiteSpace c then [] else [c]
      | t => c :: t
      end
  end.

(** Occurrences of the byte-order mark in a string. *)
Definition countBOM (s : jsstring) : nat :=
  length (filter (fun c => c = BOM) s).

End Js.

Abbreviation jsstring := Js.jsstring.

(* ------------------------------------------------------------------ *)
(** ** JavaScript numbers

    The code handles one number, the [version] of [setForFile], and does
    two things with it: it defaults it to [0], and it puts it into a
    template literal.  The conversion a template literal applies
    ([Number::toString]: ["0"], ["-1"], ["0.5"], ["1e+21"], ["NaN"])
    belongs to the language; the numbers and that conversion are taken
    as they come. *)

Class JsNumbers : Type := {
  number : Type;
  zero : number;
  Number_toString : number -> string
}.

(** The integers of magnitude below 2^53.  Each of them is a number,
    and the language prints it in decimal, with a minus sign when it is
    negative. *)
Module SafeInteger.

Definition isSafe (z : Z) : bool := (Z.abs z <? 2 ^ 53)%Z.

Record t : Type := mk {
  value : Z;
  safe : isSafe value = true
}.

Definition numbers : JsNumbers := {|
  number := t;
  zero := mk 0 eq_refl;
  Number_toString := fun n => pretty (value n)
|}.

End SafeInteger.

(* ------------------------------------------------------------------ *)
(** ** The [vscode] values the code handles *)

Record Uri : Type := mkUri {
  scheme : string;
  path : string;
  query : string;
  fragment : string
}.

(** [uri.fsPath]; the model is of a POSIX host, where it is the path. *)
Definition fsPath (u : Uri) : string := path u.

(** [vscode.Uri.file(p)] *)
Definition Uri_file (p : string) : Uri := mkUri "file" p "" "".

Inductive FileSystemError : Type :=
| FileNotFound (uri : Uri)
| NoPermissions.

(** The outcome of a call that may throw. *)
Inductive outcome (A : Type) : Type :=
| Returns (a : A)
| Throws (e : FileSystemError).
Arguments Returns {A} a.
Arguments Throws {A} e.

Inductive FileType : Type := FileType_File | FileType_Directory.

Record FileStat : Type := mkFileStat {
  type : FileType;
  ctime : Z;
  mtime : Z;
  size : nat
}.

Inductive FileChangeType : Type := Changed | Created | Deleted.

Record FileChangeEvent : Type := mkFileChangeEvent {
  changeType : FileChangeType;
  changeUri : Uri
}.

(** A [Uint8Array]. *)
Definition Uint8Array : Type := list Byte.byte.

(* ------------------------------------------------------------------ *)
(** ** Node's base64 decoder

    [Buffer.from(s, "base64")] belongs to the runtime, not to the
    repository.  The decoder below follows Node's lenient reading:
    characters outside the alphabet are skipped, both the standard and
    the URL-safe alphabet are accepted, decoding stops at the first
    [=], and a trailing partial group yields the bytes it determines.  It
    is total: no input makes it throw. *)

Module Base64.

Definition sextet (a : ascii) : option N :=
  let n := N_of_ascii a in
  if ((65 <=? n) && (n <=? 90))%N then Some (n - 65)%N
  else if ((97 <=? n) && (n <=? 122))%N then Some (n - 71)%N
  else if ((48 <=? n) && (n <=? 57))%N then Some (n + 4)%N
  else if ((n =? 43) || (n =? 45))%N then Some 62%N
  else if ((n =? 47) || (n =? 95))%N then Some 63%N
  else None.

(** The sextets of the input up to the first [=]. *)
Fixpoint sextets (s : string) : list N :=
  match s with
  | EmptyString => []
  | String a s' =>
      if (N_of_ascii a =? 61)%N then []
      else match sextet a with
           | Some v => v :: sextets s'
           | None => sextets s'
           end
  end.

Definition byte_of (n : N) : Byte.byte :=
  match Byte.of_N (n mod 256) with
  | Some b => b
  | None => Byte.x00
  end.

Fixpoint group (l : list N) : Uint8Array :=
  match l with
  | a :: b :: c :: d :: rest =>
      byte_of (a * 4 + b / 16)
        :: byte_of ((b mod 16) * 16 + c / 4)
        :: byte_of ((c mod 4) * 64 + d)
        :: group rest
  | [a; b; c] =>
      [byte_of (a * 4 + b / 16); byte_of ((b mod 16) * 16 + c / 4)]
  | [a; b] => [byte_of (a * 4 + b / 16)]
  | _ => []
  end.

(** [Buffer.from(s, "base64")] *)
Definition decode (s : string) : Uint8Array := group (sextets s).

End Base64.

(* ------------------------------------------------------------------ *)
(** ** The provider of original content
    ([diff-origin-notebook-provider.ts])

    The provider keeps no store: the bytes travel in the URI's query. *)

Module DiffOriginNotebookProvider.

Definition scheme : string := "pochi-nb-origin".

(** [stat(uri)], with [now] the value of [Date.now()]. *)
Definition stat (now : Z) (uri : Uri) : outcome FileStat :=
  let size := length (Base64.decode (query uri)) in
  Returns (mkFileStat FileType_File now now size).

Definition readDirectory : outcome (list (string * FileType)) := Returns [].

(** [readFile(uri)] *)
Definition readFile (uri : Uri) : outcome Uint8Array :=
  Returns (Base64.decode (query uri)).

Definition createDirectory : outcome unit := Throws NoPermissions.
Definition writeFile : outcome unit := Throws NoPermissions.
Definition delete : outcome unit := Throws NoPermissions.
Definition rename : outcome unit := Throws NoPermissions.

End DiffOriginNotebookProvider.

(* ------------------------------------------------------------------ *)
(** ** The provider of modified content
    ([diff-changes-notebook-provider.ts]) *)

Module DiffModifiedNotebookProvider.

Definition scheme : string := "pochi-nb-modified".

(** The provider object: its [content] map (key ["id:version"]) and the
    change events its emitter has fired, oldest first. *)
Record t : Type := mk {
  content : gmap string Uint8Array;
  fired : list (list FileChangeEvent)
}.

(** A freshly constructed provider. *)
Definition create : t := mk ∅ [].

Section WithNumbers.
Context `{JsNumbers}.

(** The template literal [`${id}:${version}`]. *)
Definition keyOf (id : string) (version : number) : string :=
  id +:+ ":" +:+ Number_toString version.

(** [setForFile(id, path, data, version = 0)] *)
Definition setForFile (this : t) (id : string) (path : string)
    (data : Uint8Array) (version : option number) : t :=
  let version := default zero version in
  let key := keyOf id version in
  mk (<[key := data]> (content this))
     (fired this ++ [[mkFileChangeEvent Changed (mkUri scheme path key "")]]).

End WithNumbers.

(** [stat(uri)], with [now] the value of [Date.now()].  A [Uint8Array] is
    an object, hence truthy even when empty: the test [data ? ... : 0]
    asks whether the key is present. *)
Definition stat (this : t) (now : Z) (uri : Uri) : outcome FileStat :=
  let key := query uri in
  let data := content this !! key in
  let size := match data with Some d => length d | None => 0 end in
  Returns (mkFileStat FileType_File now now size).

Definition readDirectory : outcome (list (string * FileType)) := Returns [].

(** [readFile(uri)] *)
Definition readFile (this : t) (uri : Uri) : outcome Uint8Array :=
  let key := query uri in
  match content this !! key with
  | None => Throws (FileNotFound uri)
  | Some data => Returns data
  end.

Definition createDirectory : outcome unit := Throws NoPermissions.
Definition writeFile : outcome unit := Throws NoPermissions.
Definition delete : outcome unit := Throws NoPermissions.
Definition rename : outcome unit := Throws NoPermissions.

Section Runs.
Context `{JsNumbers}.

(** One recorded call of [setForFile]. *)
Record SetCall : Type := mkSetCall {
  set_id : string;
  set_path : string;
  set_data : Uint8Array;
  set_version : option number
}.

Definition callKey (c : SetCall) : string :=
  keyOf (set_id c) (default zero (set_version c)).

(** The provider after a sequence of [setForFile] calls. *)
Definition run (calls : list SetCall) (this : t) : t :=
  foldl (fun p c => setForFile p (set_id c) (set_path c) (set_data c)
                      (set_version c))
        this calls.

(** The bytes most recently stored under [key] by the calls, if any. *)
Definition lastWrite (calls : list SetCall) (key : string)
    : option Uint8Array :=
  set_data <$> List.find (fun c => bool_decide (callKey c = key)) (rev calls).

End Runs.

End DiffModifiedNotebookProvider.

(* ------------------------------------------------------------------ *)
(** ** Notebooks, editors and tabs *)

Inductive NotebookCellKind : Type := Markup | Code.

Record NotebookCellData : Type := mkCell {
  kind : NotebookCellKind;
  value : jsstring;
  languageId : string
}.

(** A live [vscode.NotebookDocument].  [notebookType] is the identifier
    of the notebook format (["jupyter-notebook"] for [.ipynb] files); the
    content is the list of cells. *)
Record NotebookDocument : Type := mkNotebook {
  uri : Uri;
  notebookType : jsstring;
  cells : list NotebookCellData;
  isDirty : bool
}.

Definition cellCount (nb : NotebookDocument) : Z := Z.of_nat (length (cells nb)).

Record NotebookEditor : Type := mkEditor {
  notebook : NotebookDocument
}.

Inductive TabInput : Type :=
| TabInputText (uri : Uri)
| TabInputTextDiff (original modified : Uri)
| TabInputNotebook (uri : Uri)
| TabInputNotebookDiff (original modified : Uri)
| TabInputOther.

Record Tab : Type := mkTab {
  input : TabInput;
  tabIsDirty : bool
}.

#[global] Instance Uri_eq_dec : EqDecision Uri.
Proof. solve_decision. Defined.
#[global] Instance NotebookCellKind_eq_dec : EqDecision NotebookCellKind.
Proof. solve_decision. Defined.
#[global] Instance NotebookCellData_eq_dec : EqDecision NotebookCellData.
Proof. solve_decision. Defined.
#[global] Instance TabInput_eq_dec : EqDecision TabInput.
Proof. solve_decision. Defined.
#[global] Instance Tab_eq_dec : EqDecision Tab.
Proof. solve_decision. Defined.

(** The answer of a host command that may produce a value, produce
    [undefined], or reject. *)
Inductive reply (A : Type) : Type :=
| Data (a : A)
| Undefined
| Rejected.
Arguments Data {A} a.
Arguments Undefined {A}.
Arguments Rejected {A}.

(** One part of the result of [diff.diffLines]. *)
Record Change : Type := mkChange {
  count : option nat;
  added : bool;
  removed : bool
}.

Definition Diagnostics : Type := list (Uri * list jsstring).

(** What the session code takes from its collaborators. *)
Class Host : Type := {
  (** the command ["vscode.executeDataToNotebook"], on the text whose
      UTF-8 encoding is passed *)
  executeDataToNotebook : jsstring -> jsstring -> reply (list NotebookCellData);
  (** the serializer of a notebook type: the text [save] writes *)
  executeNotebookToData : jsstring -> list NotebookCellData -> jsstring;
  (** the cells after the save participants (format on save) have run *)
  formatOnSave : NotebookDocument -> list NotebookCellData;
  (** the editor that becomes active for a diff command on a file with
      the given content, if one does within the ten seconds allowed *)
  activeNotebookEditor : Uri -> jsstring -> option NotebookEditor;
  (** [resolvePath(relpath, cwd)] of the common tool utilities *)
  resolvePath : string -> string -> string;
  (** [Buffer.from(s).toString("base64")] *)
  toBase64 : jsstring -> string;
  (** [createPrettyPatch] of [@/lib/fs] *)
  createPrettyPatch : string -> jsstring -> jsstring -> jsstring;
  (** [diff.diffLines] *)
  diffLines : jsstring -> jsstring -> list Change;
  (** [diagnosticsToProblemsString(getNewDiagnostics(pre, post), [Error], cwd)] *)
  newProblemsString : Diagnostics -> Diagnostics -> string -> jsstring
}.

Inductive Disposable : Type :=
| NotebookChangeListener
| AbortListener (signal : nat)
| TabsListener.

(** Calls into the VS Code API that act on the host. *)
Inductive HostCall : Type :=
| revealRange (index : Z)
| timer (ms : nat)
| addAbortListener (signal : nat)
| dataToNotebook (nbType bytes : jsstring)
| applyEdit_replaceCells (target : Uri) (start stop : Z)
    (newCells : list NotebookCellData)
| notebook_save (target : Uri)
| workspace_saveAll
| openTextDocument (target : Uri)
| showTextDocument (target : Uri)
| tabGroups_close (tab : Tab)
| vscode_diff (original modified : Uri) (existing : bool)
| fs_writeFile (target : Uri) (data : jsstring)
| fs_delete (target : Uri)
| onDidChangeTabs
| dispose_of (d : Disposable).

(* ------------------------------------------------------------------ *)
(** ** JavaScript [Map] and [Set] with string keys

    Both iterate in insertion order, which the loops of the reconciler
    follow; hence lists. *)

Module JsSet.

Definition t : Type := list string.

Definition has (x : string) (s : t) : bool := bool_decide (x ∈ s).

Definition add (x : string) (s : t) : t := if has x s then s else s ++ [x].

End JsSet.

Module JsMap.

Section Ops.
Context {V : Type}.

(** A map is the list of its entries, oldest first. *)
Fixpoint get (k : string) (m : list (string * V)) : option V :=
  match m with
  | [] => None
  | (k', v) :: m' => if String.eqb k' k then Some v else get k m'
  end.

(** [m.set(k, v)]: an existing key keeps its place. *)
Fixpoint set (k : string) (v : V) (m : list (string * V)) : list (string * V) :=
  match m with
  | [] => [(k, v)]
  | (k', v') :: m' =>
      if String.eqb k' k then (k', v) :: m' else (k', v') :: set k v m'
  end.

Definition delete (k : string) (m : list (string * V)) : list (string * V) :=
  filter (fun kv => kv.1 ≠ k) m.

End Ops.

End JsMap.

(* ------------------------------------------------------------------ *)
(** ** The session class and its module state ([notebook-diff-view.ts]) *)

Module NotebookDiffView.

(** A [NotebookDiffView] object.  The notebook document reached through
    [activeDiffEditor] is part of the record: the code reads and edits it
    only through that reference.  [self] is the identity of the object,
    given by [new]. *)
Record t : Type := mk {
  id : string;
  fileUri : Uri;
  fileExists : bool;
  originalContent : jsstring;
  activeDiffEditor : NotebookEditor;
  cwd : string;
  isFileOpenBeforeDiffPreview : bool;
  isFinalized : bool;
  isReverted : bool;
  streamedLines : list jsstring;
  preDiagnostics : Diagnostics;
  disposables : list Disposable;
  self : nat
}.


(** Work the code starts and does not wait for: the scaffold check of
    [dispose] (an [async] block that nobody awaits) and what is left of
    [focusDiffViews()], which the tab handler calls without [await], once
    the diff command for its first view has been issued. *)
Inductive Detached : Type :=
| ScaffoldCheck (this : t)
| FocusDiffViews (first : t).

(** The module's bindings ([DiffViewMap], [DiffViewDisposable],
    [needFocusDiffViews]) and the state of the host the code reads: the
    tab groups, the workspace files, the diagnostics, the log of the
    calls made so far, and the detached work that has been started and
    has not run yet. *)
Record World : Type := mkWorld {
  DiffViewMap : list (string * t);
  DiffViewDisposable : bool;
  needFocusDiffViews : bool;
  tabGroups : list (list Tab);
  visibleNotebookEditors : list NotebookEditor;
  files : gmap string jsstring;
  diagnostics : Diagnostics;
  allocated : nat;
  calls : list HostCall;
  detached : list Detached
}.

Definition set_DiffViewMap (m : list (string * t)) (w : World) : World :=
  mkWorld m (DiffViewDisposable w) (needFocusDiffViews w) (tabGroups w)
    (visibleNotebookEditors w) (files w) (diagnostics w) (allocated w) (calls w)
    (detached w).

Definition set_DiffViewDisposable (b : bool) (w : World) : World :=
  mkWorld (DiffViewMap w) b (needFocusDiffViews w) (tabGroups w)
    (visibleNotebookEditors w) (files w) (diagnostics w) (allocated w) (calls w)
    (detached w).

Definition set_needFocusDiffViews (b : bool) (w : World) : World :=
  mkWorld (DiffViewMap w) (DiffViewDisposable w) b (tabGroups w)
    (visibleNotebookEditors w) (files w) (diagnostics w) (allocated w) (calls w)
    (detached w).

Definition set_tabGroups (g : list (list Tab)) (w : World) : World :=
  mkWorld (DiffViewMap w) (DiffViewDisposable w) (needFocusDiffViews w) g
    (visibleNotebookEditors w) (files w) (diagnostics w) (allocated w) (calls w)
    (detached w).

Definition set_visibleNotebookEditors (e : list NotebookEditor) (w : World)
    : World :=
  mkWorld (DiffViewMap w) (DiffViewDisposable w) (needFocusDiffViews w)
    (tabGroups w) e (files w) (diagnostics w) (allocated w) (calls w)
    (detached w).

Definition set_files (f : gmap string jsstring) (w : World) : World :=
  mkWorld (DiffViewMap w) (DiffViewDisposable w) (needFocusDiffViews w)
    (tabGroups w) (visibleNotebookEditors w) f (diagnostics w) (allocated w)
    (calls w) (detached w).

Definition set_allocated (n : nat) (w : World) : World :=
  mkWorld (DiffViewMap w) (DiffViewDisposable w) (needFocusDiffViews w)
    (tabGroups w) (visibleNotebookEditors w) (files w) (diagnostics w) n
    (calls w) (detached w).

Definition set_detached (l : list Detached) (w : World) : World :=
  mkWorld (DiffViewMap w) (DiffViewDisposable w) (needFocusDiffViews w)
    (tabGroups w) (visibleNotebookEditors w) (files w) (diagnostics w)
    (allocated w) (calls w) l.

(** Record one host call. *)
Definition log (c : HostCall) (w : World) : World :=
  mkWorld (DiffViewMap w) (DiffViewDisposable w) (needFocusDiffViews w)
    (tabGroups w) (visibleNotebookEditors w) (files w) (diagnostics w)
    (allocated w) (calls w ++ [c]) (detached w).

(** Leave work behind that nobody waits for. *)
Definition defer (d : Detached) (w : World) : World :=
  set_detached (detached w ++ [d]) w.

(** The diff commands issued so far. *)
Definition isDiffCommand (h : HostCall) : bool :=
  match h with vscode_diff _ _ _ => true | _ => false end.

Definition diffCommands (w : World) : nat :=
  length (filter (fun h => isDiffCommand h = true) (calls w)).

(** [w'] differs from [w] in nothing an argument about the registry
    looks at: the same sessions, the same number of objects made, the
    same number of diff commands issued. *)
Definition quiet (w w' : World) : Prop :=
  DiffViewMap w' = DiffViewMap w
  /\ allocated w' = allocated w
  /\ diffCommands w' = diffCommands w.

Definition set_isFinalized (b : bool) (this : t) : t :=
  mk (id this) (fileUri this) (fileExists this) (originalContent this)
    (activeDiffEditor this) (cwd this) (isFileOpenBeforeDiffPreview this)
    b (isReverted this) (streamedLines this) (preDiagnostics this)
    (disposables this) (self this).

Definition set_isReverted (b : bool) (this : t) : t :=
  mk (id this) (fileUri this) (fileExists this) (originalContent this)
    (activeDiffEditor this) (cwd this) (isFileOpenBeforeDiffPreview this)
    (isFinalized this) b (streamedLines this) (preDiagnostics this)
    (disposables this) (self this).

Definition set_streamedLines (l : list jsstring) (this : t) : t :=
  mk (id this) (fileUri this) (fileExists this) (originalContent this)
    (activeDiffEditor this) (cwd this) (isFileOpenBeforeDiffPreview this)
    (isFinalized this) (isReverted this) l (preDiagnostics this)
    (disposables this) (self this).

Definition push_disposable (d : Disposable) (this : t) : t :=
  mk (id this) (fileUri this) (fileExists this) (originalContent this)
    (activeDiffEditor this) (cwd this) (isFileOpenBeforeDiffPreview this)
    (isFinalized this) (isReverted this) (streamedLines this)
    (preDiagnostics this) (disposables this ++ [d]) (self this).

(** An in-place change of the document behind [activeDiffEditor]. *)
Definition set_notebook (nb : NotebookDocument) (this : t) : t :=
  mk (id this) (fileUri this) (fileExists this) (originalContent this)
    (mkEditor nb) (cwd this) (isFileOpenBeforeDiffPreview this)
    (isFinalized this) (isReverted this) (streamedLines this)
    (preDiagnostics this) (disposables this) (self this).

(** *** What the host does on the calls the code makes *)

Definition showsNotebook (p : string) (tab : Tab) : bool :=
  match input tab with
  | TabInputNotebook u => String.eqb (fsPath u) p
  | TabInputNotebookDiff _ m => String.eqb (fsPath m) p
  | _ => false
  end.

(** The dirty mark of the tabs that show the notebook at path [p]. *)
Definition markTabs (p : string) (d : bool) (g : list (list Tab))
    : list (list Tab) :=
  map (map (fun tab => if showsNotebook p tab then mkTab (input tab) d else tab)) g.

Definition isTextTabOf (p : string) (tab : Tab) : bool :=
  match input tab with
  | TabInputText u => String.eqb (fsPath u) p
  | _ => false
  end.

(** A plain text tab for [u] exists after [showTextDocument]. *)
Definition withTextTab (u : Uri) (g : list (list Tab)) : list (list Tab) :=
  if existsb (isTextTabOf (fsPath u)) (concat g) then g
  else match g with
       | [] => [[mkTab (TabInputText u) false]]
       | g0 :: gs => (g0 ++ [mkTab (TabInputText u) false]) :: gs
       end.

(** A notebook diff tab for [original] against [modified] exists after
    the diff command. *)
Definition withDiffTab (original modified : Uri) (g : list (list Tab))
    : list (list Tab) :=
  let tab := mkTab (TabInputNotebookDiff original modified) false in
  if bool_decide (tab ∈ concat g) then g
  else match g with
       | [] => [[tab]]
       | g0 :: gs => (g0 ++ [tab]) :: gs
       end.

Section WithHost.
Context `{Host}.

(** [workspace.applyEdit] of one [NotebookEdit.replaceCells(range, cells)]
    on the session's notebook. *)
Definition applyEdit (this : t) (w : World) (start stop : Z)
    (newCells : list NotebookCellData) : t * World :=
  let nb := notebook (activeDiffEditor this) in
  let cells' :=
    take (Z.to_nat start) (cells nb) ++ newCells ++ drop (Z.to_nat stop) (cells nb) in
  (set_notebook (mkNotebook (uri nb) (notebookType nb) cells' true) this,
   log (applyEdit_replaceCells (uri nb) start stop newCells)
     (set_tabGroups (markTabs (fsPath (uri nb)) true (tabGroups w)) w)).

(** The host saving the session's notebook: save participants run, the
    serialized cells are written to the file, the document is clean. *)
Definition hostSave (this : t) (w : World) : t * World :=
  let nb := notebook (activeDiffEditor this) in
  let cells' := formatOnSave nb in
  (set_notebook (mkNotebook (uri nb) (notebookType nb) cells' false) this,
   set_files
     (<[fsPath (uri nb) := executeNotebookToData (notebookType nb) cells']> (files w))
     (set_tabGroups (markTabs (fsPath (uri nb)) false (tabGroups w)) w)).

(** [updatedDocument.save()] *)
Definition save (this : t) (w : World) : t * World :=
  let '(this, w) := hostSave this w in
  (this, log (notebook_save (uri (notebook (activeDiffEditor this)))) w).

(** [vscode.workspace.saveAll(false)]; of the documents it saves, the
    session's own is the one the model holds. *)
Definition saveAll (this : t) (w : World) : t * World :=
  let '(this, w) :=
    if isDirty (notebook (activeDiffEditor this)) then hostSave this w
    else (this, w) in
  (this, log workspace_saveAll w).

(** [openTextDocument(uri)] then [showTextDocument(document, ...)] *)
Definition openAndShow (u : Uri) (w : World) : World :=
  log (showTextDocument u)
    (set_tabGroups (withTextTab u (tabGroups w)) (log (openTextDocument u) w)).

(** *** Scrolling *)

Definition scrollNotebookToCell (this : t) (w : World) (index : Z) : World :=
  let nb := notebook (activeDiffEditor this) in
  let cellIdx := Z.min (Z.max 0 index) (Z.max 0 (cellCount nb - 1)) in
  log (revealRange cellIdx) w.

Definition scrollToFirstNotebookCell (this : t) (w : World) : World :=
  let nb := notebook (activeDiffEditor this) in
  let idx := Z.max 0 (Z.min 0 (cellCount nb - 1)) in
  log (revealRange idx) w.

(** The loop [for (line = startLine; line <= endLine; line += stepSize)]
    of [update]; [fuel] bounds the iterations. *)
Fixpoint scrollSteps (fuel : nat) (this : t) (w : World)
    (line endLine stepSize : Z) : World :=
  match fuel with
  | O => w
  | S fuel' =>
      if (line <=? endLine)%Z then
        let document := notebook (activeDiffEditor this) in
        let i := Z.min line (Z.max 0 (cellCount document - 1)) in
        scrollSteps fuel' this (log (timer 16) (log (revealRange i) w))
          (line + stepSize) endLine stepSize
      else w
  end.

(** *** [update(content, isFinal, abortSignal?)] *)

(** The content with one leading byte-order mark removed. *)
Definition stripBOM (content : jsstring) : jsstring :=
  if Js.startsWith [Js.BOM] content then Js.slice 1 content else content.

(** The lines [update] keeps: [accumulatedLines] after the [pop]. *)
Definition accumulatedLinesOf (content : jsstring) (isFinal : bool)
    : list jsstring :=
  let accumulatedLines := Js.split_LF (stripBOM content) in
  if negb isFinal then removelast accumulatedLines else accumulatedLines.

(** The feedback for the lines [diffLines] that are new against the
    lines streamed so far: a jump for up to five lines, else a scroll in
    about ten steps; nothing when no line has been streamed at all. *)
Definition revealNewLines (this : t) (w : World) (diffLines : list jsstring)
    : World :=
  let document := notebook (activeDiffEditor this) in
  let currentLine :=
    (Z.of_nat (length (streamedLines this)) + Z.of_nat (length diffLines) - 1)%Z in
  if (0 <=? currentLine)%Z then
    if (length diffLines <=? 5)%nat then
      scrollNotebookToCell this w currentLine
    else
      let startLine := Z.of_nat (length (streamedLines this)) in
      let endLine := currentLine in
      let totalLines := (endLine - startLine)%Z in
      let numSteps := 10%Z in
      let stepSize := Z.max 1 (totalLines / numSteps) in
      let w :=
        scrollSteps (S (Z.to_nat totalLines)) this w startLine endLine stepSize in
      scrollNotebookToCell this w currentLine
  else w.

(** The listener [update] registers on an abort signal. *)
Definition listenForAbort (this : t) (w : World) (abortSignal : option nat)
    : t * World :=
  match abortSignal with
  | Some signal =>
      (push_disposable (AbortListener signal) this,
       log (addAbortListener signal) w)
  | None => (this, w)
  end.

(** The final content put into the notebook through the converter. *)
Definition applyFinalContent (this : t) (w : World)
    (accumulatedContent : jsstring) : t * World :=
  let nb := notebook (activeDiffEditor this) in
  let nbType := notebookType nb in
  let w := log (dataToNotebook nbType accumulatedContent) w in
  let '(this, w) :=
    match executeDataToNotebook nbType accumulatedContent with
    | Data data => applyEdit this w 0 (cellCount nb) data
    | Undefined => (this, w)
    | Rejected => (this, w)
    end in
  let w := log (timer 300) w in
  (this, scrollToFirstNotebookCell this w).

Definition update (this : t) (w : World) (content : jsstring)
    (isFinal : bool) (abortSignal : option nat) : t * World :=
  if isFinalized this || isReverted this then (this, w)
  else
    let this := if isFinal then set_isFinalized true this else this in
    let '(this, w) := listenForAbort this w abortSignal in
    let accumulatedContent := stripBOM content in
    let accumulatedLines := accumulatedLinesOf content isFinal in
    let diffLines := drop (length (streamedLines this)) accumulatedLines in
    let w := revealNewLines this w diffLines in
    let this := set_streamedLines accumulatedLines this in
    if isFinal then applyFinalContent this w accumulatedContent
    else (this, w).

(** *** [dispose], the diff command and [focus] *)

(** The [async] block of [dispose]: [stat], then [delete] when the size
    is 0.  A failure - the file is gone - is caught and only logged for
    debugging. *)
Definition scaffoldCheck (this : t) (w : World) : World :=
  match files w !! fsPath (fileUri this) with
  | Some [] =>
      log (fs_delete (fileUri this))
        (set_files (base.delete (fsPath (fileUri this)) (files w)) w)
  | _ => w
  end.

(** [dispose()] as it returns: for a session that created its file the
    block has been started and is not awaited; every listener has been
    disposed of. *)
Definition dispose (this : t) (w : World) : World :=
  let w :=
    if negb (fileExists this) then defer (ScaffoldCheck this) w else w in
  foldl (fun w d => log (dispose_of d) w) w (disposables this).

(** The URI of the original side: [`${scheme}:${id}`] with the content
    as query and the file path as fragment. *)
Definition originUri (id : string) (originalContent : jsstring)
    (fileUri : Uri) : Uri :=
  mkUri DiffOriginNotebookProvider.scheme id (toBase64 originalContent)
    (fsPath fileUri).

(** What the host does on the diff command: the comparison view opens
    and a notebook editor of the file becomes active, or none does within
    the ten seconds allowed. *)
Definition diffAnswer (id : string) (originalContent : jsstring)
    (fileUri : Uri) (w : World) : option NotebookEditor * World :=
  let original := originUri id originalContent fileUri in
  match activeNotebookEditor fileUri (default [] (files w !! fsPath fileUri)) with
  | Some editor =>
      if String.eqb (fsPath (uri (notebook editor))) (fsPath fileUri) then
        (Some editor,
         set_visibleNotebookEditors (visibleNotebookEditors w ++ [editor])
           (set_tabGroups (withDiffTab original fileUri (tabGroups w)) w))
      else (None, w)
  | None => (None, w)
  end.

(** [runVSCodeDiff], awaited: [None] when no editor of the file becomes
    active and the promise rejects. *)
Definition runVSCodeDiff (id : string) (originalContent : jsstring)
    (fileExists : bool) (fileUri : Uri) (w : World)
    : option NotebookEditor * World :=
  let original := originUri id originalContent fileUri in
  let w := log (vscode_diff original fileUri fileExists) w in
  diffAnswer id originalContent fileUri w.

Definition focus (this : t) (w : World) : option NotebookEditor * World :=
  runVSCodeDiff (id this) (originalContent this) (fileExists this)
    (fileUri this) w.

(** *** The tab reconciler *)

(** The loop of [focusDiffViews], awaited view by view: it stops at the
    first view that fails to come up. *)
Fixpoint focusEach (views : list t) (w : World) : World :=
  match views with
  | [] => w
  | diffView :: rest =>
      match focus diffView w with
      | (Some _, w) => focusEach rest w
      | (None, w) => w
      end
  end.

(** [focusDiffViews()] as the handler calls it, without [await]: the
    loop runs up to its first [await], so the diff command for the first
    view of the registry has been issued; what follows is left behind. *)
Definition focusDiffViews (w : World) : World :=
  match DiffViewMap w with
  | [] => w
  | (_, first) :: _ =>
      defer (FocusDiffViews first)
        (log (vscode_diff
                (originUri (id first) (originalContent first) (fileUri first))
                (fileUri first) (fileExists first))
           w)
  end.

(** What was left of [focusDiffViews()]: the host answers the first
    command, and the loop goes on with the views of the registry it has
    not visited. *)
Definition focusDiffViews_resumed (first : t) (w : World) : World :=
  match diffAnswer (id first) (originalContent first) (fileUri first) w with
  | (Some _, w) =>
      focusEach (filter (fun v => self v <> self first) (map snd (DiffViewMap w))) w
  | (None, w) => w
  end.

(** The ids read off the open tabs by [handleTabChanges]. *)
Definition visibleDiffViewIds (w : World) : JsSet.t :=
  foldl
    (fun ids tab =>
       match input tab with
       | TabInputTextDiff original _ =>
           if String.eqb (scheme original) DiffOriginNotebookProvider.scheme
           then JsSet.add (path original) ids
           else ids
       | _ => ids
       end)
    [] (concat (tabGroups w)).

(** The two marking loops: ids whose view is not visible, with their file
    paths, then every id on one of those paths. *)
Definition idsToRemove (visible : JsSet.t) (m : list (string * t)) : JsSet.t :=
  let '(ids, filePathsToClose) :=
    foldl
      (fun acc entry =>
         let '(ids, paths) := acc in
         let '(id, diffView) := entry in
         if negb (JsSet.has id visible) then
           (JsSet.add id ids, JsSet.add (fsPath (fileUri diffView)) paths)
         else (ids, paths))
      ([], []) m in
  foldl
    (fun ids entry =>
       let '(id, diffView) := entry in
       if JsSet.has (fsPath (fileUri diffView)) filePathsToClose then
         JsSet.add id ids
       else ids)
    ids m.

Definition removeMarked (ids : JsSet.t) (w : World) : World :=
  foldl
    (fun w id =>
       match JsMap.get id (DiffViewMap w) with
       | Some diffView =>
           let w := dispose diffView w in
           set_DiffViewMap (JsMap.delete id (DiffViewMap w)) w
       | None => w
       end)
    w ids.

(** [handleTabChanges(e)], with [closed] the tabs [e.closed]; the tab
    groups of [w] are those after the event. *)
Definition handleTabChanges (closed : list Tab) (w : World) : World :=
  match closed with
  | [] => w
  | _ :: _ =>
      let visible := visibleDiffViewIds w in
      let ids := idsToRemove visible (DiffViewMap w) in
      let w := removeMarked ids w in
      let w :=
        if (length (DiffViewMap w) =? 0)%nat && DiffViewDisposable w then
          log (dispose_of TabsListener) (set_DiffViewDisposable false w)
        else w in
      if needFocusDiffViews w then
        focusDiffViews (set_needFocusDiffViews false w)
      else w
  end.

(** [vscode.window.tabGroups.close(tab)]: the tab is gone, and the host
    reports it to the listener that [getOrCreate] installed with
    [onDidChangeTabs], as long as that listener is installed.  (Opening
    a tab and marking one dirty are reported too; the handler returns at
    once on an event that closed nothing.) *)
Definition closeTab (tab : Tab) (w : World) : World :=
  let w :=
    log (tabGroups_close tab)
      (set_tabGroups (map (filter (fun t' => t' <> tab)) (tabGroups w)) w) in
  if DiffViewDisposable w then handleTabChanges [tab] w else w.


(** *** Closing comparison views *)

Definition isOriginNotebookDiff (tab : Tab) : bool :=
  match input tab with
  | TabInputNotebookDiff original _ =>
      String.eqb (scheme original) DiffOriginNotebookProvider.scheme
  | _ => false
  end.

Definition closeAllNonDirtyDiffViews (w : World) : World :=
  let tabs := filter (fun tab => isOriginNotebookDiff tab = true) (concat (tabGroups w)) in
  foldl (fun w tab => if negb (tabIsDirty tab) then closeTab tab w else w) w tabs.

(** *** [revertAndClose] *)

(** Whether an asynchronous call ran to its end or rejected. *)
Inductive settled : Type := Fulfilled | Failed.

Definition discardChangesWithWorkspaceEdit (this : t) (w : World)
    (originalContent : jsstring) : t * World * settled :=
  let notebook := notebook (activeDiffEditor this) in
  if negb (isDirty notebook) then (this, w, Fulfilled)
  else
    let notebookType := notebookType notebook in
    let w := log (dataToNotebook notebookType originalContent) w in
    match executeDataToNotebook notebookType originalContent with
    | Rejected => (this, w, Failed)
    | Undefined => (this, w, Fulfilled)
    | Data data =>
        let '(this, w) := applyEdit this w 0 (cellCount notebook) data in
        let '(this, w) := saveAll this w in
        (this, w, Fulfilled)
    end.

Definition revertAndClose (this : t) (w : World) : t * World * settled :=
  if isReverted this then (this, w, Fulfilled)
  else
    let this := set_isReverted true this in
    match discardChangesWithWorkspaceEdit this w (originalContent this) with
    | (this, w, Failed) => (this, w, Failed)
    | (this, w, Fulfilled) =>
        let w := closeAllNonDirtyDiffViews w in
        let w :=
          if isFileOpenBeforeDiffPreview this then openAndShow (fileUri this) w
          else w in
        (this, w, Fulfilled)
    end.

(** *** [saveChanges(relPath, newContent)] *)

Record EditSummary : Type := mkEditSummary {
  summary_added : nat;
  summary_removed : nat
}.

Definition getEditSummary (original modified : jsstring) : EditSummary :=
  let diffs := diffLines original modified in
  foldl
    (fun acc part =>
       if added part then
         mkEditSummary (summary_added acc + default 0 (count part)) (summary_removed acc)
       else if removed part then
         mkEditSummary (summary_added acc) (summary_removed acc + default 0 (count part))
       else acc)
    (mkEditSummary 0 0) diffs.

Record SaveResult : Type := mkSaveResult {
  userEdits : option jsstring;
  autoFormattingEdits : option jsstring;
  newProblems : jsstring;
  editSummary : EditSummary
}.

(** [s.replace(/\r\n|\n/g, eol).trimEnd() + eol] *)
Definition normalizeEOL (eol s : jsstring) : jsstring :=
  Js.trimEnd (Js.replace_EOL eol s) ++ eol.

(** [waitForDiagnostic] only lets time pass (between 1 and 1000 ms, or
    none in test mode); it changes nothing the code reads. *)
Definition waitForDiagnostic (w : World) : World := w.

Definition saveChanges (this : t) (w : World) (relPath : string)
    (newContent : jsstring) : t * World * SaveResult :=
  let updatedDocument := notebook (activeDiffEditor this) in
  let preSaveContent := notebookType updatedDocument in
  let '(this, w) :=
    if isDirty updatedDocument then save this w else (this, w) in
  let updatedDocument := notebook (activeDiffEditor this) in
  let postSaveContent := notebookType updatedDocument in
  (* [this.originalContent || ""] is [this.originalContent] *)
  let editSummary := getEditSummary (originalContent this) postSaveContent in
  let w := openAndShow (fileUri this) w in
  let w := set_needFocusDiffViews true w in
  let w := closeAllNonDirtyDiffViews w in
  let w := waitForDiagnostic w in
  let postDiagnostics := diagnostics w in
  let newProblems :=
    newProblemsString (preDiagnostics this) postDiagnostics (cwd this) in
  let newContentEOL :=
    if Js.includes_CRLF newContent then [Js.CR; Js.LF] else [Js.LF] in
  let normalizedPreSaveContent := normalizeEOL newContentEOL preSaveContent in
  let normalizedPostSaveContent := normalizeEOL newContentEOL postSaveContent in
  let normalizedNewContent := normalizeEOL newContentEOL newContent in
  let userEdits :=
    if negb (Js.eqb normalizedPreSaveContent normalizedNewContent) then
      Some (createPrettyPatch relPath normalizedNewContent normalizedPreSaveContent)
    else None in
  let autoFormattingEdits :=
    if negb (Js.eqb normalizedPreSaveContent normalizedPostSaveContent) then
      Some (createPrettyPatch relPath normalizedPreSaveContent normalizedPostSaveContent)
    else None in
  (this, w, mkSaveResult userEdits autoFormattingEdits newProblems editSummary).

(** *** Creating a session *)

Definition isFileOpen (fileUri : Uri) (w : World) : bool :=
  existsb (isTextTabOf (fsPath fileUri)) (concat (tabGroups w)).

Definition closeFileEditorTabs (fileUri : Uri) (w : World) : World :=
  let tabsToClose :=
    filter (fun tab => isTextTabOf (fsPath fileUri) tab = true)
      (concat (tabGroups w)) in
  foldl (fun w tab => closeTab tab w) w tabsToClose.

Definition isReusableDiffTab (fileUri : Uri) (tab : Tab) : bool :=
  match input tab with
  | TabInputNotebookDiff original modified =>
      String.eqb (scheme original) DiffOriginNotebookProvider.scheme
      && String.eqb (fsPath modified) (fsPath fileUri)
  | _ => false
  end.

Definition openDiffEditor (id : string) (fileUri : Uri) (fileExists : bool)
    (originalContent : jsstring) (w : World) : option NotebookEditor * World :=
  let nbEditor :=
    if existsb (isReusableDiffTab fileUri) (concat (tabGroups w)) then
      find (fun e => String.eqb (fsPath (uri (notebook e))) (fsPath fileUri))
        (visibleNotebookEditors w)
    else None in
  match nbEditor with
  | Some nbEditor => (Some nbEditor, w)
  | None => runVSCodeDiff id originalContent fileExists fileUri w
  end.

(** [createDiffView]: [None] when the comparison view does not open. *)
Definition createDiffView (id relpath cwd : string) (w : World)
    : option t * World :=
  let resolvedPath := resolvePath relpath cwd in
  let fileUri := Uri_file resolvedPath in
  let fileExists := bool_decide (is_Some (files w !! fsPath fileUri)) in
  let w :=
    if negb fileExists then
      log (fs_writeFile fileUri [])
        (set_files (<[fsPath fileUri := []]> (files w)) w)
    else w in
  let originalContent := default [] (files w !! fsPath fileUri) in
  match openDiffEditor id fileUri fileExists originalContent w with
  | (None, w) => (None, w)
  | (Some activeDiffEditor, w) =>
      let wasFileOpenBeforeDiff := isFileOpen fileUri w in
      (Some (mk id fileUri fileExists originalContent activeDiffEditor cwd
               wasFileOpenBeforeDiff false false [] (diagnostics w)
               [NotebookChangeListener] (allocated w)),
       set_allocated (S (allocated w)) w)
  end.

(** The hook installed with the first session. *)
Definition installHook (w : World) : World :=
  if (length (DiffViewMap w) =? 0)%nat && negb (DiffViewDisposable w) then
    log onDidChangeTabs (set_DiffViewDisposable true w)
  else w.

(** The function [getOrCreate] wraps, run without interruption. *)
Definition getOrCreate (id relpath cwd : string) (w : World)
    : option t * World :=
  let w := installHook w in
  match JsMap.get id (DiffViewMap w) with
  | Some diffView => (Some diffView, w)
  | None =>
      match createDiffView id relpath cwd w with
      | (None, w) => (None, w)
      | (Some diffView, w) =>
          let w := set_DiffViewMap (JsMap.set id diffView (DiffViewMap w)) w in
          let w := closeFileEditorTabs (fileUri diffView) w in
          (Some diffView, w)
      end
  end.

(** The registry holds references: after the object [this] has changed
    in place, every entry that is this object shows the change, and an
    entry that has been removed in the meantime does not come back. *)
Definition refresh (this : t) (m : list (string * t)) : list (string * t) :=
  map (fun kv => if (self kv.2 =? self this)%nat then (kv.1, this) else kv) m.

(** The static [revertAndClose(id)]: the session object in the registry
    is the one reverted. *)
Definition static_revertAndClose (id : string) (w : World) : World :=
  match JsMap.get id (DiffViewMap w) with
  | Some diffView =>
      let '(diffView, w, _) := revertAndClose diffView w in
      set_DiffViewMap (refresh diffView (DiffViewMap w)) w
  | None => w
  end.

(** *** Detached work

    Detached work gets its turn when the running code waits; the
    functions above are given as they run while it is still waiting, and
    [resume] gives it its turn. *)

Definition resume (d : Detached) (w : World) : World :=
  match d with
  | ScaffoldCheck this => scaffoldCheck this w
  | FocusDiffViews first => focusDiffViews_resumed first w
  end.

(** The detached work started so far, run to its end in the order it
    was started. *)
Definition settle (w : World) : World :=
  foldl (fun w d => resume d w) (set_detached [] w) (detached w).


End WithHost.

End NotebookDiffView.

(* ------------------------------------------------------------------ *)
(** ** Calls of [getOrCreate] under [run-exclusive]

    [getOrCreate] is built with [runExclusive.build] on one group: a call
    waits until no other call of the group is running, runs, and frees the
    group when its promise settles.  A call is suspended at its [await]s;
    between two of them it runs without interruption.  The points kept
    here are the wait for the group, the wait for [createDiffView], and
    the wait for [closeFileEditorTabs]. *)

Module RunExclusive.
Import NotebookDiffView.

(** Where a call stands. *)
Inductive Call : Type :=
| Queued
| AwaitCreate
| AwaitCloseTabs (diffView : t)
| Settled (result : option t).

(** The arguments of a call. *)
Record Args : Type := mkArgs {
  arg_id : string;
  arg_relpath : string;
  arg_cwd : string
}.

Record Config : Type := mkConfig {
  world : World;
  busy : bool;
  call1 : Call;
  call2 : Call
}.

Section WithHost.
Context `{Host}.

(** One uninterrupted stretch of a call.  With [exclusive] unset the
    group is ignored: the function is called bare. *)
Definition advance (exclusive : bool) (a : Args) (c : Call) (busy : bool)
    (w : World) : option (Call * bool * World) :=
  match c with
  | Queued =>
      if exclusive && busy then None
      else
        let w := installHook w in
        match JsMap.get (arg_id a) (DiffViewMap w) with
        | Some diffView => Some (Settled (Some diffView), busy && negb exclusive, w)
        | None => Some (AwaitCreate, true, w)
        end
  | AwaitCreate =>
      match createDiffView (arg_id a) (arg_relpath a) (arg_cwd a) w with
      | (None, w) => Some (Settled None, false, w)
      | (Some diffView, w) =>
          Some (AwaitCloseTabs diffView, true,
                set_DiffViewMap (JsMap.set (arg_id a) diffView (DiffViewMap w)) w)
      end
  | AwaitCloseTabs diffView =>
      Some (Settled (Some diffView), false,
            closeFileEditorTabs (fileUri diffView) w)
  | Settled _ => None
  end.

(** The scheduler resumes either call. *)
Inductive step (exclusive : bool) (a1 a2 : Args) : Config -> Config -> Prop :=
| step_call1 c k b w :
    advance exclusive a1 (call1 c) (busy c) (world c) = Some (k, b, w) ->
    step exclusive a1 a2 c (mkConfig w b k (call2 c))
| step_call2 c k b w :
    advance exclusive a2 (call2 c) (busy c) (world c) = Some (k, b, w) ->
    step exclusive a1 a2 c (mkConfig w b (call1 c) k).

(** Runs of [n] resumptions. *)
Inductive steps (exclusive : bool) (a1 a2 : Args) : nat -> Config -> Config -> Prop :=
| steps_O c : steps exclusive a1 a2 0 c c
| steps_S n c c' c'' :
    step exclusive a1 a2 c c' -> steps exclusive a1 a2 n c' c'' ->
    steps exclusive a1 a2 (S n) c c''.

(** The run the scheduler's choices [s] produce ([true] resumes the
    first call), if every chosen call can be resumed. *)
Fixpoint schedule (exclusive : bool) (a1 a2 : Args) (s : list bool)
    (c : Config) : option Config :=
  match s with
  | [] => Some c
  | true :: s' =>
      match advance exclusive a1 (call1 c) (busy c) (world c) with
      | Some (k, b, w) => schedule exclusive a1 a2 s' (mkConfig w b k (call2 c))
      | None => None
      end
  | false :: s' =>
      match advance exclusive a2 (call2 c) (busy c) (world c) with
      | Some (k, b, w) => schedule exclusive a1 a2 s' (mkConfig w b (call1 c) k)
      | None => None
      end
  end.

(** A call that is never interleaved with another: its three stretches
    in a row. *)
Definition alone (a : Args) (w : World) : option (Call * bool * World) :=
  match advance true a Queued false w with
  | Some (AwaitCreate, b, w) =>
      match advance true a AwaitCreate b w with
      | Some (AwaitCloseTabs diffView, b, w) =>
          advance true a (AwaitCloseTabs diffView) b w
      | other => other
      end
  | other => other
  end.

(** Both calls were just made. *)
Definition start (w : World) : Config := mkConfig w false Queued Queued.

Definition isSettled (c : Call) : bool :=
  match c with Settled _ => true | _ => false end.

Definition settled_both (c : Config) : bool :=
  isSettled (call1 c) && isSettled (call2 c).

(** The file a call is for. *)
Definition target (a : Args) : Uri :=
  Uri_file (resolvePath (arg_relpath a) (arg_cwd a)).

(** A call that waits for [closeFileEditorTabs] holds the session it
    made for its file. *)
Definition onTarget (a : Args) (c : Call) : Prop :=
  match c with
  | AwaitCloseTabs diffView => fileUri diffView = target a
  | _ => True
  end.

(** No plain text tab of a file the calls are for is open, so that
    [closeFileEditorTabs] finds nothing to close and no close event
    reaches the tab handler while the calls run. *)
Definition undisturbed (a1 a2 : Args) (c : Config) : Prop :=
  isFileOpen (target a1) (world c) = false
  /\ isFileOpen (target a2) (world c) = false
  /\ onTarget a1 (call1 c)
  /\ onTarget a2 (call2 c).


End WithHost.

(** The configurations that two calls for the same, unregistered [id]
    pass through from [start w0], listed with the call that entered the
    group first in first place and with the number of resumptions made.
    On the way where that call creates the session, the registry holds
    it from then on, one object has been made and at most one diff
    command issued; on the way where its creation fails, the second call
    starts afresh. *)
Inductive shape (id : string) (w0 : World)
    : Call -> Call -> bool -> World -> nat -> Prop :=
| shape_start :
    shape id w0 Queued Queued false w0 0
| shape_creating w :
    JsMap.get id (DiffViewMap w) = None ->
    allocated w = allocated w0 ->
    diffCommands w = diffCommands w0 ->
    shape id w0 AwaitCreate Queued true w 1
| shape_closing diffView w :
    JsMap.get id (DiffViewMap w) = Some diffView ->
    allocated w = S (allocated w0) ->
    diffCommands w <= S (diffCommands w0) ->
    shape id w0 (AwaitCloseTabs diffView) Queued true w 2
| shape_resolved diffView w :
    JsMap.get id (DiffViewMap w) = Some diffView ->
    allocated w = S (allocated w0) ->
    diffCommands w <= S (diffCommands w0) ->
    shape id w0 (Settled (Some diffView)) Queued false w 3
| shape_agreed diffView w :
    JsMap.get id (DiffViewMap w) = Some diffView ->
    allocated w = S (allocated w0) ->
    diffCommands w <= S (diffCommands w0) ->
    shape id w0 (Settled (Some diffView)) (Settled (Some diffView)) false w 4
| shape_rejected w :
    JsMap.get id (DiffViewMap w) = None ->
    shape id w0 (Settled None) Queued false w 2
| shape_retry w :
    shape id w0 (Settled None) AwaitCreate true w 3
| shape_retry_rejected w :
    shape id w0 (Settled None) (Settled None) false w 4
| shape_retry_closing diffView w :
    shape id w0 (Settled None) (AwaitCloseTabs diffView) true w 4
| shape_retry_resolved diffView w :
    shape id w0 (Settled None) (Settled (Some diffView)) false w 5.

(** Either call may be the one that entered first. *)
Definition shaped (id : string) (w0 : World) (c : Config) (n : nat) : Prop :=
  shape id w0 (call1 c) (call2 c) (busy c) (world c) n
  \/ shape id w0 (call2 c) (call1 c) (busy c) (world c) n.

End RunExclusive.

(* ------------------------------------------------------------------ *)
(** ** A reference for [diff.diffLines]

    [diffLines] is the line diff of the [diff] package.  It cuts both
    texts into lines that keep their terminator and reports a shortest
    edit script as runs of kept, removed and added lines, each run with
    its number of lines.  The reference below computes such a script by
    the longest-common-subsequence recursion. *)

Module JsDiff.

(** The lines of a text, terminators kept; a final empty line is no
    token. *)
Fixpoint tokenize (s : jsstring) : list jsstring :=
  match s with
  | [] => []
  | c :: s' =>
      if (c =? Js.LF)%N then [c] :: tokenize s'
      else match tokenize s' with
           | [] => [[c]]
           | l :: ls => (c :: l) :: ls
           end
  end.

Inductive op : Type := Keep | Del | Ins.

#[global] Instance op_eq_dec : EqDecision op.
Proof. solve_decision. Defined.

Definition cost (script : list op) : nat :=
  length (filter (fun o => o ≠ Keep) script).

(** A shortest script turning [xs] into [ys]; removals come before
    additions where both are as short. *)
Fixpoint script (xs : list jsstring) : list jsstring -> list op :=
  match xs with
  | [] => fun ys => map (fun _ => Ins) ys
  | x :: xs' =>
      fix inner (ys : list jsstring) : list op :=
        match ys with
        | [] => map (fun _ => Del) xs
        | y :: ys' =>
            if bool_decide (x = y) then Keep :: script xs' ys'
            else
              let a := Del :: script xs' ys in
              let b := Ins :: inner ys' in
              if (cost a <=? cost b)%nat then a else b
        end
  end.

Definition partOf (o : op) (n : nat) : Change :=
  mkChange (Some n) (bool_decide (o = Ins)) (bool_decide (o = Del)).

Definition kindOf (p : Change) : op :=
  if added p then Ins else if removed p then Del else Keep.

(** Runs of equal operations, each one part. *)
Fixpoint parts (script : list op) : list Change :=
  match script with
  | [] => []
  | o :: rest =>
      match parts rest with
      | p :: ps =>
          if bool_decide (kindOf p = o) then
            partOf o (S (default 0 (count p))) :: ps
          else partOf o 1 :: p :: ps
      | [] => [partOf o 1]
      end
  end.

Definition diffLines (oldStr newStr : jsstring) : list Change :=
  parts (script (tokenize oldStr) (tokenize newStr)).

End JsDiff.

(* ------------------------------------------------------------------ *)
(** ** A host to run the code on

    A plain-text notebook type: the converter puts the whole text into
    one code cell, the serializer joins the cell texts, saving formats
    nothing, and the editor that becomes active holds the converted file
    content.  Patches are rendered as the pair of texts. *)

Module PlainHost.

Definition toCells (text : jsstring) : list NotebookCellData :=
  [mkCell Code text "plaintext"].

Definition ofCells (cells : list NotebookCellData) : jsstring :=
  concat (map value cells).

Definition notebookTypeName : jsstring := Js.lit "jupyter-notebook".

Definition host : Host := {|
  executeDataToNotebook := fun _ text => Data (toCells text);
  executeNotebookToData := fun _ cells => ofCells cells;
  formatOnSave := fun nb => cells nb;
  activeNotebookEditor := fun u text =>
    Some (mkEditor (mkNotebook u notebookTypeName (toCells text) false));
  resolvePath := fun relpath cwd => cwd +:+ "/" +:+ relpath;
  toBase64 := fun _ => "";
  createPrettyPatch := fun _ a b => Js.lit "--- " ++ a ++ Js.lit "+++ " ++ b;
  diffLines := JsDiff.diffLines;
  newProblemsString := fun _ _ _ => []
|}.

(** A host whose save participants append a semicolon to every cell. *)
Definition formattingHost : Host := {|
  executeDataToNotebook := fun _ text => Data (toCells text);
  executeNotebookToData := fun _ cells => ofCells cells;
  formatOnSave := fun nb =>
    map (fun c => mkCell (kind c) (value c ++ Js.lit ";") (languageId c)) (cells nb);
  activeNotebookEditor := fun u text =>
    Some (mkEditor (mkNotebook u notebookTypeName (toCells text) false));
  resolvePath := fun relpath cwd => cwd +:+ "/" +:+ relpath;
  toBase64 := fun _ => "";
  createPrettyPatch := fun _ a b => Js.lit "--- " ++ a ++ Js.lit "+++ " ++ b;
  diffLines := JsDiff.diffLines;
  newProblemsString := fun _ _ _ => []
|}.

(** Hosts whose converter rejects, whose converter answers [undefined],
    and on which no editor ever becomes active. *)
Definition rejectingHost : Host := {|
  executeDataToNotebook := fun _ _ => Rejected;
  executeNotebookToData := fun _ cells => ofCells cells;
  formatOnSave := fun nb => cells nb;
  activeNotebookEditor := fun u text =>
    Some (mkEditor (mkNotebook u notebookTypeName (toCells text) false));
  resolvePath := fun relpath cwd => cwd +:+ "/" +:+ relpath;
  toBase64 := fun _ => "";
  createPrettyPatch := fun _ a b => Js.lit "--- " ++ a ++ Js.lit "+++ " ++ b;
  diffLines := JsDiff.diffLines;
  newProblemsString := fun _ _ _ => []
|}.

Definition silentHost : Host := {|
  executeDataToNotebook := fun _ _ => Undefined;
  executeNotebookToData := fun _ cells => ofCells cells;
  formatOnSave := fun nb => cells nb;
  activeNotebookEditor := fun u text =>
    Some (mkEditor (mkNotebook u notebookTypeName (toCells text) false));
  resolvePath := fun relpath cwd => cwd +:+ "/" +:+ relpath;
  toBase64 := fun _ => "";
  createPrettyPatch := fun _ a b => Js.lit "--- " ++ a ++ Js.lit "+++ " ++ b;
  diffLines := JsDiff.diffLines;
  newProblemsString := fun _ _ _ => []
|}.

Definition closedHost : Host := {|
  executeDataToNotebook := fun _ text => Data (toCells text);
  executeNotebookToData := fun _ cells => ofCells cells;
  formatOnSave := fun nb => cells nb;
  activeNotebookEditor := fun _ _ => None;
  resolvePath := fun relpath cwd => cwd +:+ "/" +:+ relpath;
  toBase64 := fun _ => "";
  createPrettyPatch := fun _ a b => Js.lit "--- " ++ a ++ Js.lit "+++ " ++ b;
  diffLines := JsDiff.diffLines;
  newProblemsString := fun _ _ _ => []
|}.

End PlainHost.

(* ------------------------------------------------------------------ *)
(** ** Vocabulary of the statements and sample inputs *)

(** The content a live notebook document holds, as text: its cells
    through the serializer of its notebook type. *)
Definition documentText `{Host} (nb : NotebookDocument) : jsstring :=
  executeNotebookToData (notebookType nb) (cells nb).

Module Examples.
Import NotebookDiffView.

Definition nbPath : string := "/w/nb.ipynb".
Definition nbUri : Uri := Uri_file nbPath.

(** ["a\nb\n"], ["a\nc\n"], ["x\ny\n"] and ["{}"] *)
Definition text_ab : jsstring := Js.lit "a" ++ [Js.LF] ++ Js.lit "b" ++ [Js.LF].
Definition text_ac : jsstring := Js.lit "a" ++ [Js.LF] ++ Js.lit "c" ++ [Js.LF].
Definition text_xy : jsstring := Js.lit "x" ++ [Js.LF] ++ Js.lit "y" ++ [Js.LF].
Definition text_braces : jsstring := Js.lit "{}".

(** A workspace in which [nbPath] holds [content], with no tab open, no
    session registered and no call made yet. *)
Definition workspace (content : jsstring) : World :=
  mkWorld [] false false [] [] {[ nbPath := content ]} [] 0 [] [].

(** A session on [nbPath] whose notebook holds [text] in one cell. *)
Definition session (original text : jsstring) (dirty finalized reverted : bool)
    (streamed : list jsstring) : t :=
  mk "X" nbUri true original
    (mkEditor (mkNotebook nbUri PlainHost.notebookTypeName (PlainHost.toCells text) dirty))
    "/w" false finalized reverted streamed [] [NotebookChangeListener] 0.

(** The comparison tab of session ["X"] and an unrelated text tab. *)
Definition diffTabX : Tab :=
  mkTab (TabInputNotebookDiff
           (mkUri DiffOriginNotebookProvider.scheme "X" "" nbPath) nbUri) false.
Definition readmeTab : Tab := mkTab (TabInputText (Uri_file "/w/README.md")) false.

(** Session ["X"] is registered and its comparison tab is open. *)
Definition worldWithX : World :=
  mkWorld [("X", session text_ab text_ab false false false [])] true false
    [[diffTabX]] [] {[ nbPath := text_ab ]} [] 1 [] [].

(** A session that has been finalized with ["a\nc\n"]. *)
Definition finalizedSession : t :=
  session text_ab text_ac true true false (Js.split_LF text_ac).

(** A fresh session: nothing streamed, the notebook as on disk. *)
Definition freshSession : t := session text_ab text_ab false false false [].

(** ["\ufeff{}"] *)
Definition text_bom_braces : jsstring := Js.BOM :: text_braces.

(** A session whose notebook holds ["{}"], unchanged since it was
    loaded, and one whose notebook holds unsaved ["x"]. *)
Definition cleanSession : t := session text_braces text_braces false true false [].
Definition dirtySession : t := session text_braces (Js.lit "x") true true false [].

(** The scenario of an edit of an existing file: the session is
    created on a file holding ["a\nb\n"], the final content ["a\nc\n"]
    is streamed, and the changes are saved. *)
Definition editScenario : option (t * World * SaveResult) :=
  match getOrCreate (H := PlainHost.host) "X" "nb.ipynb" "/w" (workspace text_ab) with
  | (Some diffView, w) =>
      let '(diffView, w) :=
        update (H := PlainHost.host) diffView w text_ac true None in
      Some (saveChanges (H := PlainHost.host) diffView w "nb.ipynb" text_ac)
  | (None, _) => None
  end.

(** The same with content that starts with a byte-order mark, on a file
    holding ["{}"]. *)
Definition bomScenario : option (t * World * SaveResult) :=
  match getOrCreate (H := PlainHost.host) "X" "nb.ipynb" "/w" (workspace text_braces) with
  | (Some diffView, w) =>
      let '(diffView, w) :=
        update (H := PlainHost.host) diffView w text_bom_braces true None in
      Some (saveChanges (H := PlainHost.host) diffView w "nb.ipynb" text_bom_braces)
  | (None, _) => None
  end.

(** The session a call for ["Y"] on [workspace text_ab] creates. *)
Definition sessionY : t :=
  mk "Y" nbUri true text_ab
    (mkEditor (mkNotebook nbUri PlainHost.notebookTypeName (PlainHost.toCells text_ab) false))
    "/w" false false false [] [] [NotebookChangeListener] 0.

(** Two calls of [getOrCreate] for the unregistered id ["Y"]. *)
Definition callY : RunExclusive.Args := RunExclusive.mkArgs "Y" "nb.ipynb" "/w".

(** The first call runs to its end, then the second. *)
Definition oneAfterTheOther : RunExclusive.Config :=
  default (RunExclusive.start (workspace text_ab))
    (RunExclusive.schedule (H := PlainHost.host) true callY callY
       [true; true; true; false] (RunExclusive.start (workspace text_ab))).

(** The workspace with the file open in a plain text tab, and the two
    calls for ["Y"] made there: the first call alone, and the first call
    followed by the second. *)
Definition workspaceWithTextTab (content : jsstring) : World :=
  set_tabGroups [[mkTab (TabInputText nbUri) false]] (workspace content).

Definition firstCallDone : RunExclusive.Config :=
  default (RunExclusive.start (workspaceWithTextTab text_ab))
    (RunExclusive.schedule (H := PlainHost.host) true callY callY
       [true; true; true] (RunExclusive.start (workspaceWithTextTab text_ab))).

Definition bothCallsDone : RunExclusive.Config :=
  default (RunExclusive.start (workspaceWithTextTab text_ab))
    (RunExclusive.schedule (H := PlainHost.host) true callY callY
       [true; true; true; false; false; false]
       (RunExclusive.start (workspaceWithTextTab text_ab))).

(** Without the group the two calls can alternate. *)
Definition alternating : RunExclusive.Config :=
  default (RunExclusive.start (workspace text_ab))
    (RunExclusive.schedule (H := PlainHost.host) false callY callY
       [true; false; true; false; true; false]
       (RunExclusive.start (workspace text_ab))).

End Examples.

(* ------------------------------------------------------------------ *)
(** ** The tool [editNotebook] ([edit-notebook.ts])

    The notebook utilities of [@getpochi/common/tool-utils] are taken as
    they come: [validateNotebookPath] passes or throws, and parsing,
    editing a cell and serializing give a value or throw.  Node's [fs]
    reads and writes the files of the host state. *)

Module EditNotebook.
Import NotebookDiffView.

(** The second argument of the tool function. *)
Record Options : Type := mkOptions {
  cwd : string;
  toolCallId : string;
  nonInteractive : bool;
  abortSignal : option nat
}.

Section Tool.
Context `{Host} {Notebook : Type}.
Variable validateNotebookPath : string -> bool.
Variable parseNotebook : jsstring -> option Notebook.
Variable editNotebookCell : Notebook -> string -> jsstring -> option Notebook.
Variable serializeNotebook : Notebook -> option jsstring.

(** The statements of the [try] block up to [serialized]; [None] when
    one of them throws. *)
Definition serialized (filePath cellId : string) (content : jsstring)
    (o : Options) (w : World) : option jsstring :=
  let absolutePath := resolvePath filePath (cwd o) in
  if validateNotebookPath absolutePath then
    match files w !! absolutePath with
    | Some fileContent =>
        match parseNotebook fileContent with
        | Some notebook =>
            match editNotebookCell notebook cellId content with
            | Some updatedNotebook => serializeNotebook updatedNotebook
            | None => None
            end
        | None => None
        end
    | None => None
    end
  else None.

(** The [catch] block: [if (toolCallId) NotebookDiffView.revertAndClose(toolCallId)].
    The call is not awaited; the model runs it at once. *)
Definition onError (o : Options) (w : World) : World :=
  if (String.length (toolCallId o) =? 0)%nat then w
  else static_revertAndClose (toolCallId o) w.

(** [editNotebook({path, cellId, content}, options)]: the [success] of
    the result.  [update] changes the session object in place; the
    registry shows the change where it still holds the object. *)
Definition editNotebook (filePath cellId : string) (content : jsstring)
    (o : Options) (w : World) : bool * World :=
  match serialized filePath cellId content o w with
  | None => (false, onError o w)
  | Some serialized =>
      if nonInteractive o then
        (true,
         set_files (<[resolvePath filePath (cwd o) := serialized]> (files w)) w)
      else
        match getOrCreate (toolCallId o) filePath (cwd o) w with
        | (None, w) => (false, onError o w)
        | (Some nbView, w) =>
            let '(nbView, w) := update nbView w serialized true (abortSignal o) in
            (true, set_DiffViewMap (refresh nbView (DiffViewMap w)) w)
        end
  end.

End Tool.

End EditNotebook.

(* ------------------------------------------------------------------ *)
(** ** Vocabulary of the further properties *)

Module Effects.
Import NotebookDiffView.

(** The world [w] after the host calls [extra], with nothing else
    changed. *)
Definition append_calls (extra : list HostCall) (w : World) : World :=
  mkWorld (DiffViewMap w) (DiffViewDisposable w) (needFocusDiffViews w)
    (tabGroups w) (visibleNotebookEditors w) (files w) (diagnostics w)
    (allocated w) (calls w ++ extra) (detached w).

(** A call of the scroll feedback: a reveal or a timer. *)
Definition isScroll (h : HostCall) : bool :=
  match h with revealRange _ => true | timer _ => true | _ => false end.

(** A reveal stays within a document of [count] cells: its index is a
    valid cell index, or 0 for an empty document. *)
Definition revealWithin (count : Z) (h : HostCall) : Prop :=
  match h with
  | revealRange index => (0 <= index <= Z.max 0 (count - 1))%Z
  | _ => True
  end.

(** One frame of the scroll animation: a wait of 16 ms. *)
Definition isFrame (h : HostCall) : bool :=
  match h with timer 16 => true | _ => false end.

Definition frames (l : list HostCall) : nat :=
  length (filter (fun h => isFrame h = true) l).

(** While a session is registered the tab hook is installed. *)
Definition hooked (w : World) : Prop :=
  DiffViewMap w <> [] -> DiffViewDisposable w = true.


(** A call the tab handler makes: it disposes of a listener or issues
    the diff command that starts the refocusing. *)
Definition isHandlerCall (h : HostCall) : Prop :=
  match h with
  | dispose_of _ => True
  | vscode_diff _ _ _ => True
  | _ => False
  end.

(** [w'] shows the host as [w] does where the tab handler has no
    business: the files, the tabs, the visible editors, the diagnostics
    and the number of session objects made. *)
Definition sameHost (w w' : World) : Prop :=
  files w' = files w
  /\ tabGroups w' = tabGroups w
  /\ visibleNotebookEditors w' = visibleNotebookEditors w
  /\ diagnostics w' = diagnostics w
  /\ allocated w' = allocated w.

(** The registry [m'] holds, under every id, what [m] holds or
    nothing: entries have been removed, none added or changed. *)
Definition pruned (m m' : list (string * t)) : Prop :=
  forall k, JsMap.get k m' = JsMap.get k m \/ JsMap.get k m' = None.

(** A comparison view without unsaved changes is open: a tab that
    [closeAllNonDirtyDiffViews] closes. *)
Definition cleanViewOpen (w : World) : bool :=
  existsb (fun tab => isOriginNotebookDiff tab && negb (tabIsDirty tab))
    (concat (tabGroups w)).

(** A character [trimEnd] removes. *)
Definition blank (c : N) : Prop := Js.isWhiteSpace c = true.


End Effects.

(* ------------------------------------------------------------------ *)
(** * Properties of the providers *)

Section Providers.
Import DiffModifiedNotebookProvider.
Context `{JsNumbers}.

Lemma run_snoc (calls : list SetCall) (c : SetCall) (p : t) :
  run (calls ++ [c]) p =
  setForFile (run calls p) (set_id c) (set_path c) (set_data c) (set_version c).
Proof. unfold run. now rewrite foldl_app. Qed.

Lemma content_run_snoc (calls : list SetCall) (c : SetCall) (p : t) :
  content (run (calls ++ [c]) p) =
  <[callKey c := set_data c]> (content (run calls p)).
Proof. now rewrite run_snoc. Qed.

(** The store after a run of [setForFile] calls holds, under each key,
    the bytes of the last call on that key. *)
Lemma content_run (calls : list SetCall) (key : string) :
  content (run calls create) !! key = lastWrite calls key.
Proof.
  induction calls as [|c calls IH] using rev_ind.
  - reflexivity.
  - rewrite content_run_snoc. unfold lastWrite.
    rewrite rev_unit. cbn [List.find].
    destruct (decide (callKey c = key)) as [->|Hne].
    + rewrite lookup_insert_eq, bool_decide_eq_true_2 by reflexivity.
      reflexivity.
    + rewrite lookup_insert_ne by assumption.
      rewrite bool_decide_eq_false_2 by assumption.
      exact IH.
Qed.

Lemma lastWrite_never_written (calls : list SetCall) (key : string) :
  key ∉ map callKey calls -> lastWrite calls key = None.
Proof.
  intros Hnot. unfold lastWrite.
  destruct (List.find _ (rev calls)) as [c|] eqn:Hfind; [|reflexivity].
  apply List.find_some in Hfind as [Hin Hkey].
  apply bool_decide_eq_true in Hkey.
  exfalso. apply Hnot. rewrite <- Hkey.
  apply list_elem_of_In, in_map, in_rev, Hin.
Qed.

End Providers.

(** C8, as amended: on the modified-content provider [readFile] returns
    the bytes last stored under the key of the URI, or fails with
    [FileNotFound] when no [setForFile] call stored that key; on the
    original-content provider [readFile] never fails and returns the
    bytes decoded from the base64 query of the URI; on both providers
    [writeFile], [createDirectory], [delete] and [rename] fail with
    [NoPermissions]. *)
Theorem providers_readFile_and_mutations `{JsNumbers}
    (calls : list DiffModifiedNotebookProvider.SetCall) (uri : Uri) :
  DiffModifiedNotebookProvider.readFile
    (DiffModifiedNotebookProvider.run calls DiffModifiedNotebookProvider.create) uri
    = (match DiffModifiedNotebookProvider.lastWrite calls (query uri) with
       | Some data => Returns data
       | None => Throws (FileNotFound uri)
       end)
  /\ DiffOriginNotebookProvider.readFile uri = Returns (Base64.decode (query uri))
  /\ (DiffModifiedNotebookProvider.writeFile = Throws NoPermissions
      /\ DiffModifiedNotebookProvider.createDirectory = Throws NoPermissions
      /\ DiffModifiedNotebookProvider.delete = Throws NoPermissions
      /\ DiffModifiedNotebookProvider.rename = Throws NoPermissions)
  /\ (DiffOriginNotebookProvider.writeFile = Throws NoPermissions
      /\ DiffOriginNotebookProvider.createDirectory = Throws NoPermissions
      /\ DiffOriginNotebookProvider.delete = Throws NoPermissions
      /\ DiffOriginNotebookProvider.rename = Throws NoPermissions).
Proof.
  split.
  - unfold DiffModifiedNotebookProvider.readFile.
    rewrite content_run.
    now destruct (DiffModifiedNotebookProvider.lastWrite calls (query uri)).
  - repeat split.
Qed.

(** C8, as stated, fails on the original-content provider: it has no
    store, so no key is ever present, yet [readFile] returns bytes
    instead of failing with [FileNotFound] - here for an empty query and
    for the payload ["aGk="]. *)
Lemma origin_readFile_never_not_found :
  DiffOriginNotebookProvider.readFile
    (mkUri DiffOriginNotebookProvider.scheme "X" "" "/w/a.ipynb")
    = Returns []
  /\ DiffOriginNotebookProvider.readFile
       (mkUri DiffOriginNotebookProvider.scheme "X" "aGk=" "/w/a.ipynb")
     = Returns [Byte.x68; Byte.x69]
  /\ DiffOriginNotebookProvider.readFile
       (mkUri DiffOriginNotebookProvider.scheme "X" "" "/w/a.ipynb")
     <> Throws (FileNotFound (mkUri DiffOriginNotebookProvider.scheme "X" "" "/w/a.ipynb")).
Proof. repeat split. discriminate. Qed.

(** C10: on the modified-content provider [stat] returns for every URI,
    and for a key that no [setForFile] call has written it returns a
    file entry of size 0, while [readFile] on the same URI fails with
    [FileNotFound]. *)
Theorem modified_stat_of_unwritten_key `{JsNumbers}
    (calls : list DiffModifiedNotebookProvider.SetCall) (now : Z) (uri : Uri) :
  query uri ∉ map DiffModifiedNotebookProvider.callKey calls ->
  (forall uri' : Uri, exists st,
      DiffModifiedNotebookProvider.stat
        (DiffModifiedNotebookProvider.run calls DiffModifiedNotebookProvider.create)
        now uri' = Returns st /\ type st = FileType_File)
  /\ DiffModifiedNotebookProvider.stat
       (DiffModifiedNotebookProvider.run calls DiffModifiedNotebookProvider.create)
       now uri = Returns (mkFileStat FileType_File now now 0)
  /\ DiffModifiedNotebookProvider.readFile
       (DiffModifiedNotebookProvider.run calls DiffModifiedNotebookProvider.create)
       uri = Throws (FileNotFound uri).
Proof.
  intros Hnot. split; [|split].
  - intros uri'. unfold DiffModifiedNotebookProvider.stat. eauto.
  - unfold DiffModifiedNotebookProvider.stat.
    now rewrite content_run, lastWrite_never_written.
  - unfold DiffModifiedNotebookProvider.readFile.
    now rewrite content_run, lastWrite_never_written.
Qed.

Lemma modified_stat_of_unwritten_key_witness :
  ("X:1" ∉ map DiffModifiedNotebookProvider.callKey
          [DiffModifiedNotebookProvider.mkSetCall (H := SafeInteger.numbers) "X" "/w/a.ipynb" [Byte.x7b; Byte.x7d] None])
  /\ DiffModifiedNotebookProvider.stat
       (DiffModifiedNotebookProvider.run
          [DiffModifiedNotebookProvider.mkSetCall (H := SafeInteger.numbers) "X" "/w/a.ipynb" [Byte.x7b; Byte.x7d] None]
          DiffModifiedNotebookProvider.create)
       1700000000000 (mkUri DiffModifiedNotebookProvider.scheme "/w/a.ipynb" "X:1" "")
     = Returns (mkFileStat FileType_File 1700000000000 1700000000000 0)
  /\ DiffModifiedNotebookProvider.readFile
       (DiffModifiedNotebookProvider.run
          [DiffModifiedNotebookProvider.mkSetCall (H := SafeInteger.numbers) "X" "/w/a.ipynb" [Byte.x7b; Byte.x7d] None]
          DiffModifiedNotebookProvider.create)
       (mkUri DiffModifiedNotebookProvider.scheme "/w/a.ipynb" "X:1" "")
     = Throws (FileNotFound (mkUri DiffModifiedNotebookProvider.scheme "/w/a.ipynb" "X:1" "")).
Proof.
  assert (Hnot : "X:1" ∉ map DiffModifiedNotebookProvider.callKey
          [DiffModifiedNotebookProvider.mkSetCall (H := SafeInteger.numbers) "X" "/w/a.ipynb" [Byte.x7b; Byte.x7d] None]).
  { vm_compute. intros Hin. apply list_elem_of_In in Hin.
    destruct Hin as [Heq|[]]. discriminate Heq. }
  split; [exact Hnot|].
  exact (proj2 (modified_stat_of_unwritten_key (H := SafeInteger.numbers)
    [DiffModifiedNotebookProvider.mkSetCall (H := SafeInteger.numbers) "X" "/w/a.ipynb" [Byte.x7b; Byte.x7d] None]
    1700000000000 (mkUri DiffModifiedNotebookProvider.scheme "/w/a.ipynb" "X:1" "") Hnot)).
Defined.

(* ------------------------------------------------------------------ *)
(** * Properties of a session *)

Section Session.
Import NotebookDiffView.
Context `{Host}.

Lemma saveAll_isReverted (this : t) (w : World) :
  isReverted (saveAll this w).1 = isReverted this.
Proof.
  unfold saveAll. now destruct (isDirty (notebook (activeDiffEditor this))).
Qed.

Lemma discardChanges_isReverted (this : t) (w : World) (original : jsstring) :
  isReverted (discardChangesWithWorkspaceEdit this w original).1.1 = isReverted this.
Proof.
  unfold discardChangesWithWorkspaceEdit.
  destruct (isDirty (notebook (activeDiffEditor this))); [|reflexivity].
  cbn [negb].
  now destruct (executeDataToNotebook _ original).
Qed.

(** Once [revertAndClose] has run, the session is marked reverted. *)
Lemma revertAndClose_isReverted (this : t) (w : World) :
  isReverted (revertAndClose this w).1.1 = true.
Proof.
  unfold revertAndClose.
  destruct (isReverted this) eqn:Hrev; [exact Hrev|].
  pose proof (discardChanges_isReverted (set_isReverted true this) w
                (originalContent (set_isReverted true this))) as Hd.
  cbn [originalContent set_isReverted] in *.
  destruct (discardChangesWithWorkspaceEdit _ w _) as [[this1 w1] [|]];
    exact Hd.
Qed.

End Session.

(** C4: on a session whose finalized flag or reverted flag is set,
    [update] returns the session and the host state as they were: the
    streamed lines, the finalized flag and the document are unchanged,
    and no host call is made. *)
Theorem update_after_finalized_or_reverted `{Host}
    (this : NotebookDiffView.t) (w : NotebookDiffView.World)
    (content : jsstring) (isFinal : bool) (abortSignal : option nat) :
  NotebookDiffView.isFinalized this = true
    \/ NotebookDiffView.isReverted this = true ->
  NotebookDiffView.update this w content isFinal abortSignal = (this, w).
Proof.
  intros [Hflag|Hflag]; unfold NotebookDiffView.update; rewrite Hflag;
    [reflexivity | now rewrite orb_true_r].
Qed.

Lemma update_after_finalized_or_reverted_witness :
  NotebookDiffView.update (H := PlainHost.host)
    (Examples.session Examples.text_ab Examples.text_ac true true false
       (Js.split_LF Examples.text_ac))
    (Examples.workspace Examples.text_ab) Examples.text_xy true (Some 7)
  = (Examples.session Examples.text_ab Examples.text_ac true true false
       (Js.split_LF Examples.text_ac),
     Examples.workspace Examples.text_ab).
Proof.
  apply (update_after_finalized_or_reverted (H := PlainHost.host)).
  left. reflexivity.
Defined.

(** The first [revertAndClose] on a session with unsaved changes does
    act: it converts the original content, replaces the cells, saves,
    and closes the comparison tab. *)
Example revertAndClose_first_call :
  NotebookDiffView.calls
    (NotebookDiffView.revertAndClose (H := PlainHost.host) Examples.dirtySession
       (NotebookDiffView.set_tabGroups [[Examples.diffTabX]]
          (Examples.workspace Examples.text_braces))).1.2
  = [dataToNotebook PlainHost.notebookTypeName Examples.text_braces;
     applyEdit_replaceCells Examples.nbUri 0 1 (PlainHost.toCells Examples.text_braces);
     workspace_saveAll;
     tabGroups_close Examples.diffTabX].
Proof. vm_compute. reflexivity. Qed.

(** C5: a second [revertAndClose] after a first one returns at once: it
    fulfils, and leaves the session and the host state - with it the log
    of host calls, so no document revert, save-all, tab closing or file
    reopening is issued again - exactly as the first call left them. *)
Theorem revertAndClose_twice `{Host}
    (this : NotebookDiffView.t) (w : NotebookDiffView.World) :
  NotebookDiffView.revertAndClose
    (NotebookDiffView.revertAndClose this w).1.1
    (NotebookDiffView.revertAndClose this w).1.2
  = ((NotebookDiffView.revertAndClose this w).1.1,
     (NotebookDiffView.revertAndClose this w).1.2,
     NotebookDiffView.Fulfilled).
Proof.
  pose proof (revertAndClose_isReverted this w) as Hrev.
  destruct (NotebookDiffView.revertAndClose this w) as [[this1 w1] r].
  cbn [fst snd] in *.
  unfold NotebookDiffView.revertAndClose. now rewrite Hrev.
Qed.

Section Streaming.
Import NotebookDiffView.
Context `{Host}.

Lemma split_LF_nonempty (s : jsstring) : Js.split_LF s <> [].
Proof.
  destruct s as [|c s]; cbn; [discriminate|].
  destruct (c =? Js.LF)%N; [discriminate|].
  destruct (Js.split_LF s); discriminate.
Qed.

(** A chunk that is not final loses exactly its last line. *)
Lemma accumulatedLinesOf_not_final (content : jsstring) :
  Js.split_LF (stripBOM content) =
  accumulatedLinesOf content false ++ [List.last (Js.split_LF (stripBOM content)) []].
Proof.
  unfold accumulatedLinesOf. cbn [negb].
  apply app_removelast_last, split_LF_nonempty.
Qed.

Lemma accumulatedLinesOf_final (content : jsstring) :
  accumulatedLinesOf content true = Js.split_LF (stripBOM content).
Proof. reflexivity. Qed.

(** An accepted [update] stores the retained lines. *)
Lemma update_streamedLines (this : t) (w : World) (content : jsstring)
    (isFinal : bool) (abortSignal : option nat) :
  isFinalized this = false -> isReverted this = false ->
  streamedLines (update this w content isFinal abortSignal).1
  = accumulatedLinesOf content isFinal.
Proof.
  intros Hfin Hrev. unfold update. rewrite Hfin, Hrev. cbn [orb].
  unfold listenForAbort, applyFinalContent.
  destruct abortSignal as [signal|], isFinal; try reflexivity;
    cbn -[accumulatedLinesOf stripBOM revealNewLines];
    now destruct (executeDataToNotebook _ (stripBOM content)).
Qed.

(** A chunk that is not final changes the host only by the feedback for
    the retained lines that are new against the streamed ones. *)
Lemma update_not_final_world (this : t) (w : World) (content : jsstring)
    (abortSignal : option nat) :
  isFinalized this = false -> isReverted this = false ->
  (update this w content false abortSignal).2
  = revealNewLines (listenForAbort this w abortSignal).1
      (listenForAbort this w abortSignal).2
      (drop (length (streamedLines this)) (accumulatedLinesOf content false)).
Proof.
  intros Hfin Hrev. unfold update. rewrite Hfin, Hrev. cbn [orb].
  now destruct abortSignal.
Qed.

(** [stripBOM] removes one leading mark and nothing else. *)
Lemma stripBOM_cons (s : jsstring) : stripBOM (Js.BOM :: s) = s.
Proof. reflexivity. Qed.

Lemma stripBOM_other (s : jsstring) :
  Js.startsWith [Js.BOM] s = false -> stripBOM s = s.
Proof. unfold stripBOM. now intros ->. Qed.

End Streaming.

(** C7, as amended: an [update] call on a session that is neither
    finalized nor reverted splits the content, less one leading
    byte-order mark, at line feeds; when [isFinal] is false exactly the
    last line of the split is dropped, and it is dropped before the
    lines are compared with the streamed ones (the feedback is computed
    from the retained lines beyond those already streamed); when
    [isFinal] is true no line is dropped; and the session's streamed
    lines afterwards are the lines retained. *)
Theorem update_retains_complete_lines `{Host}
    (this : NotebookDiffView.t) (w : NotebookDiffView.World)
    (content : jsstring) (isFinal : bool) (abortSignal : option nat) :
  NotebookDiffView.isFinalized this = false ->
  NotebookDiffView.isReverted this = false ->
  NotebookDiffView.streamedLines
    (NotebookDiffView.update this w content isFinal abortSignal).1
  = (if isFinal then Js.split_LF (NotebookDiffView.stripBOM content)
     else removelast (Js.split_LF (NotebookDiffView.stripBOM content)))
  /\ Js.split_LF (NotebookDiffView.stripBOM content)
     = removelast (Js.split_LF (NotebookDiffView.stripBOM content))
       ++ [List.last (Js.split_LF (NotebookDiffView.stripBOM content)) []]
  /\ (NotebookDiffView.update this w content false abortSignal).2
     = NotebookDiffView.revealNewLines
         (NotebookDiffView.listenForAbort this w abortSignal).1
         (NotebookDiffView.listenForAbort this w abortSignal).2
         (drop (length (NotebookDiffView.streamedLines this))
            (removelast (Js.split_LF (NotebookDiffView.stripBOM content)))).
Proof.
  intros Hfin Hrev. split; [|split].
  - rewrite update_streamedLines by assumption.
    unfold NotebookDiffView.accumulatedLinesOf. now destruct isFinal.
  - apply accumulatedLinesOf_not_final.
  - now rewrite update_not_final_world.
Qed.

Lemma update_retains_complete_lines_witness :
  NotebookDiffView.streamedLines
    (NotebookDiffView.update (H := PlainHost.host) Examples.freshSession
       (Examples.workspace Examples.text_ab)
       (Examples.text_xy ++ Js.lit "z") false None).1
  = removelast (Js.split_LF (NotebookDiffView.stripBOM (Examples.text_xy ++ Js.lit "z")))
  /\ removelast (Js.split_LF (NotebookDiffView.stripBOM (Examples.text_xy ++ Js.lit "z")))
     = [Js.lit "x"; Js.lit "y"].
Proof.
  split; [|reflexivity].
  exact (proj1 (update_retains_complete_lines (H := PlainHost.host)
    Examples.freshSession (Examples.workspace Examples.text_ab)
    (Examples.text_xy ++ Js.lit "z") false None eq_refl eq_refl)).
Defined.

(** C7, as stated, fails.  On a finalized session [update] returns
    before any splitting: the streamed lines stay those of ["a\nc\n"]
    although the retained lines of the new content ["x\ny\n"] are [x]
    and [y].  And on a fresh session the lines come from the content
    after its byte-order mark is removed, not from the content. *)
Lemma update_streamedLines_counterexample :
  NotebookDiffView.streamedLines
    (NotebookDiffView.update (H := PlainHost.host) Examples.finalizedSession
       (Examples.workspace Examples.text_ab) Examples.text_xy false None).1
  = [Js.lit "a"; Js.lit "c"; []]
  /\ removelast (Js.split_LF Examples.text_xy) = [Js.lit "x"; Js.lit "y"]
  /\ NotebookDiffView.streamedLines
       (NotebookDiffView.update (H := PlainHost.host) Examples.freshSession
          (Examples.workspace Examples.text_ab) (Js.BOM :: Examples.text_xy) true None).1
     = [Js.lit "x"; Js.lit "y"; []]
  /\ Js.split_LF (Js.BOM :: Examples.text_xy) = [Js.BOM :: Js.lit "x"; Js.lit "y"; []].
Proof. repeat split. Qed.

(* ------------------------------------------------------------------ *)
(** * What closing a tab sets off *)

Section Closing.
Import NotebookDiffView Effects.
Context `{Host}.

Lemma foldl_keeps {A B : Type} (P : World -> B) (f : World -> A -> World)
    (l : list A) :
  (forall w x, P (f w x) = P w) -> forall w, P (foldl f w l) = P w.
Proof.
  intros Hf. induction l as [|x l IH]; intros w; cbn [foldl].
  - reflexivity.
  - now rewrite IH, Hf.
Qed.

Lemma sameHost_refl (w : World) : sameHost w w.
Proof. now repeat split. Qed.

Lemma sameHost_trans (w1 w2 w3 : World) :
  sameHost w1 w2 -> sameHost w2 w3 -> sameHost w1 w3.
Proof.
  intros (Hf & Ht & Hv & Hd & Ha) (Hf' & Ht' & Hv' & Hd' & Ha').
  repeat split; congruence.
Qed.

(** A run of host calls that change nothing else. *)
Lemma logging_each {A : Type} (f : A -> HostCall) (l : list A) (w : World) :
  foldl (fun w x => log (f x) w) w l = append_calls (map f l) w.
Proof.
  revert w. induction l as [|x l IH]; intros w; cbn [foldl map].
  - destruct w. unfold append_calls. cbn. now rewrite app_nil_r.
  - rewrite IH. unfold append_calls, log. cbn. now rewrite <- app_assoc.
Qed.

(** [dispose] as it returns: the listeners have been disposed of, in
    order; the scaffold check is started for a session that made its
    file; nothing else has changed - no file in particular. *)
Lemma dispose_returns (this : t) (w : World) :
  dispose this w
  = append_calls (map dispose_of (disposables this))
      (if fileExists this then w else defer (ScaffoldCheck this) w).
Proof.
  unfold dispose. rewrite logging_each. now destruct (fileExists this).
Qed.

Lemma dispose_sameHost (this : t) (w : World) : sameHost w (dispose this w).
Proof. rewrite dispose_returns. destruct (fileExists this); now repeat split. Qed.

Lemma dispose_bindings (this : t) (w : World) :
  DiffViewMap (dispose this w) = DiffViewMap w
  /\ DiffViewDisposable (dispose this w) = DiffViewDisposable w
  /\ needFocusDiffViews (dispose this w) = needFocusDiffViews w.
Proof. rewrite dispose_returns. destruct (fileExists this); now repeat split. Qed.

Lemma dispose_trace (this : t) (w : World) :
  exists extra,
    calls (dispose this w) = calls w ++ extra
    /\ Forall isHandlerCall extra
    /\ Forall (fun h => isDiffCommand h = false) extra.
Proof.
  rewrite dispose_returns. exists (map dispose_of (disposables this)).
  split; [now destruct (fileExists this)|].
  split; apply Forall_map, Forall_true; now intros d.
Qed.

Lemma removeMarked_sameHost (ids : JsSet.t) (w : World) :
  sameHost w (removeMarked ids w).
Proof.
  unfold removeMarked. revert w.
  induction ids as [|k ids IH]; intros w; cbn [foldl]; [apply sameHost_refl|].
  eapply sameHost_trans; [|apply IH].
  destruct (JsMap.get k (DiffViewMap w)) as [diffView|]; [|apply sameHost_refl].
  destruct (dispose_sameHost diffView w) as (Hf & Ht & Hv & Hd & Ha).
  now repeat split.
Qed.

Lemma removeMarked_flags (ids : JsSet.t) (w : World) :
  DiffViewDisposable (removeMarked ids w) = DiffViewDisposable w
  /\ needFocusDiffViews (removeMarked ids w) = needFocusDiffViews w.
Proof.
  unfold removeMarked. revert w.
  induction ids as [|k ids IH]; intros w; cbn [foldl]; [now split|].
  destruct (IH (match JsMap.get k (DiffViewMap w) with
                | Some diffView =>
                    set_DiffViewMap (JsMap.delete k (DiffViewMap (dispose diffView w)))
                      (dispose diffView w)
                | None => w
                end)) as (-> & ->).
  destruct (JsMap.get k (DiffViewMap w)) as [diffView|]; [|now split].
  destruct (dispose_bindings diffView w) as (_ & Hh & Hn).
  now split.
Qed.

Lemma removeMarked_trace (ids : JsSet.t) (w : World) :
  exists extra,
    calls (removeMarked ids w) = calls w ++ extra
    /\ Forall isHandlerCall extra
    /\ Forall (fun h => isDiffCommand h = false) extra.
Proof.
  unfold removeMarked. revert w.
  induction ids as [|k ids IH]; intros w; cbn [foldl].
  - exists []. now rewrite app_nil_r.
  - destruct (IH (match JsMap.get k (DiffViewMap w) with
                  | Some diffView =>
                      set_DiffViewMap (JsMap.delete k (DiffViewMap (dispose diffView w)))
                        (dispose diffView w)
                  | None => w
                  end)) as (extra & -> & Hall & Hno).
    destruct (JsMap.get k (DiffViewMap w)) as [diffView|]; [|now exists extra].
    destruct (dispose_trace diffView w) as (extra0 & Hc & Hall0 & Hno0).
    exists (extra0 ++ extra). cbn [calls set_DiffViewMap]. rewrite Hc.
    split; [now rewrite app_assoc|]. split; apply Forall_app; now split.
Qed.

(** The handler leaves the host alone: it works on the registry, the
    hook, the refocus request, the log and the detached work. *)
Lemma handleTabChanges_sameHost (closed : list Tab) (w : World) :
  sameHost w (handleTabChanges closed w).
Proof.
  unfold handleTabChanges. destruct closed as [|tab closed]; [apply sameHost_refl|].
  set (w1 := removeMarked _ w).
  assert (H1 : sameHost w w1) by apply removeMarked_sameHost.
  set (w2 := if _ && _ then _ else w1).
  assert (H2 : sameHost w1 w2).
  { subst w2. destruct (_ && _); now repeat split. }
  eapply sameHost_trans; [exact H1|]. eapply sameHost_trans; [exact H2|].
  destruct (needFocusDiffViews w2); [|apply sameHost_refl].
  unfold focusDiffViews. cbn [DiffViewMap set_needFocusDiffViews].
  destruct (DiffViewMap w2) as [|[k first] m]; now repeat split.
Qed.

(** The calls of the handler: listeners disposed of, and at most one
    diff command. *)
Lemma handleTabChanges_trace (closed : list Tab) (w : World) :
  exists extra,
    calls (handleTabChanges closed w) = calls w ++ extra
    /\ Forall isHandlerCall extra
    /\ length (filter (fun h => isDiffCommand h = true) extra)
       <= (if needFocusDiffViews w then 1 else 0).
Proof.
  unfold handleTabChanges. destruct closed as [|tab closed].
  { exists []. rewrite app_nil_r. split; [reflexivity|]. split; [constructor|]. cbn. lia. }
  destruct (removeMarked_trace (idsToRemove (visibleDiffViewIds w) (DiffViewMap w)) w)
    as (extra1 & Hc1 & Hall1 & Hno1).
  destruct (removeMarked_flags (idsToRemove (visibleDiffViewIds w) (DiffViewMap w)) w)
    as (_ & Hn1).
  set (w1 := removeMarked _ w) in *.
  set (w2 := if _ && _ then _ else w1).
  assert (H2 : exists extra2,
             calls w2 = calls w ++ extra2 /\ Forall isHandlerCall extra2
             /\ Forall (fun h => isDiffCommand h = false) extra2
             /\ needFocusDiffViews w2 = needFocusDiffViews w).
  { subst w2. destruct (_ && _).
    - exists (extra1 ++ [dispose_of TabsListener]). cbn [calls log set_DiffViewDisposable].
      rewrite Hc1, <- app_assoc. split; [reflexivity|].
      split; [|split; [|exact Hn1]]; apply Forall_app; split; try assumption;
        now repeat constructor.
    - now exists extra1. }
  destruct H2 as (extra2 & Hc2 & Hall2 & Hno2 & Hn2).
  assert (Hzero : length (filter (fun h => isDiffCommand h = true) extra2) = 0).
  { clear -Hno2. induction Hno2 as [|h l Hh _ IH]; [reflexivity|].
    rewrite filter_cons_False by (rewrite Hh; discriminate). exact IH. }
  rewrite <- Hn2.
  destruct (needFocusDiffViews w2).
  - unfold focusDiffViews. cbn [DiffViewMap set_needFocusDiffViews].
    destruct (DiffViewMap w2) as [|[k first] m].
    + exists extra2. cbn [calls set_needFocusDiffViews].
      split; [exact Hc2|]. split; [exact Hall2|]. lia.
    + eexists (extra2 ++ [_]).
      cbn [calls defer set_detached log set_needFocusDiffViews].
      rewrite Hc2, <- app_assoc. split; [reflexivity|].
      split; [apply Forall_app; split; [assumption|now repeat constructor]|].
      rewrite filter_app, length_app, Hzero.
      rewrite filter_cons_True by reflexivity. cbn [length filter list_filter]. lia.
  - exists extra2. split; [exact Hc2|]. split; [exact Hall2|]. lia.
Qed.

(** Closing a tab takes it from the tab groups and changes nothing else
    of the host. *)
Lemma closeTab_tabGroups (tab : Tab) (w : World) :
  tabGroups (closeTab tab w) = map (filter (fun t' => t' <> tab)) (tabGroups w).
Proof.
  unfold closeTab. cbv zeta.
  destruct (DiffViewDisposable _); [|reflexivity].
  now destruct (handleTabChanges_sameHost [tab]
    (log (tabGroups_close tab)
       (set_tabGroups (map (filter (fun t' => t' <> tab)) (tabGroups w)) w)))
    as (_ & -> & _).
Qed.

Lemma closeTab_host (tab : Tab) (w : World) :
  files (closeTab tab w) = files w
  /\ visibleNotebookEditors (closeTab tab w) = visibleNotebookEditors w
  /\ diagnostics (closeTab tab w) = diagnostics w
  /\ allocated (closeTab tab w) = allocated w.
Proof.
  unfold closeTab. cbv zeta.
  destruct (DiffViewDisposable _); [|now repeat split].
  destruct (handleTabChanges_sameHost [tab]
    (log (tabGroups_close tab)
       (set_tabGroups (map (filter (fun t' => t' <> tab)) (tabGroups w)) w)))
    as (-> & _ & -> & -> & ->).
  now repeat split.
Qed.

Lemma closeTab_files (tab : Tab) (w : World) : files (closeTab tab w) = files w.
Proof. apply closeTab_host. Qed.

(** Closing comparison views changes no file. *)
Lemma closeAllNonDirtyDiffViews_files (w : World) :
  files (closeAllNonDirtyDiffViews w) = files w.
Proof.
  unfold closeAllNonDirtyDiffViews. apply foldl_keeps.
  intros w' tab. destruct (negb (tabIsDirty tab)); [apply closeTab_files|reflexivity].
Qed.

End Closing.

Section Saving.
Import NotebookDiffView.
Context `{Host}.

Lemma Js_eqb_refl (a : jsstring) : Js.eqb a a = true.
Proof. unfold Js.eqb. now apply bool_decide_eq_true_2. Qed.

(** What [saveChanges] compares: its "pre-save" and "post-save" texts
    are both the notebook type of the document, so the auto-formatting
    patch is never produced, the user-edits patch is produced exactly
    when the normalized notebook type differs from the normalized
    [newContent], and the edit summary is taken against the notebook
    type. *)
Lemma saveChanges_reads_notebookType (this : t) (w : World)
    (relPath : string) (newContent : jsstring) :
  let ty := notebookType (notebook (activeDiffEditor this)) in
  let eol := if Js.includes_CRLF newContent then [Js.CR; Js.LF] else [Js.LF] in
  let r := (saveChanges this w relPath newContent).2 in
  autoFormattingEdits r = None
  /\ userEdits r
     = (if Js.eqb (normalizeEOL eol ty) (normalizeEOL eol newContent) then None
        else Some (createPrettyPatch relPath (normalizeEOL eol newContent)
                     (normalizeEOL eol ty)))
  /\ editSummary r = getEditSummary (originalContent this) ty.
Proof.
  cbv zeta. unfold saveChanges.
  destruct (isDirty (notebook (activeDiffEditor this))); cbn;
    rewrite Js_eqb_refl; cbn;
    (split; [reflexivity|split; [|reflexivity]]);
    now destruct (Js.eqb _ _).
Qed.

(** The file [saveChanges] leaves on disk is what the host's save wrote:
    the serialized cells, with nothing put in front. *)
Lemma saveChanges_file (this : t) (w : World) (relPath : string)
    (newContent : jsstring) :
  let nb := notebook (activeDiffEditor this) in
  files (saveChanges this w relPath newContent).1.2
  = if isDirty nb then
      <[fsPath (uri nb) := executeNotebookToData (notebookType nb) (formatOnSave nb)]>
        (files w)
    else files w.
Proof.
  cbv zeta. unfold saveChanges.
  destruct (isDirty (notebook (activeDiffEditor this))); cbn -[closeAllNonDirtyDiffViews];
    unfold waitForDiagnostic; now rewrite closeAllNonDirtyDiffViews_files.
Qed.

End Saving.

(** C1: the failing inputs.  First, a notebook that holds ["{}"], is not
    dirty and is saved with the baseline ["{}"]: the document text
    before the save (A), the baseline (B) and the document text after
    the save (C) are the same, and yet [userEdits] is present - a patch
    from ["{}"] to the notebook type.  Second, a dirty notebook holding
    ["x"] on a host whose save appends [;]: A is ["x"], C is ["x;"], they
    differ after normalization, and yet [autoFormattingEdits] is absent. *)
Theorem saveChanges_patches_miss_document_content :
  (documentText (H := PlainHost.host)
     (notebook (NotebookDiffView.activeDiffEditor Examples.cleanSession))
   = Examples.text_braces
   /\ documentText (H := PlainHost.host)
        (notebook (NotebookDiffView.activeDiffEditor
           (NotebookDiffView.saveChanges (H := PlainHost.host) Examples.cleanSession
              (Examples.workspace Examples.text_braces) "nb.ipynb"
              Examples.text_braces).1.1))
      = Examples.text_braces
   /\ NotebookDiffView.userEdits
        (NotebookDiffView.saveChanges (H := PlainHost.host) Examples.cleanSession
           (Examples.workspace Examples.text_braces) "nb.ipynb"
           Examples.text_braces).2
      = Some (createPrettyPatch (Host := PlainHost.host) "nb.ipynb"
                (Js.lit "{}" ++ [Js.LF]) (Js.lit "jupyter-notebook" ++ [Js.LF])))
  /\ (documentText (H := PlainHost.formattingHost)
        (notebook (NotebookDiffView.activeDiffEditor Examples.dirtySession))
      = Js.lit "x"
      /\ documentText (H := PlainHost.formattingHost)
           (notebook (NotebookDiffView.activeDiffEditor
              (NotebookDiffView.saveChanges (H := PlainHost.formattingHost)
                 Examples.dirtySession (Examples.workspace Examples.text_braces)
                 "nb.ipynb" (Js.lit "x")).1.1))
         = Js.lit "x;"
      /\ NotebookDiffView.normalizeEOL [Js.LF] (Js.lit "x")
         <> NotebookDiffView.normalizeEOL [Js.LF] (Js.lit "x;")
      /\ NotebookDiffView.autoFormattingEdits
           (NotebookDiffView.saveChanges (H := PlainHost.formattingHost)
              Examples.dirtySession (Examples.workspace Examples.text_braces)
              "nb.ipynb" (Js.lit "x")).2
         = None).
Proof. repeat split. discriminate. Qed.

(** C2: the failing input.  In the scenario of the claim the saved
    document holds ["a\nc\n"], one line added and one removed against
    the original, but the summary [saveChanges] returns is one line
    added and two removed: it is the diff of the original against the
    notebook type. *)
Theorem saveChanges_summary_of_one_line_edit :
  (fun r => NotebookDiffView.editSummary r.2) <$> Examples.editScenario
    = Some (NotebookDiffView.mkEditSummary 1 2)
  /\ (fun r => NotebookDiffView.files r.1.2 !! Examples.nbPath) <$> Examples.editScenario
     = Some (Some Examples.text_ac)
  /\ NotebookDiffView.getEditSummary (H := PlainHost.host) Examples.text_ab Examples.text_ac
     = NotebookDiffView.mkEditSummary 1 1
  /\ NotebookDiffView.getEditSummary (H := PlainHost.host) Examples.text_ab
       PlainHost.notebookTypeName
     = NotebookDiffView.mkEditSummary 1 2.
Proof. repeat split. Qed.

(** C6: the failing input.  Content ["\ufeff{}"] is streamed as the final
    chunk and saved: [update] hands ["{}"] to the converter, and
    [saveChanges] puts no mark back - the file it leaves and the
    document text hold no byte-order mark at all, where the claim
    promises exactly one. *)
Theorem saved_content_has_no_BOM :
  Js.countBOM Examples.text_bom_braces = 1
  /\ (fun r => NotebookDiffView.files r.1.2 !! Examples.nbPath) <$> Examples.bomScenario
     = Some (Some Examples.text_braces)
  /\ (fun r => documentText (H := PlainHost.host)
                 (notebook (NotebookDiffView.activeDiffEditor r.1.1)))
       <$> Examples.bomScenario
     = Some Examples.text_braces
  /\ Js.countBOM Examples.text_braces = 0.
Proof. repeat split. Qed.

(* ------------------------------------------------------------------ *)
(** * Properties of the registry under [run-exclusive] *)

Section Frames.
Import NotebookDiffView RunExclusive.
Context `{Host}.

Lemma quiet_refl (w : World) : quiet w w.
Proof. now repeat split. Qed.

Lemma quiet_trans (w1 w2 w3 : World) : quiet w1 w2 -> quiet w2 w3 -> quiet w1 w3.
Proof.
  intros (Hm & Ha & Hd) (Hm' & Ha' & Hd'). repeat split; congruence.
Qed.

Lemma diffCommands_log (c : HostCall) (w : World) :
  diffCommands (log c w) = diffCommands w + (if isDiffCommand c then 1 else 0).
Proof.
  unfold diffCommands, log. cbn [calls].
  rewrite filter_app, length_app. f_equal.
  now destruct c.
Qed.

Lemma quiet_log (c : HostCall) (w : World) :
  isDiffCommand c = false -> quiet w (log c w).
Proof.
  intros Hc. repeat split. rewrite diffCommands_log, Hc. lia.
Qed.

Lemma quiet_installHook (w : World) : quiet w (installHook w).
Proof.
  unfold installHook.
  destruct (_ && _); [|apply quiet_refl].
  eapply quiet_trans; [|now apply quiet_log]. now repeat split.
Qed.

(** The diff command leaves the registry alone and is counted once. *)
Lemma runVSCodeDiff_frame (id : string) (original : jsstring) (existing : bool)
    (u : Uri) (w : World) :
  let w' := (runVSCodeDiff id original existing u w).2 in
  DiffViewMap w' = DiffViewMap w /\ allocated w' = allocated w
  /\ diffCommands w' = S (diffCommands w).
Proof.
  cbv zeta. unfold runVSCodeDiff, diffAnswer.
  assert (Hlog : diffCommands (log (vscode_diff (originUri id original u) u existing) w)
                 = S (diffCommands w)).
  { rewrite diffCommands_log. cbn. lia. }
  destruct (activeNotebookEditor u _) as [editor|]; [|now repeat split].
  destruct (String.eqb _ _); now repeat split.
Qed.

Lemma openDiffEditor_frame (id : string) (u : Uri) (existing : bool)
    (original : jsstring) (w : World) :
  let w' := (openDiffEditor id u existing original w).2 in
  DiffViewMap w' = DiffViewMap w /\ allocated w' = allocated w
  /\ diffCommands w' <= S (diffCommands w).
Proof.
  cbv zeta. unfold openDiffEditor.
  destruct (if existsb _ _ then _ else None) as [editor|].
  - cbn. repeat split. lia.
  - destruct (runVSCodeDiff_frame id original existing u w) as (Hm & Ha & Hd).
    repeat split; [assumption..|]. rewrite Hd. lia.
Qed.

(** [createDiffView] never touches the registry; when it succeeds it has
    made one object and issued at most one diff command. *)
Lemma createDiffView_frame (id relpath cwd : string) (w : World) :
  let r := createDiffView id relpath cwd w in
  DiffViewMap r.2 = DiffViewMap w
  /\ (forall diffView, r.1 = Some diffView ->
        allocated r.2 = S (allocated w)
        /\ diffCommands r.2 <= S (diffCommands w)
        /\ self diffView = allocated w).
Proof.
  cbv zeta. unfold createDiffView.
  set (u := Uri_file (resolvePath relpath cwd)).
  set (w1 := if negb _ then _ else w).
  assert (Hw1 : quiet w w1).
  { subst w1. destruct (negb _); [|apply quiet_refl].
    eapply quiet_trans; [|now apply quiet_log]. now repeat split. }
  destruct Hw1 as (Hm1 & Ha1 & Hd1).
  pose proof (openDiffEditor_frame id u
    (bool_decide (is_Some (files w !! fsPath u)))
    (default [] (files w1 !! fsPath u)) w1) as Hopen.
  cbv zeta in Hopen.
  destruct (openDiffEditor id u _ _ w1) as [[editor|] w2];
    cbn [fst snd] in *; destruct Hopen as (Hm2 & Ha2 & Hd2).
  - split; [cbn; congruence|].
    intros diffView [= <-].
    change (diffCommands (set_allocated (S (allocated w2)) w2)) with (diffCommands w2).
    cbn [allocated set_allocated self]. repeat split; lia.
  - split; [cbn; congruence|]. intros diffView [=].
Qed.

Lemma JsMap_get_set {V : Type} (k : string) (v : V) (m : list (string * V)) :
  JsMap.get k (JsMap.set k v m) = Some v.
Proof.
  induction m as [|[k' v'] m IH]; cbn.
  - now rewrite String.eqb_refl.
  - destruct (String.eqb k' k) eqn:E; cbn; now rewrite E.
Qed.

End Frames.


Section Runs.
Import NotebookDiffView RunExclusive.
Context `{Host}.

Lemma schedule_steps (exclusive : bool) (a1 a2 : Args) (s : list bool)
    (c c' : Config) :
  schedule exclusive a1 a2 s c = Some c' ->
  steps exclusive a1 a2 (length s) c c'.
Proof.
  revert c. induction s as [|first s IH]; intros c Hrun; cbn in Hrun.
  - injection Hrun as <-. constructor.
  - destruct first.
    + destruct (advance exclusive a1 (call1 c) (busy c) (world c))
        as [[[k b] w]|] eqn:Hadv; [|discriminate].
      cbn [length]. eapply steps_S; [|apply IH, Hrun].
      now apply step_call1.
    + destruct (advance exclusive a2 (call2 c) (busy c) (world c))
        as [[[k b] w]|] eqn:Hadv; [|discriminate].
      cbn [length]. eapply steps_S; [|apply IH, Hrun].
      now apply step_call2.
Qed.

(** The stretches of one call, run in a row, are the function
    [getOrCreate] wraps. *)
Lemma alone_is_getOrCreate (a : Args) (w : World) :
  alone a w
  = Some (Settled (getOrCreate (arg_id a) (arg_relpath a) (arg_cwd a) w).1,
          false,
          (getOrCreate (arg_id a) (arg_relpath a) (arg_cwd a) w).2).
Proof.
  unfold alone, getOrCreate, advance. cbn [andb].
  destruct (JsMap.get (arg_id a) _); [reflexivity|].
  now destruct (createDiffView _ _ _ _) as [[diffView|] w1].
Qed.

End Runs.

(** C9: the failing input.  The file is open in a plain text tab and
    two calls for the new id ["Y"] are made.  The first call registers
    its session and closes the text tab; the close is reported to the tab
    handler, which reads the visible ids off text diff tabs only, finds
    none, and removes the session from the registry although its
    comparison view has just been opened.  The second call, let in when
    the first has settled, finds the registry empty and makes a second
    session object: the two calls resolve to different instances. *)
Theorem getOrCreate_concurrent_calls_two_instances :
  JsMap.get "Y"
    (NotebookDiffView.DiffViewMap (Examples.workspaceWithTextTab Examples.text_ab)) = None
  /\ RunExclusive.steps (H := PlainHost.host) true Examples.callY Examples.callY 3
       (RunExclusive.start (Examples.workspaceWithTextTab Examples.text_ab))
       Examples.firstCallDone
  /\ (NotebookDiffView.DiffViewMap (RunExclusive.world Examples.firstCallDone) = []
      /\ existsb NotebookDiffView.isOriginNotebookDiff
           (concat (NotebookDiffView.tabGroups (RunExclusive.world Examples.firstCallDone)))
         = true)
  /\ RunExclusive.steps (H := PlainHost.host) true Examples.callY Examples.callY 6
       (RunExclusive.start (Examples.workspaceWithTextTab Examples.text_ab))
       Examples.bothCallsDone
  /\ (exists v1 v2,
        RunExclusive.call1 Examples.bothCallsDone = RunExclusive.Settled (Some v1)
        /\ RunExclusive.call2 Examples.bothCallsDone = RunExclusive.Settled (Some v2)
        /\ NotebookDiffView.self v1 = 0 /\ NotebookDiffView.self v2 = 1)
  /\ NotebookDiffView.allocated (RunExclusive.world Examples.bothCallsDone) = 2.
Proof.
  split; [reflexivity|]. split.
  { apply (schedule_steps (H := PlainHost.host) true Examples.callY Examples.callY
             [true; true; true]).
    vm_compute. reflexivity. }
  split; [split; vm_compute; reflexivity|]. split.
  { apply (schedule_steps (H := PlainHost.host) true Examples.callY Examples.callY
             [true; true; true; false; false; false]).
    vm_compute. reflexivity. }
  split; [|vm_compute; reflexivity].
  vm_compute. do 2 eexists. repeat split.
Qed.

(** Without the group the same two calls can both miss the registry and
    both create: they end with two different session objects. *)
Lemma bare_calls_can_duplicate :
  RunExclusive.steps (H := PlainHost.host) false Examples.callY Examples.callY 6
    (RunExclusive.start (Examples.workspace Examples.text_ab)) Examples.alternating
  /\ (exists v1 v2,
        RunExclusive.call1 Examples.alternating = RunExclusive.Settled (Some v1)
        /\ RunExclusive.call2 Examples.alternating = RunExclusive.Settled (Some v2)
        /\ NotebookDiffView.self v1 = 0 /\ NotebookDiffView.self v2 = 1)
  /\ NotebookDiffView.allocated (RunExclusive.world Examples.alternating) = 2.
Proof.
  split.
  - apply (schedule_steps (H := PlainHost.host) false Examples.callY Examples.callY
             [true; false; true; false; true; false]).
    vm_compute. reflexivity.
  - split; [|vm_compute; reflexivity].
    vm_compute. do 2 eexists. repeat split.
Qed.

(* ------------------------------------------------------------------ *)
(** * Properties of the tab reconciler *)

Section Reconciler.
Import NotebookDiffView.
Context `{Host}.

Lemma foldl_pointwise {A B : Type} (f g : A -> B -> A) (l : list B) (a : A) :
  (forall a x, f a x = g a x) -> foldl f a l = foldl g a l.
Proof.
  intros Hfg. revert a. induction l as [|x l IH]; intros a; cbn [foldl].
  - reflexivity.
  - now rewrite Hfg, IH.
Qed.

Lemma JsSet_elem_of_add (x y : string) (s : JsSet.t) :
  y ∈ JsSet.add x s <-> y ∈ s \/ y = x.
Proof.
  unfold JsSet.add, JsSet.has. case_bool_decide as Hx.
  - split; [auto|]. intros [Hy| ->]; assumption.
  - rewrite elem_of_app, list_elem_of_singleton. tauto.
Qed.

(** A loop that adds [f x] for the [x] passing a test. *)
Lemma elem_of_foldl_add {A : Type} (P : A -> bool) (f : A -> string)
    (l : list A) (s0 : JsSet.t) (y : string) :
  y ∈ foldl (fun s x => if P x then JsSet.add (f x) s else s) s0 l
  <-> y ∈ s0 \/ exists x, x ∈ l /\ P x = true /\ f x = y.
Proof.
  revert s0. induction l as [|x l IH]; intros s0; cbn [foldl].
  - split; [auto|]. intros [Hy|(x & Hx & _)]; [assumption|].
    now apply elem_of_nil in Hx.
  - rewrite IH. split.
    + intros [Hy|(x' & Hin & HP & Hf)].
      * destruct (P x) eqn:HPx; [|auto].
        apply JsSet_elem_of_add in Hy as [Hy| ->]; [auto|].
        right. exists x. split; [apply elem_of_cons; auto|auto].
      * right. exists x'. split; [apply elem_of_cons; auto|auto].
    + intros [Hy|(x' & Hin & HP & Hf)].
      * left. destruct (P x); [apply JsSet_elem_of_add|]; auto.
      * apply elem_of_cons in Hin as [->|Hin].
        -- left. rewrite HP. apply JsSet_elem_of_add. auto.
        -- right. exists x'. auto.
Qed.

(** The ids the reconciler takes for visible: the paths of the original
    side of the open text diff tabs on the origin scheme. *)
Lemma elem_of_visibleDiffViewIds (w : World) (y : string) :
  y ∈ visibleDiffViewIds w
  <-> exists tab original modified,
        tab ∈ concat (tabGroups w)
        /\ input tab = TabInputTextDiff original modified
        /\ scheme original = DiffOriginNotebookProvider.scheme
        /\ path original = y.
Proof.
  unfold visibleDiffViewIds.
  set (P := fun tab : Tab =>
              match input tab with
              | TabInputTextDiff original _ =>
                  String.eqb (scheme original) DiffOriginNotebookProvider.scheme
              | _ => false
              end).
  set (f := fun tab : Tab =>
              match input tab with
              | TabInputTextDiff original _ => path original
              | _ => ""
              end).
  rewrite (foldl_pointwise _ (fun s x => if P x then JsSet.add (f x) s else s)).
  2:{ intros s tab. subst P f. cbn. now destruct (input tab). }
  rewrite elem_of_foldl_add. split.
  - intros [Hy|(tab & Hin & HP & Hf)]; [now apply elem_of_nil in Hy|].
    subst P f. cbn in HP, Hf.
    destruct (input tab) as [|original modified| | |] eqn:Hinput; try discriminate.
    exists tab, original, modified. apply String.eqb_eq in HP. auto.
  - intros (tab & original & modified & Hin & Hinput & Hscheme & Hpath).
    right. exists tab. subst P f. cbn. rewrite Hinput.
    split; [assumption|]. split; [now apply String.eqb_eq|assumption].
Qed.

(** No notebook comparison view is ever read as visible. *)
Lemma visibleDiffViewIds_without_text_diff (w : World) :
  (forall tab original modified,
      tab ∈ concat (tabGroups w) -> input tab <> TabInputTextDiff original modified) ->
  visibleDiffViewIds w = [].
Proof.
  intros Hnone. apply elem_of_nil_inv. intros y Hy.
  apply elem_of_visibleDiffViewIds in Hy
    as (tab & original & modified & Hin & Hinput & _).
  exact (Hnone tab original modified Hin Hinput).
Qed.

(** The first marking loop, one component at a time. *)
Lemma marking_loop (visible : JsSet.t) (m : list (string * t)) (ids paths : JsSet.t) :
  foldl
    (fun acc entry =>
       let '(ids, paths) := acc in
       let '(id, diffView) := entry in
       if negb (JsSet.has id visible) then
         (JsSet.add id ids, JsSet.add (fsPath (fileUri diffView)) paths)
       else (ids, paths))
    (ids, paths) m
  = (foldl (fun s e => if negb (JsSet.has e.1 visible) then JsSet.add e.1 s else s) ids m,
     foldl (fun s e => if negb (JsSet.has e.1 visible)
                       then JsSet.add (fsPath (fileUri e.2)) s else s) paths m).
Proof.
  revert ids paths. induction m as [|[id diffView] m IH]; intros ids paths.
  - reflexivity.
  - cbn [foldl fst snd]. destruct (negb (JsSet.has id visible)); apply IH.
Qed.

(** The ids marked for removal: those of the sessions not read as
    visible, and those of the sessions on a path of such a session. *)
Lemma elem_of_idsToRemove (visible : JsSet.t) (m : list (string * t)) (k : string) :
  k ∈ idsToRemove visible m
  <-> (exists v, (k, v) ∈ m /\ k ∉ visible)
      \/ (exists v k' v', (k, v) ∈ m /\ (k', v') ∈ m /\ (k' ∉ visible)
            /\ fsPath (fileUri v') = fsPath (fileUri v)).
Proof.
  unfold idsToRemove. rewrite marking_loop. cbv beta iota.
  set (paths :=
         foldl (fun s (e : string * t) =>
                  if negb (JsSet.has e.1 visible)
                  then JsSet.add (fsPath (fileUri e.2)) s else s) [] m).
  rewrite (foldl_pointwise _
    (fun s e => if JsSet.has (fsPath (fileUri e.2)) paths then JsSet.add e.1 s else s)).
  2:{ intros s [id diffView]. reflexivity. }
  rewrite elem_of_foldl_add, elem_of_foldl_add.
  assert (Hpaths : forall p, p ∈ paths <->
            exists k' v', (k', v') ∈ m /\ (k' ∉ visible) /\ fsPath (fileUri v') = p).
  { intros p. subst paths. rewrite elem_of_foldl_add. split.
    - intros [Hp|([k' v'] & Hin & Hvis & Hf)]; [now apply elem_of_nil in Hp|].
      exists k', v'. cbn in *. split; [assumption|]. split; [|assumption].
      apply negb_true_iff, bool_decide_eq_false in Hvis. exact Hvis.
    - intros (k' & v' & Hin & Hvis & Hf). right. exists (k', v'). cbn.
      split; [assumption|]. split; [|assumption].
      apply negb_true_iff, bool_decide_eq_false. exact Hvis. }
  split.
  - intros [[Hk|([k0 v] & Hin & Hvis & Hf)]|([k0 v] & Hin & Hhas & Hf)].
    + now apply elem_of_nil in Hk.
    + cbn in *. subst k0. left. exists v. split; [assumption|].
      apply negb_true_iff, bool_decide_eq_false in Hvis. exact Hvis.
    + cbn in *. subst k0. right.
      apply bool_decide_eq_true, Hpaths in Hhas as (k' & v' & Hin' & Hvis & Hp).
      exists v, k', v'. auto.
  - intros [(v & Hin & Hvis)|(v & k' & v' & Hin & Hin' & Hvis & Hp)].
    + left. right. exists (k, v). cbn. split; [assumption|]. split; [|reflexivity].
      apply negb_true_iff, bool_decide_eq_false. exact Hvis.
    + right. exists (k, v). cbn. split; [assumption|]. split; [|reflexivity].
      apply bool_decide_eq_true, Hpaths. exists k', v'. auto.
Qed.

Lemma DiffViewMap_dispose (this : t) (w : World) :
  DiffViewMap (dispose this w) = DiffViewMap w.
Proof. apply dispose_bindings. Qed.

Lemma JsMap_delete_absent {V : Type} (k : string) (m : list (string * V)) :
  JsMap.get k m = None -> JsMap.delete k m = m.
Proof.
  unfold JsMap.delete. induction m as [|[k' v] m IH]; intros Hget;
    cbn [JsMap.get] in Hget.
  - reflexivity.
  - destruct (String.eqb k' k) eqn:E; [discriminate|].
    apply String.eqb_neq in E.
    rewrite filter_cons_True by exact E. now rewrite IH.
Qed.

(** The removal loop leaves the entries whose id is not marked. *)
Lemma DiffViewMap_removeMarked (ids : JsSet.t) (w : World) :
  DiffViewMap (removeMarked ids w)
  = filter (fun kv => kv.1 ∉ ids) (DiffViewMap w).
Proof.
  unfold removeMarked. revert w.
  induction ids as [|id ids IH]; intros w; cbn [foldl].
  - symmetry. induction (DiffViewMap w) as [|kv m IHm]; [reflexivity|].
    rewrite filter_cons_True by apply not_elem_of_nil. now rewrite IHm.
  - rewrite IH.
    assert (Hone : DiffViewMap
              (match JsMap.get id (DiffViewMap w) with
               | Some diffView =>
                   set_DiffViewMap
                     (JsMap.delete id (DiffViewMap (dispose diffView w)))
                     (dispose diffView w)
               | None => w
               end) = JsMap.delete id (DiffViewMap w)).
    { destruct (JsMap.get id (DiffViewMap w)) as [diffView|] eqn:Hget.
      - cbn [DiffViewMap set_DiffViewMap]. now rewrite DiffViewMap_dispose.
      - symmetry. now apply JsMap_delete_absent. }
    rewrite Hone. unfold JsMap.delete. rewrite list_filter_filter.
    apply list_filter_iff. intros [k v]. cbn. rewrite not_elem_of_cons. tauto.
Qed.

Lemma DiffViewMap_focusEach (views : list t) (w : World) :
  DiffViewMap (focusEach views w) = DiffViewMap w.
Proof.
  revert w. induction views as [|diffView views IH]; intros w; cbn [focusEach].
  - reflexivity.
  - unfold focus.
    pose proof (runVSCodeDiff_frame (id diffView) (originalContent diffView)
                  (fileExists diffView) (fileUri diffView) w) as (Hm & _).
    cbv zeta in Hm.
    destruct (runVSCodeDiff _ _ _ _ w) as [[editor|] w1]; cbn [snd] in Hm.
    + now rewrite IH.
    + exact Hm.
Qed.

(** The registry after a close event: the entries not marked, in their
    order. *)
Lemma handleTabChanges_registry (closed : list Tab) (w : World) :
  closed <> [] ->
  DiffViewMap (handleTabChanges closed w)
  = filter (fun kv => kv.1 ∉ idsToRemove (visibleDiffViewIds w) (DiffViewMap w))
      (DiffViewMap w).
Proof.
  intros Hclosed. unfold handleTabChanges.
  destruct closed as [|tab closed]; [contradiction|].
  set (w1 := removeMarked _ w).
  set (w2 := if _ && _ then _ else w1).
  assert (Hw2 : DiffViewMap w2 = DiffViewMap w1).
  { subst w2. now destruct (_ && _). }
  assert (Hend : DiffViewMap
            (if needFocusDiffViews w2
             then focusDiffViews (set_needFocusDiffViews false w2) else w2)
          = DiffViewMap w2).
  { clearbody w2. destruct (needFocusDiffViews w2); [|reflexivity].
    unfold focusDiffViews. cbn [DiffViewMap set_needFocusDiffViews].
    destruct (DiffViewMap w2) as [|[k0 first] m] eqn:E; cbn; now rewrite E. }
  rewrite Hend, Hw2. subst w1. apply DiffViewMap_removeMarked.
Qed.

(** The sessions a close event keeps are those whose id is read as
    visible and none of whose paths is the path of a session whose id
    is not. *)
Lemma handleTabChanges_keeps (closed : list Tab) (w : World) (k : string) (v : t) :
  closed <> [] ->
  (k, v) ∈ DiffViewMap (handleTabChanges closed w)
  <-> (k, v) ∈ DiffViewMap w
      /\ k ∈ visibleDiffViewIds w
      /\ (forall v0 k' v', (k, v0) ∈ DiffViewMap w -> (k', v') ∈ DiffViewMap w ->
            fsPath (fileUri v') = fsPath (fileUri v0) -> k' ∈ visibleDiffViewIds w).
Proof.
  intros Hclosed. rewrite handleTabChanges_registry by assumption.
  rewrite list_elem_of_filter. cbn [fst]. rewrite elem_of_idsToRemove. split.
  - intros [Hnot Hin]. split; [assumption|]. split.
    + destruct (decide (k ∈ visibleDiffViewIds w)) as [Hk|Hk]; [assumption|].
      exfalso. apply Hnot. left. eauto.
    + intros v0 k' v' Hin0 Hin' Hpath.
      destruct (decide (k' ∈ visibleDiffViewIds w)) as [Hk|Hk]; [assumption|].
      exfalso. apply Hnot. right. exists v0, k', v'. auto.
  - intros (Hin & Hvis & Hpaths). split; [|assumption].
    intros [(v0 & Hin0 & Hnot)|(v0 & k' & v' & Hin0 & Hin' & Hnot & Hpath)].
    + contradiction.
    + apply Hnot. eapply Hpaths; eassumption.
Qed.

(** When no text diff tab is open - so in particular when every
    comparison view is a notebook diff tab - a close event empties the
    registry. *)
Lemma handleTabChanges_clears_registry (closed : list Tab) (w : World) :
  closed <> [] ->
  (forall tab original modified,
      tab ∈ concat (tabGroups w) -> input tab <> TabInputTextDiff original modified) ->
  DiffViewMap (handleTabChanges closed w) = [].
Proof.
  intros Hclosed Hnone. apply elem_of_nil_inv. intros [k v] Hin.
  apply handleTabChanges_keeps in Hin as (_ & Hvis & _); [|assumption].
  rewrite visibleDiffViewIds_without_text_diff in Hvis by assumption.
  now apply elem_of_nil in Hvis.
Qed.

End Reconciler.

(** C3: the failing input.  Session ["X"] is registered, its comparison
    view - a notebook diff tab on the origin scheme - is open, and an
    unrelated text tab is closed.  The reconciler reads the visible ids
    off text diff tabs only, finds none, and disposes and removes ["X"]. *)
Theorem handleTabChanges_drops_visible_session :
  (is_Some (JsMap.get "X" (NotebookDiffView.DiffViewMap Examples.worldWithX))
   /\ Examples.diffTabX ∈ concat (NotebookDiffView.tabGroups Examples.worldWithX)
   /\ NotebookDiffView.isOriginNotebookDiff Examples.diffTabX = true)
  /\ NotebookDiffView.visibleDiffViewIds Examples.worldWithX = []
  /\ NotebookDiffView.DiffViewMap
       (NotebookDiffView.handleTabChanges (H := PlainHost.host)
          [Examples.readmeTab] Examples.worldWithX)
     = []
  /\ NotebookDiffView.calls
       (NotebookDiffView.handleTabChanges (H := PlainHost.host)
          [Examples.readmeTab] Examples.worldWithX)
     = [dispose_of NotebookChangeListener; dispose_of TabsListener].
Proof.
  repeat split.
  - eexists. reflexivity.
  - apply list_elem_of_In. now left.
Qed.

(* ------------------------------------------------------------------ *)
(** * Further properties of the providers *)

(** A [setForFile] can be read back: under the key it wrote - the id, a
    colon and the version as the language prints it - [readFile] returns
    the bytes and [stat] their length; under every other key both answer
    as before.  Leaving the version out writes version 0. *)
Theorem setForFile_read_back `{JsNumbers}
    (p : DiffModifiedNotebookProvider.t) (id path : string)
    (data : Uint8Array) (version : option number) (now : Z) (uri : Uri) :
  (query uri = DiffModifiedNotebookProvider.keyOf id (default zero version) ->
     DiffModifiedNotebookProvider.readFile
       (DiffModifiedNotebookProvider.setForFile p id path data version) uri
     = Returns data
     /\ DiffModifiedNotebookProvider.stat
          (DiffModifiedNotebookProvider.setForFile p id path data version) now uri
        = Returns (mkFileStat FileType_File now now (length data)))
  /\ (query uri <> DiffModifiedNotebookProvider.keyOf id (default zero version) ->
       DiffModifiedNotebookProvider.readFile
         (DiffModifiedNotebookProvider.setForFile p id path data version) uri
       = DiffModifiedNotebookProvider.readFile p uri
       /\ DiffModifiedNotebookProvider.stat
            (DiffModifiedNotebookProvider.setForFile p id path data version) now uri
          = DiffModifiedNotebookProvider.stat p now uri)
  /\ DiffModifiedNotebookProvider.setForFile p id path data None
     = DiffModifiedNotebookProvider.setForFile p id path data (Some zero).
Proof.
  unfold DiffModifiedNotebookProvider.readFile, DiffModifiedNotebookProvider.stat,
    DiffModifiedNotebookProvider.setForFile.
  cbv zeta. cbn [DiffModifiedNotebookProvider.content].
  split; [|split; [|reflexivity]].
  - intros ->. rewrite !lookup_insert_eq. split; reflexivity.
  - intros Hne.
    rewrite !lookup_insert_ne by (intros E; apply Hne; symmetry; exact E).
    split; reflexivity.
Qed.


(* ------------------------------------------------------------------ *)
(** * Further properties of [update] *)

Section Feedback.
Import NotebookDiffView Effects.
Context `{Host}.

Lemma append_calls_nil (w : World) : append_calls [] w = w.
Proof. destruct w. unfold append_calls. cbn. now rewrite app_nil_r. Qed.

Lemma append_calls_app (a b : list HostCall) (w : World) :
  append_calls b (append_calls a w) = append_calls (a ++ b) w.
Proof. unfold append_calls. cbn. now rewrite app_assoc. Qed.

Lemma log_append_calls (c : HostCall) (w : World) : log c w = append_calls [c] w.
Proof. reflexivity. Qed.

(** The scroll loop: only reveals and timers, every reveal within the
    document, and no more frames than the stride allows. *)
Lemma scrollSteps_trace (fuel : nat) (this : t) (w : World)
    (line endLine stepSize : Z) :
  (0 <= line)%Z -> (1 <= stepSize)%Z ->
  exists extra,
    scrollSteps fuel this w line endLine stepSize = append_calls extra w
    /\ Forall (fun h => isScroll h = true
                        /\ revealWithin (cellCount (notebook (activeDiffEditor this))) h)
         extra
    /\ (Z.of_nat (frames extra)
        <= if (line <=? endLine)%Z then (endLine - line) / stepSize + 1 else 0)%Z.
Proof.
  intros Hline Hstep. revert w line Hline.
  induction fuel as [|fuel IH]; intros w line Hline; cbn [scrollSteps].
  - exists []. rewrite append_calls_nil. split; [reflexivity|]. split; [constructor|].
    cbn. destruct (line <=? endLine)%Z eqn:E; [|lia].
    apply Z.leb_le in E.
    pose proof (Z.div_pos (endLine - line) stepSize). lia.
  - destruct (line <=? endLine)%Z eqn:E.
    + apply Z.leb_le in E.
      destruct (IH (log (timer 16)
                      (log (revealRange
                              (Z.min line
                                 (Z.max 0 (cellCount (notebook (activeDiffEditor this)) - 1))))
                         w))
                  (line + stepSize)%Z ltac:(lia)) as (extra & Hrun & Hall & Hcount).
      eexists. split; [|split].
      * rewrite Hrun, !log_append_calls, !append_calls_app. reflexivity.
      * repeat (apply Forall_cons; split); [split; [reflexivity|cbn; lia] | split; [reflexivity|exact I] | exact Hall].
      * unfold frames in *. cbn [app].
        rewrite filter_cons_False by (cbn; discriminate).
        rewrite filter_cons_True by reflexivity. cbn [length].
        destruct (line + stepSize <=? endLine)%Z eqn:E'.
        -- apply Z.leb_le in E'.
           replace (endLine - (line + stepSize))%Z
             with (endLine - line + -1 * stepSize)%Z in Hcount by lia.
           rewrite Z.div_add in Hcount by lia. lia.
        -- pose proof (Z.div_pos (endLine - line) stepSize). lia.
    + exists []. rewrite append_calls_nil. split; [reflexivity|]. split; [constructor|].
      cbn. lia.
Qed.

(** The feedback for new lines: only reveals and timers, every reveal
    within the document, and at most twenty frames. *)
Lemma revealNewLines_trace (this : t) (w : World) (diffLines : list jsstring) :
  exists extra,
    revealNewLines this w diffLines = append_calls extra w
    /\ Forall (fun h => isScroll h = true
                        /\ revealWithin (cellCount (notebook (activeDiffEditor this))) h)
         extra
    /\ frames extra <= 20.
Proof.
  unfold revealNewLines. cbv zeta.
  set (s0 := Z.of_nat (length (streamedLines this))).
  set (n := Z.of_nat (length diffLines)).
  destruct (0 <=? s0 + n - 1)%Z eqn:Ecur.
  2:{ exists []. rewrite append_calls_nil. split; [reflexivity|].
      split; [constructor|]. cbn. lia. }
  destruct (length diffLines <=? 5)%nat eqn:Esmall.
  - eexists. split; [unfold scrollNotebookToCell; rewrite log_append_calls; reflexivity|].
    split.
    + apply Forall_cons. split; [|constructor]. split; [reflexivity|]. cbn. lia.
    + unfold frames. rewrite filter_cons_False by (cbn; discriminate). cbn. lia.
  - apply Nat.leb_gt in Esmall.
    assert (Hs0 : (0 <= s0)%Z) by (subst s0; lia).
    assert (Hn : (6 <= n)%Z) by (subst n; lia).
    set (total := (s0 + n - 1 - s0)%Z).
    assert (Htotal : total = (n - 1)%Z) by (subst total; lia).
    destruct (scrollSteps_trace (S (Z.to_nat total)) this w s0 (s0 + n - 1)
                (Z.max 1 (total / 10)) Hs0 ltac:(lia)) as (extra & Hrun & Hall & Hcount).
    eexists. split; [|split].
    + unfold scrollNotebookToCell. rewrite Hrun, log_append_calls, append_calls_app.
      reflexivity.
    + apply Forall_app. split; [exact Hall|].
      apply Forall_cons. split; [|constructor]. split; [reflexivity|]. cbn. lia.
    + unfold frames in *. rewrite filter_app, length_app.
      rewrite (filter_cons_False _ (revealRange _)) by (cbn; discriminate).
      cbn [filter list_filter length].
      destruct (s0 <=? s0 + n - 1)%Z eqn:E; [|apply Z.leb_gt in E; lia].
      fold total in Hcount.
      assert (Hdiv : (total / Z.max 1 (total / 10) < 20)%Z).
      { apply Z.div_lt_upper_bound; [lia|].
        pose proof (Z.div_mod total 10 ltac:(lia)).
        pose proof (Z.mod_pos_bound total 10 ltac:(lia)). lia. }
      lia.
Qed.

End Feedback.

Section UpdateFacts.
Import NotebookDiffView Effects.
Context `{Host}.

Lemma listenForAbort_trace (this : t) (w : World) (abortSignal : option nat) :
  exists extra,
    (listenForAbort this w abortSignal).2 = append_calls extra w
    /\ Forall (fun h => isScroll h = false) extra.
Proof.
  destruct abortSignal as [signal|]; cbn.
  - exists [addAbortListener signal]. split; [reflexivity|]. now repeat constructor.
  - exists []. rewrite append_calls_nil. split; [reflexivity|constructor].
Qed.

Lemma listenForAbort_fields (this : t) (w : World) (abortSignal : option nat) :
  notebook (activeDiffEditor (listenForAbort this w abortSignal).1)
    = notebook (activeDiffEditor this)
  /\ streamedLines (listenForAbort this w abortSignal).1 = streamedLines this
  /\ isFinalized (listenForAbort this w abortSignal).1 = isFinalized this
  /\ isReverted (listenForAbort this w abortSignal).1 = isReverted this.
Proof. now destruct abortSignal. Qed.

(** A final chunk that is accepted finalizes the session. *)
Lemma update_final_isFinalized (this : t) (w : World) (content : jsstring)
    (abortSignal : option nat) :
  isFinalized this = false -> isReverted this = false ->
  isFinalized (update this w content true abortSignal).1 = true.
Proof.
  intros Hfin Hrev. unfold update. rewrite Hfin, Hrev. cbn [orb].
  unfold applyFinalContent.
  destruct abortSignal as [signal|]; cbn -[accumulatedLinesOf stripBOM revealNewLines];
    now destruct (executeDataToNotebook _ (stripBOM content)).
Qed.

(** What applying the final content adds to the log: no frame, and one
    reveal, of index 0. *)
Lemma applyFinalContent_calls (this : t) (w : World) (content : jsstring)
    (count : Z) :
  exists extra,
    calls (applyFinalContent this w content).2 = calls w ++ extra
    /\ Forall (revealWithin count) extra
    /\ frames extra = 0.
Proof.
  unfold applyFinalContent, applyEdit, scrollToFirstNotebookCell.
  destruct (executeDataToNotebook _ content) as [data| |]; cbn;
    rewrite <- ?app_assoc; eexists; (split; [reflexivity|]);
    (split; [repeat (apply Forall_cons; split; [cbn; try exact I; lia|]); constructor
            |reflexivity]).
Qed.

End UpdateFacts.

(** A final [update] absorbs every later [update]: whatever the session,
    streaming anything after a final chunk gives the state the final
    chunk alone gave. *)
Theorem update_after_final_update `{Host}
    (this : NotebookDiffView.t) (w : NotebookDiffView.World)
    (content content' : jsstring) (isFinal' : bool)
    (abortSignal abortSignal' : option nat) :
  NotebookDiffView.update
    (NotebookDiffView.update this w content true abortSignal).1
    (NotebookDiffView.update this w content true abortSignal).2
    content' isFinal' abortSignal'
  = NotebookDiffView.update this w content true abortSignal.
Proof.
  assert (Hflag : NotebookDiffView.isFinalized
                    (NotebookDiffView.update this w content true abortSignal).1
                  || NotebookDiffView.isReverted
                       (NotebookDiffView.update this w content true abortSignal).1
                  = true).
  { destruct (NotebookDiffView.isFinalized this) eqn:Hfin.
    - unfold NotebookDiffView.update. rewrite Hfin. cbn. now rewrite Hfin.
    - destruct (NotebookDiffView.isReverted this) eqn:Hrev.
      + unfold NotebookDiffView.update. rewrite Hfin, Hrev. cbn.
        now rewrite Hfin, Hrev.
      + now rewrite update_final_isFinalized. }
  destruct (NotebookDiffView.update this w content true abortSignal) as [this1 w1].
  cbn [fst snd] in *. unfold NotebookDiffView.update. now rewrite Hflag.
Qed.

(** One leading byte-order mark makes no difference to [update]:
    content that carries one is treated as the same content without
    it. *)
Theorem update_ignores_leading_BOM `{Host}
    (this : NotebookDiffView.t) (w : NotebookDiffView.World)
    (content : jsstring) (isFinal : bool) (abortSignal : option nat) :
  Js.startsWith [Js.BOM] content = false ->
  NotebookDiffView.update this w (Js.BOM :: content) isFinal abortSignal
  = NotebookDiffView.update this w content isFinal abortSignal.
Proof.
  intros Hplain. unfold NotebookDiffView.update, NotebookDiffView.accumulatedLinesOf.
  now rewrite stripBOM_cons, (stripBOM_other content Hplain).
Qed.

Lemma update_ignores_leading_BOM_witness :
  Js.startsWith [Js.BOM] Examples.text_xy = false
  /\ NotebookDiffView.update (H := PlainHost.host) Examples.freshSession
       (Examples.workspace Examples.text_ab) (Js.BOM :: Examples.text_xy) true None
     = NotebookDiffView.update (H := PlainHost.host) Examples.freshSession
         (Examples.workspace Examples.text_ab) Examples.text_xy true None.
Proof.
  split; [reflexivity|].
  apply (update_ignores_leading_BOM (H := PlainHost.host)). reflexivity.
Defined.

(** When the converter gives no cells for the final content - it
    answers [undefined] or rejects - the accepted final [update] leaves
    the notebook, the files and the tabs as they were, and still
    finalizes the session and records the lines. *)
Theorem update_final_without_cells `{Host}
    (this : NotebookDiffView.t) (w : NotebookDiffView.World)
    (content : jsstring) (abortSignal : option nat) :
  NotebookDiffView.isFinalized this = false ->
  NotebookDiffView.isReverted this = false ->
  (forall data,
      executeDataToNotebook
        (notebookType (notebook (NotebookDiffView.activeDiffEditor this)))
        (NotebookDiffView.stripBOM content) <> Data data) ->
  notebook (NotebookDiffView.activeDiffEditor
              (NotebookDiffView.update this w content true abortSignal).1)
  = notebook (NotebookDiffView.activeDiffEditor this)
  /\ NotebookDiffView.isFinalized
       (NotebookDiffView.update this w content true abortSignal).1 = true
  /\ NotebookDiffView.streamedLines
       (NotebookDiffView.update this w content true abortSignal).1
     = Js.split_LF (NotebookDiffView.stripBOM content)
  /\ NotebookDiffView.files (NotebookDiffView.update this w content true abortSignal).2
     = NotebookDiffView.files w
  /\ NotebookDiffView.tabGroups (NotebookDiffView.update this w content true abortSignal).2
     = NotebookDiffView.tabGroups w.
Proof.
  intros Hfin Hrev Hnone.
  split; [|split; [now apply update_final_isFinalized|
                   split; [now rewrite update_streamedLines|]]].
  - unfold NotebookDiffView.update. rewrite Hfin, Hrev. cbn [orb].
    unfold NotebookDiffView.applyFinalContent.
    destruct abortSignal as [signal|];
      cbn -[NotebookDiffView.accumulatedLinesOf NotebookDiffView.stripBOM
            NotebookDiffView.revealNewLines];
      (destruct (executeDataToNotebook _ (NotebookDiffView.stripBOM content))
         as [data| |] eqn:E; [now destruct (Hnone data)|reflexivity..]).
  - unfold NotebookDiffView.update. rewrite Hfin, Hrev. cbn [orb].
    destruct (listenForAbort_trace
                (NotebookDiffView.set_isFinalized true this) w abortSignal)
      as (extra0 & Hw0 & _).
    pose proof (listenForAbort_fields
                  (NotebookDiffView.set_isFinalized true this) w abortSignal)
      as (Hnb & _).
    destruct (NotebookDiffView.listenForAbort
                (NotebookDiffView.set_isFinalized true this) w abortSignal)
      as [this1 w1]. cbn [fst snd] in *.
    destruct (revealNewLines_trace this1 w1
                (drop (length (NotebookDiffView.streamedLines this1))
                   (NotebookDiffView.accumulatedLinesOf content true)))
      as (extra1 & Hw1 & _).
    rewrite Hw1, Hw0. unfold NotebookDiffView.applyFinalContent.
    cbn -[NotebookDiffView.accumulatedLinesOf NotebookDiffView.stripBOM].
    rewrite Hnb. cbn [NotebookDiffView.set_isFinalized NotebookDiffView.activeDiffEditor].
    destruct (executeDataToNotebook _ (NotebookDiffView.stripBOM content))
      as [data| |] eqn:E; [now destruct (Hnone data)|now split..].
Qed.

Lemma update_final_without_cells_witness :
  notebook (NotebookDiffView.activeDiffEditor
              (NotebookDiffView.update (H := PlainHost.rejectingHost)
                 Examples.freshSession (Examples.workspace Examples.text_ab)
                 Examples.text_ac true None).1)
  = notebook (NotebookDiffView.activeDiffEditor Examples.freshSession)
  /\ NotebookDiffView.isFinalized
       (NotebookDiffView.update (H := PlainHost.rejectingHost)
          Examples.freshSession (Examples.workspace Examples.text_ab)
          Examples.text_ac true None).1 = true.
Proof.
  destruct (update_final_without_cells (H := PlainHost.rejectingHost)
              Examples.freshSession (Examples.workspace Examples.text_ab)
              Examples.text_ac None eq_refl eq_refl
              ltac:(intros data; discriminate)) as (Hnb & Hfin & _).
  split; assumption.
Defined.

(** When the converter gives cells for the final content, the accepted
    final [update] replaces every cell of the notebook by them and
    leaves it dirty: nothing of the old cells stays, the type and the
    URI stay, and nothing is written to the files yet. *)
Theorem update_final_replaces_all_cells `{Host}
    (this : NotebookDiffView.t) (w : NotebookDiffView.World)
    (content : jsstring) (abortSignal : option nat)
    (data : list NotebookCellData) :
  NotebookDiffView.isFinalized this = false ->
  NotebookDiffView.isReverted this = false ->
  executeDataToNotebook
    (notebookType (notebook (NotebookDiffView.activeDiffEditor this)))
    (NotebookDiffView.stripBOM content) = Data data ->
  notebook (NotebookDiffView.activeDiffEditor
              (NotebookDiffView.update this w content true abortSignal).1)
  = mkNotebook (uri (notebook (NotebookDiffView.activeDiffEditor this)))
      (notebookType (notebook (NotebookDiffView.activeDiffEditor this))) data true
  /\ NotebookDiffView.files (NotebookDiffView.update this w content true abortSignal).2
     = NotebookDiffView.files w.
Proof.
  intros Hfin Hrev Hdata.
  assert (Hfull : forall l : list NotebookCellData,
             take (Z.to_nat 0) l ++ data ++ drop (Z.to_nat (Z.of_nat (length l))) l = data).
  { intros l. rewrite Nat2Z.id, drop_all, app_nil_r. reflexivity. }
  split.
  - unfold NotebookDiffView.update. rewrite Hfin, Hrev. cbn [orb].
    unfold NotebookDiffView.applyFinalContent, NotebookDiffView.applyEdit, cellCount.
    destruct abortSignal as [signal|];
      cbn -[NotebookDiffView.accumulatedLinesOf NotebookDiffView.stripBOM
            NotebookDiffView.revealNewLines Z.to_nat Z.of_nat];
      rewrite Hdata;
      cbn -[NotebookDiffView.accumulatedLinesOf NotebookDiffView.stripBOM
            NotebookDiffView.revealNewLines Z.to_nat Z.of_nat];
      now rewrite Hfull.
  - unfold NotebookDiffView.update. rewrite Hfin, Hrev. cbn [orb].
    destruct (listenForAbort_trace
                (NotebookDiffView.set_isFinalized true this) w abortSignal)
      as (extra0 & Hw0 & _).
    pose proof (listenForAbort_fields
                  (NotebookDiffView.set_isFinalized true this) w abortSignal)
      as (Hnb & _).
    destruct (NotebookDiffView.listenForAbort
                (NotebookDiffView.set_isFinalized true this) w abortSignal)
      as [this1 w1]. cbn [fst snd] in *.
    destruct (revealNewLines_trace this1 w1
                (drop (length (NotebookDiffView.streamedLines this1))
                   (NotebookDiffView.accumulatedLinesOf content true)))
      as (extra1 & Hw1 & _).
    rewrite Hw1, Hw0. unfold NotebookDiffView.applyFinalContent.
    cbn -[NotebookDiffView.accumulatedLinesOf NotebookDiffView.stripBOM].
    rewrite Hnb. cbn [NotebookDiffView.set_isFinalized NotebookDiffView.activeDiffEditor].
    now rewrite Hdata.
Qed.

Lemma update_final_replaces_all_cells_witness :
  notebook (NotebookDiffView.activeDiffEditor
              (NotebookDiffView.update (H := PlainHost.host)
                 Examples.freshSession (Examples.workspace Examples.text_ab)
                 Examples.text_ac true None).1)
  = mkNotebook Examples.nbUri PlainHost.notebookTypeName
      (PlainHost.toCells Examples.text_ac) true
  /\ NotebookDiffView.files
       (NotebookDiffView.update (H := PlainHost.host)
          Examples.freshSession (Examples.workspace Examples.text_ab)
          Examples.text_ac true None).2
     = NotebookDiffView.files (Examples.workspace Examples.text_ab).
Proof.
  exact (update_final_replaces_all_cells (H := PlainHost.host)
           Examples.freshSession (Examples.workspace Examples.text_ab)
           Examples.text_ac None (PlainHost.toCells Examples.text_ac)
           eq_refl eq_refl eq_refl).
Defined.

(** A chunk that is not final never touches anything but the log: the
    notebook, the files, the tabs and the registry are as before, and
    so are the two flags of the session. *)
Theorem update_streaming_touches_nothing `{Host}
    (this : NotebookDiffView.t) (w : NotebookDiffView.World)
    (content : jsstring) (abortSignal : option nat) :
  (exists extra,
      (NotebookDiffView.update this w content false abortSignal).2
      = Effects.append_calls extra w)
  /\ notebook (NotebookDiffView.activeDiffEditor
                 (NotebookDiffView.update this w content false abortSignal).1)
     = notebook (NotebookDiffView.activeDiffEditor this)
  /\ NotebookDiffView.isFinalized
       (NotebookDiffView.update this w content false abortSignal).1
     = NotebookDiffView.isFinalized this
  /\ NotebookDiffView.isReverted
       (NotebookDiffView.update this w content false abortSignal).1
     = NotebookDiffView.isReverted this.
Proof.
  unfold NotebookDiffView.update.
  destruct (NotebookDiffView.isFinalized this || NotebookDiffView.isReverted this).
  { split; [exists []; now rewrite append_calls_nil|now repeat split]. }
  destruct (listenForAbort_trace this w abortSignal) as (extra0 & Hw0 & _).
  pose proof (listenForAbort_fields this w abortSignal) as (Hnb & _ & Hfin & Hrev).
  destruct (NotebookDiffView.listenForAbort this w abortSignal) as [this1 w1].
  cbn [fst snd] in *.
  destruct (revealNewLines_trace this1 w1
              (drop (length (NotebookDiffView.streamedLines this1))
                 (NotebookDiffView.accumulatedLinesOf content false)))
    as (extra1 & Hw1 & _).
  cbn -[NotebookDiffView.accumulatedLinesOf NotebookDiffView.revealNewLines].
  split; [|now repeat split].
  exists (extra0 ++ extra1). now rewrite Hw1, Hw0, append_calls_app.
Qed.

(** The scroll feedback of any [update] stays within the document and
    is short: the calls it adds to the log reveal only valid cell
    indices of the notebook as it was (index 0 when it is empty), and
    hold at most twenty animation frames of 16 ms. *)
Theorem update_feedback_is_bounded `{Host}
    (this : NotebookDiffView.t) (w : NotebookDiffView.World)
    (content : jsstring) (isFinal : bool) (abortSignal : option nat) :
  exists extra,
    NotebookDiffView.calls (NotebookDiffView.update this w content isFinal abortSignal).2
    = NotebookDiffView.calls w ++ extra
    /\ Forall (Effects.revealWithin
                 (cellCount (notebook (NotebookDiffView.activeDiffEditor this))))
         extra
    /\ Effects.frames extra <= 20.
Proof.
  unfold NotebookDiffView.update.
  destruct (NotebookDiffView.isFinalized this || NotebookDiffView.isReverted this).
  { exists []. cbn. rewrite app_nil_r. split; [reflexivity|]. split; [constructor|lia]. }
  set (this0 := if isFinal then NotebookDiffView.set_isFinalized true this else this).
  assert (Hnb0 : notebook (NotebookDiffView.activeDiffEditor this0)
                 = notebook (NotebookDiffView.activeDiffEditor this))
    by (subst this0; now destruct isFinal).
  destruct (listenForAbort_trace this0 w abortSignal) as (extra0 & Hw0 & Hall0).
  pose proof (listenForAbort_fields this0 w abortSignal) as (Hnb & _).
  destruct (NotebookDiffView.listenForAbort this0 w abortSignal) as [this1 w1].
  cbn [fst snd] in *.
  destruct (revealNewLines_trace this1 w1
              (drop (length (NotebookDiffView.streamedLines this1))
                 (NotebookDiffView.accumulatedLinesOf content isFinal)))
    as (extra1 & Hw1 & Hall1 & Hframes1).
  rewrite Hnb, Hnb0 in Hall1.
  assert (Hall01 : Forall (Effects.revealWithin
                     (cellCount (notebook (NotebookDiffView.activeDiffEditor this))))
                     (extra0 ++ extra1)).
  { apply Forall_app. split.
    - eapply Forall_impl; [exact Hall0|]. intros h Hh. now destruct h.
    - eapply Forall_impl; [exact Hall1|]. now intros h [_ Hh]. }
  assert (Hframes01 : Effects.frames (extra0 ++ extra1) <= 20).
  { unfold Effects.frames in *. rewrite filter_app, length_app.
    assert (Hzero : filter (fun h => Effects.isFrame h = true) extra0 = []).
    { clear -Hall0. induction Hall0 as [|h l Hh _ IH]; [reflexivity|].
      rewrite filter_cons_False; [exact IH|]. destruct h; discriminate. }
    rewrite Hzero. cbn. lia. }
  cbn -[NotebookDiffView.accumulatedLinesOf NotebookDiffView.revealNewLines
        NotebookDiffView.applyFinalContent].
  rewrite Hw1, Hw0, append_calls_app.
  destruct isFinal.
  - destruct (applyFinalContent_calls
                (NotebookDiffView.set_streamedLines
                   (NotebookDiffView.accumulatedLinesOf content true) this1)
                (Effects.append_calls (extra0 ++ extra1) w)
                (NotebookDiffView.stripBOM content)
                (cellCount (notebook (NotebookDiffView.activeDiffEditor this))))
      as (extra2 & Hcalls & Hall2 & Hframes2).
    exists ((extra0 ++ extra1) ++ extra2). split; [|split].
    + rewrite Hcalls. unfold Effects.append_calls. cbn [NotebookDiffView.calls].
      now rewrite <- app_assoc.
    + apply Forall_app. now split.
    + unfold Effects.frames in *. rewrite filter_app, length_app. lia.
  - exists (extra0 ++ extra1). cbn. now repeat split.
Qed.

(* ------------------------------------------------------------------ *)
(** * Further properties of [revertAndClose] *)

Section RevertFacts.
Import NotebookDiffView Effects.
Context `{Host}.

(** What the loop of [closeAllNonDirtyDiffViews] keeps is what closing
    one tab keeps. *)
Lemma closeAllNonDirtyDiffViews_keeps {B : Type} (P : World -> B) :
  (forall w tab, P (closeTab tab w) = P w) ->
  forall w, P (closeAllNonDirtyDiffViews w) = P w.
Proof.
  intros HP w. unfold closeAllNonDirtyDiffViews. apply foldl_keeps.
  intros w' tab. destruct (negb (tabIsDirty tab)); [apply HP|reflexivity].
Qed.






End RevertFacts.

(** A reverted session takes no more content: after [revertAndClose],
    every [update] returns the session and the host state as they
    are. *)
Theorem update_after_revertAndClose `{Host}
    (this : NotebookDiffView.t) (w : NotebookDiffView.World)
    (content : jsstring) (isFinal : bool) (abortSignal : option nat) :
  NotebookDiffView.update
    (NotebookDiffView.revertAndClose this w).1.1
    (NotebookDiffView.revertAndClose this w).1.2
    content isFinal abortSignal
  = ((NotebookDiffView.revertAndClose this w).1.1,
     (NotebookDiffView.revertAndClose this w).1.2).
Proof.
  pose proof (revertAndClose_isReverted this w) as Hrev.
  destruct (NotebookDiffView.revertAndClose this w) as [[this1 w1] r].
  cbn [fst snd] in *. unfold NotebookDiffView.update.
  now rewrite Hrev, orb_true_r.
Qed.



(** [revertAndClose] on a session with unsaved changes, when the
    converter gives cells for the original content: every cell of the
    notebook is replaced by them, a save-all follows - so the notebook
    ends clean, holding those cells as the save left them, with their
    serialization in the file - and the call fulfils. *)
Theorem revertAndClose_restores_original `{Host}
    (this : NotebookDiffView.t) (w : NotebookDiffView.World)
    (data : list NotebookCellData) :
  NotebookDiffView.isReverted this = false ->
  isDirty (notebook (NotebookDiffView.activeDiffEditor this)) = true ->
  executeDataToNotebook
    (notebookType (notebook (NotebookDiffView.activeDiffEditor this)))
    (NotebookDiffView.originalContent this) = Data data ->
  (NotebookDiffView.revertAndClose this w).2 = NotebookDiffView.Fulfilled
  /\ notebook (NotebookDiffView.activeDiffEditor
                 (NotebookDiffView.revertAndClose this w).1.1)
     = mkNotebook (uri (notebook (NotebookDiffView.activeDiffEditor this)))
         (notebookType (notebook (NotebookDiffView.activeDiffEditor this)))
         (formatOnSave
            (mkNotebook (uri (notebook (NotebookDiffView.activeDiffEditor this)))
               (notebookType (notebook (NotebookDiffView.activeDiffEditor this)))
               data true))
         false
  /\ NotebookDiffView.files (NotebookDiffView.revertAndClose this w).1.2
       !! fsPath (uri (notebook (NotebookDiffView.activeDiffEditor this)))
     = Some (executeNotebookToData
               (notebookType (notebook (NotebookDiffView.activeDiffEditor this)))
               (formatOnSave
                  (mkNotebook (uri (notebook (NotebookDiffView.activeDiffEditor this)))
                     (notebookType (notebook (NotebookDiffView.activeDiffEditor this)))
                     data true))).
Proof.
  intros Hrev Hdirty Hdata.
  assert (Hfull : forall l : list NotebookCellData,
             take (Z.to_nat 0) l ++ data ++ drop (Z.to_nat (Z.of_nat (length l))) l = data).
  { intros l. rewrite Nat2Z.id, drop_all, app_nil_r. reflexivity. }
  unfold NotebookDiffView.revertAndClose,
    NotebookDiffView.discardChangesWithWorkspaceEdit. rewrite Hrev.
  cbn [NotebookDiffView.set_isReverted NotebookDiffView.activeDiffEditor
       NotebookDiffView.originalContent].
  rewrite Hdirty, Hdata. cbn [negb].
  unfold NotebookDiffView.applyEdit, NotebookDiffView.saveAll,
    NotebookDiffView.hostSave, cellCount.
  cbn -[Z.to_nat Z.of_nat NotebookDiffView.closeAllNonDirtyDiffViews
        NotebookDiffView.openAndShow].
  rewrite Hfull.
  split; [reflexivity|]. split; [reflexivity|].
  match goal with
  | |- NotebookDiffView.files (if ?b then NotebookDiffView.openAndShow ?u ?w1 else ?w2) !! _ = _ =>
      assert (Hfiles : NotebookDiffView.files
                         (if b then NotebookDiffView.openAndShow u w1 else w2)
                       = NotebookDiffView.files w2)
        by (destruct b; reflexivity);
      rewrite Hfiles
  end.
  rewrite closeAllNonDirtyDiffViews_files.
  cbn [NotebookDiffView.files NotebookDiffView.log NotebookDiffView.set_files].
  apply lookup_insert_eq.
Qed.

Lemma revertAndClose_restores_original_witness :
  notebook (NotebookDiffView.activeDiffEditor
              (NotebookDiffView.revertAndClose (H := PlainHost.host)
                 Examples.dirtySession (Examples.workspace (Js.lit "x"))).1.1)
  = mkNotebook Examples.nbUri PlainHost.notebookTypeName
      (PlainHost.toCells Examples.text_braces) false
  /\ NotebookDiffView.files
       (NotebookDiffView.revertAndClose (H := PlainHost.host)
          Examples.dirtySession (Examples.workspace (Js.lit "x"))).1.2
       !! Examples.nbPath
     = Some Examples.text_braces.
Proof.
  destruct (revertAndClose_restores_original (H := PlainHost.host)
              Examples.dirtySession (Examples.workspace (Js.lit "x"))
              (PlainHost.toCells Examples.text_braces) eq_refl eq_refl eq_refl)
    as (_ & Hnb & Hfile).
  split; assumption.
Defined.



(* ------------------------------------------------------------------ *)
(** * Further properties of the tab handling *)

Section TabFacts.
Import NotebookDiffView Effects.
Context `{Host}.

Lemma filter_all {A : Type} (P : A -> Prop) `{!forall x, Decision (P x)}
    (l : list A) :
  (forall x, P x) -> filter P l = l.
Proof.
  intros HP. induction l as [|x l IH]; [reflexivity|].
  rewrite filter_cons_True by apply HP. now rewrite IH.
Qed.

Lemma elem_of_concat_filter {A : Type} (P : A -> Prop)
    `{!forall x, Decision (P x)} (g : list (list A)) (x : A) :
  x ∈ concat (map (filter P) g) <-> P x /\ x ∈ concat g.
Proof.
  induction g as [|l g IH]; cbn [map concat].
  - rewrite elem_of_nil. tauto.
  - rewrite !elem_of_app, list_elem_of_filter, IH. tauto.
Qed.

(** A loop of conditional [close] calls removes, from every group, the
    tabs it closed. *)
Lemma tabGroups_closing (c : Tab -> bool) (tabs : list Tab) (w : World) :
  tabGroups (foldl (fun w tab => if c tab then closeTab tab w else w) w tabs)
  = map (filter (fun t' => t' ∉ filter (fun x => c x = true) tabs)) (tabGroups w).
Proof.
  revert w. induction tabs as [|tab tabs IH]; intros w; cbn [foldl].
  - symmetry. rewrite <- (map_id (tabGroups w)) at 2. apply map_ext.
    intros l. apply filter_all. intros x. apply not_elem_of_nil.
  - rewrite IH. destruct (c tab) eqn:Hc.
    + rewrite filter_cons_True by exact Hc.
      rewrite closeTab_tabGroups.
      rewrite map_map. apply map_ext. intros l.
      rewrite list_filter_filter. apply list_filter_iff.
      intros x. rewrite not_elem_of_cons. tauto.
    + rewrite filter_cons_False by (rewrite Hc; discriminate). reflexivity.
Qed.

Lemma tabGroups_closing_all (tabs : list Tab) (w : World) :
  tabGroups (foldl (fun w tab => closeTab tab w) w tabs)
  = map (filter (fun t' => t' ∉ tabs)) (tabGroups w).
Proof.
  revert w. induction tabs as [|tab tabs IH]; intros w; cbn [foldl].
  - symmetry. rewrite <- (map_id (tabGroups w)) at 2. apply map_ext.
    intros l. apply filter_all. intros x. apply not_elem_of_nil.
  - rewrite IH, closeTab_tabGroups, map_map. apply map_ext. intros l.
    rewrite list_filter_filter. apply list_filter_iff.
    intros x. rewrite not_elem_of_cons. tauto.
Qed.

End TabFacts.

(** Which tabs [closeAllNonDirtyDiffViews] leaves open. *)
Lemma closeAllNonDirtyDiffViews_tab_iff `{Host}
    (w : NotebookDiffView.World) (tab : Tab) :
  tab ∈ concat (NotebookDiffView.tabGroups (NotebookDiffView.closeAllNonDirtyDiffViews w))
  <-> tab ∈ concat (NotebookDiffView.tabGroups w)
      /\ (NotebookDiffView.isOriginNotebookDiff tab = false \/ tabIsDirty tab = true).
Proof.
  unfold NotebookDiffView.closeAllNonDirtyDiffViews.
  rewrite (tabGroups_closing (fun tab => negb (tabIsDirty tab))).
  rewrite elem_of_concat_filter, !list_elem_of_filter. cbv beta.
  split.
  - intros [Hnot Hin]. split; [assumption|].
    destruct (NotebookDiffView.isOriginNotebookDiff tab) eqn:Horigin; [|now left].
    destruct (tabIsDirty tab) eqn:Hdirty; [now right|].
    exfalso. apply Hnot. auto.
  - intros [Hin Hkeep]. split; [|assumption].
    intros (Hneg & Horigin & _).
    destruct Hkeep as [Ho|Hd]; [congruence|].
    rewrite Hd in Hneg. discriminate.
Qed.

(** Which tabs [closeFileEditorTabs] leaves open. *)
Lemma closeFileEditorTabs_tab_iff `{Host}
    (fileUri : Uri) (w : NotebookDiffView.World) (tab : Tab) :
  (tab ∈ concat (NotebookDiffView.tabGroups (NotebookDiffView.closeFileEditorTabs fileUri w))
   <-> tab ∈ concat (NotebookDiffView.tabGroups w)
       /\ NotebookDiffView.isTextTabOf (fsPath fileUri) tab = false)
  /\ NotebookDiffView.isFileOpen fileUri (NotebookDiffView.closeFileEditorTabs fileUri w)
     = false.
Proof.
  assert (Htabs : forall tab',
    tab' ∈ concat (NotebookDiffView.tabGroups
                     (NotebookDiffView.closeFileEditorTabs fileUri w))
    <-> tab' ∈ concat (NotebookDiffView.tabGroups w)
        /\ NotebookDiffView.isTextTabOf (fsPath fileUri) tab' = false).
  { intros tab'. unfold NotebookDiffView.closeFileEditorTabs.
    cbv zeta.
    set (tabs := filter (fun tab => NotebookDiffView.isTextTabOf (fsPath fileUri) tab = true)
                   (concat (NotebookDiffView.tabGroups w))).
    rewrite tabGroups_closing_all. subst tabs.
    rewrite elem_of_concat_filter, list_elem_of_filter.
    destruct (NotebookDiffView.isTextTabOf (fsPath fileUri) tab') eqn:Htext; split.
    - intros [Hnot Hin]. exfalso. apply Hnot. auto.
    - intros [_ Hfalse]. discriminate.
    - intros [_ Hin]. auto.
    - intros [Hin _]. split; [|assumption]. intros [Htrue _]. discriminate. }
  split; [apply Htabs|].
  unfold NotebookDiffView.isFileOpen.
  destruct (existsb _ _) eqn:Hex; [|reflexivity].
  apply existsb_exists in Hex as (tab' & Hin & Htext).
  apply list_elem_of_In, Htabs in Hin as [_ Hfalse]. congruence.
Qed.

(** [closeAllNonDirtyDiffViews] closes exactly the comparison views
    without unsaved changes: a tab is open afterwards if and only if it
    was open and is either no notebook diff on the origin scheme or a
    dirty one. *)
Theorem closeAllNonDirtyDiffViews_tabs `{Host}
    (w : NotebookDiffView.World) (tab : Tab) :
  tab ∈ concat (NotebookDiffView.tabGroups (NotebookDiffView.closeAllNonDirtyDiffViews w))
  <-> tab ∈ concat (NotebookDiffView.tabGroups w)
      /\ (NotebookDiffView.isOriginNotebookDiff tab = false \/ tabIsDirty tab = true).
Proof. apply closeAllNonDirtyDiffViews_tab_iff. Qed.

(** [closeFileEditorTabs] closes exactly the plain text tabs of the
    file: a tab is open afterwards if and only if it was open and is no
    text tab of that file; so the file is no longer open in a plain tab. *)
Theorem closeFileEditorTabs_tabs `{Host}
    (fileUri : Uri) (w : NotebookDiffView.World) (tab : Tab) :
  (tab ∈ concat (NotebookDiffView.tabGroups (NotebookDiffView.closeFileEditorTabs fileUri w))
   <-> tab ∈ concat (NotebookDiffView.tabGroups w)
       /\ NotebookDiffView.isTextTabOf (fsPath fileUri) tab = false)
  /\ NotebookDiffView.isFileOpen fileUri (NotebookDiffView.closeFileEditorTabs fileUri w)
     = false.
Proof. apply closeFileEditorTabs_tab_iff. Qed.

(* ------------------------------------------------------------------ *)
(** * Further properties of [saveChanges] *)

Section SaveFacts.
Import NotebookDiffView Effects.
Context `{Host}.

Lemma withTextTab_shows (u : Uri) (g : list (list Tab)) :
  existsb (isTextTabOf (fsPath u)) (concat (withTextTab u g)) = true.
Proof.
  unfold withTextTab.
  destruct (existsb (isTextTabOf (fsPath u)) (concat g)) eqn:E; [exact E|].
  destruct g as [|g0 gs]; cbn.
  - now rewrite String.eqb_refl.
  - rewrite <- app_assoc, existsb_app. cbn.
    rewrite String.eqb_refl. cbn. now rewrite orb_true_r.
Qed.

Lemma text_tab_is_no_comparison_view (p : string) (tab : Tab) :
  isTextTabOf p tab = true -> isOriginNotebookDiff tab = false.
Proof.
  unfold isTextTabOf, isOriginNotebookDiff. now destruct (input tab).
Qed.

(** After the file is shown and the clean comparison views are closed,
    the file is open in a plain tab. *)
Lemma isFileOpen_after_show_and_close (u : Uri) (w : World) :
  isFileOpen u (closeAllNonDirtyDiffViews (set_needFocusDiffViews true (openAndShow u w)))
  = true.
Proof.
  pose proof (withTextTab_shows u (tabGroups (log (openTextDocument u) w))) as Hshown.
  apply existsb_exists in Hshown as (tab & Hin & Htext).
  unfold isFileOpen. apply existsb_exists. exists tab. split; [|exact Htext].
  apply list_elem_of_In, closeAllNonDirtyDiffViews_tab_iff. split.
  - apply list_elem_of_In. exact Hin.
  - left. eapply text_tab_is_no_comparison_view, Htext.
Qed.

End SaveFacts.

(* ------------------------------------------------------------------ *)
(** * Plain tabs of the file *)

Section FileTabFacts.
Import NotebookDiffView Effects.
Context `{Host}.

Lemma existsb_markTabs (p q : string) (d : bool) (g : list (list Tab)) :
  existsb (isTextTabOf p) (concat (markTabs q d g))
  = existsb (isTextTabOf p) (concat g).
Proof.
  unfold markTabs. induction g as [|g0 g IH]; [reflexivity|].
  cbn [map concat]. rewrite !existsb_app, IH. f_equal.
  induction g0 as [|tab g0 IH0]; [reflexivity|].
  cbn [map existsb]. rewrite IH0. f_equal.
  unfold isTextTabOf. now destruct (showsNotebook q tab).
Qed.

Lemma existsb_withDiffTab (p : string) (original modified : Uri) (g : list (list Tab)) :
  existsb (isTextTabOf p) (concat (withDiffTab original modified g))
  = existsb (isTextTabOf p) (concat g).
Proof.
  unfold withDiffTab. case_bool_decide; [reflexivity|].
  destruct g as [|g0 g]; [reflexivity|].
  cbn [concat]. rewrite !existsb_app. cbn. now rewrite orb_false_r.
Qed.

Lemma isFileOpen_closeAllNonDirtyDiffViews (u : Uri) (w : World) :
  isFileOpen u (closeAllNonDirtyDiffViews w) = isFileOpen u w.
Proof.
  unfold isFileOpen. apply eq_true_iff_eq.
  rewrite !existsb_exists. split.
  - intros (tab & Hin & Htext). exists tab. split; [|exact Htext].
    apply list_elem_of_In in Hin.
    apply closeAllNonDirtyDiffViews_tab_iff in Hin as [Hin _].
    now apply list_elem_of_In.
  - intros (tab & Hin & Htext). exists tab. split; [|exact Htext].
    apply list_elem_of_In, closeAllNonDirtyDiffViews_tab_iff. split.
    + now apply list_elem_of_In.
    + left. eapply text_tab_is_no_comparison_view, Htext.
Qed.

Lemma isFileOpen_discardChanges (u : Uri) (this : t) (w : World) (original : jsstring) :
  isFileOpen u (discardChangesWithWorkspaceEdit this w original).1.2 = isFileOpen u w.
Proof.
  unfold discardChangesWithWorkspaceEdit.
  destruct (negb (isDirty (notebook (activeDiffEditor this)))); [reflexivity|].
  destruct (executeDataToNotebook _ original) as [data| |]; try reflexivity.
  unfold isFileOpen. cbn -[markTabs existsb concat isTextTabOf].
  now rewrite !existsb_markTabs.
Qed.

Lemma isFileOpen_openDiffEditor (u : Uri) (k : string) (target : Uri)
    (existing : bool) (original : jsstring) (w : World) :
  isFileOpen u (openDiffEditor k target existing original w).2 = isFileOpen u w.
Proof.
  unfold openDiffEditor.
  destruct (if existsb _ _ then _ else None) as [editor|]; [reflexivity|].
  unfold runVSCodeDiff, diffAnswer.
  destruct (activeNotebookEditor target _) as [editor|]; [|reflexivity].
  destruct (String.eqb _ _); [|reflexivity].
  unfold isFileOpen. cbn. apply existsb_withDiffTab.
Qed.

(** The session records whether the file was open in a plain tab when
    it was created. *)
Lemma createDiffView_wasOpen (k relpath dir : string) (w : World) (v : t) :
  (createDiffView k relpath dir w).1 = Some v ->
  isFileOpenBeforeDiffPreview v = isFileOpen (Uri_file (resolvePath relpath dir)) w.
Proof.
  unfold createDiffView.
  set (u := Uri_file (resolvePath relpath dir)).
  set (w1 := if negb _ then _ else w).
  assert (Hw1 : isFileOpen u w1 = isFileOpen u w).
  { subst w1. now destruct (negb _). }
  pose proof (isFileOpen_openDiffEditor u k u
                (bool_decide (is_Some (files w !! fsPath u)))
                (default [] (files w1 !! fsPath u)) w1) as Hopen.
  destruct (openDiffEditor k u _ _ w1) as [[editor|] w2]; [|discriminate].
  cbn [fst snd] in *. intros [= <-]. cbn. congruence.
Qed.

Lemma isFileOpen_createDiffView (u : Uri) (k relpath dir : string) (w : World) :
  isFileOpen u (createDiffView k relpath dir w).2 = isFileOpen u w.
Proof.
  unfold createDiffView.
  set (target := Uri_file (resolvePath relpath dir)).
  set (w1 := if negb _ then _ else w).
  assert (Hw1 : isFileOpen u w1 = isFileOpen u w).
  { subst w1. now destruct (negb _). }
  pose proof (isFileOpen_openDiffEditor u k target
                (bool_decide (is_Some (files w !! fsPath target)))
                (default [] (files w1 !! fsPath target)) w1) as Hopen.
  destruct (openDiffEditor k target _ _ w1) as [[editor|] w2]; cbn [fst snd] in *;
    [|congruence].
  unfold isFileOpen in *. cbn [tabGroups set_allocated]. congruence.
Qed.

End FileTabFacts.

(* ------------------------------------------------------------------ *)
(** * Further properties of the registry *)

Section RegistryFacts.
Import NotebookDiffView Effects.
Context `{Host}.

Lemma installHook_registered (k : string) (v : t) (w : World) :
  JsMap.get k (DiffViewMap w) = Some v -> installHook w = w.
Proof.
  unfold installHook. destruct (DiffViewMap w); [discriminate|reflexivity].
Qed.

Lemma installHook_keeps (w : World) :
  DiffViewMap (installHook w) = DiffViewMap w
  /\ files (installHook w) = files w
  /\ tabGroups (installHook w) = tabGroups w
  /\ allocated (installHook w) = allocated w
  /\ visibleNotebookEditors (installHook w) = visibleNotebookEditors w.
Proof. unfold installHook. destruct (_ && _); now repeat split. Qed.

Lemma installHook_hook (w : World) :
  DiffViewDisposable (installHook w)
  = DiffViewDisposable w || (length (DiffViewMap w) =? 0)%nat.
Proof.
  unfold installHook.
  destruct (length (DiffViewMap w) =? 0)%nat, (DiffViewDisposable w) eqn:E;
    cbn; rewrite ?E; reflexivity.
Qed.

Lemma JsMap_get_set_ne {V : Type} (k k' : string) (v : V) (m : list (string * V)) :
  k' <> k -> JsMap.get k' (JsMap.set k v m) = JsMap.get k' m.
Proof.
  intros Hne. induction m as [|[k0 v0] m IH]; cbn.
  - destruct (String.eqb k k') eqn:E; [|reflexivity].
    apply String.eqb_eq in E. congruence.
  - destruct (String.eqb k0 k) eqn:E; cbn.
    + apply String.eqb_eq in E. subst k0.
      destruct (String.eqb k k') eqn:E'; [|reflexivity].
      apply String.eqb_eq in E'. congruence.
    + now rewrite IH.
Qed.

Lemma JsMap_keys_set {V : Type} (k : string) (v v0 : V) (m : list (string * V)) :
  JsMap.get k m = Some v0 -> map fst (JsMap.set k v m) = map fst m.
Proof.
  induction m as [|[k0 v1] m IH]; cbn; [discriminate|].
  destruct (String.eqb k0 k); cbn; [reflexivity|].
  intros Hget. now rewrite IH.
Qed.

Lemma closeFileEditorTabs_keeps {B : Type} (P : World -> B) :
  (forall w tab, P (closeTab tab w) = P w) ->
  forall u w, P (closeFileEditorTabs u w) = P w.
Proof. intros HP u w. unfold closeFileEditorTabs. now apply foldl_keeps. Qed.

(** When the diff command brings up no editor, it has only been
    issued. *)
Lemma runVSCodeDiff_rejected (k : string) (original : jsstring) (existing : bool)
    (u : Uri) (w : World) :
  (runVSCodeDiff k original existing u w).1 = None ->
  (runVSCodeDiff k original existing u w).2
  = log (vscode_diff (originUri k original u) u existing) w.
Proof.
  unfold runVSCodeDiff, diffAnswer.
  destruct (activeNotebookEditor u _) as [editor|]; [|reflexivity].
  destruct (String.eqb _ _); [discriminate|reflexivity].
Qed.

Lemma runVSCodeDiff_keeps (k : string) (original : jsstring) (existing : bool)
    (u : Uri) (w : World) :
  files (runVSCodeDiff k original existing u w).2 = files w
  /\ DiffViewDisposable (runVSCodeDiff k original existing u w).2 = DiffViewDisposable w
  /\ needFocusDiffViews (runVSCodeDiff k original existing u w).2 = needFocusDiffViews w.
Proof.
  unfold runVSCodeDiff, diffAnswer.
  destruct (activeNotebookEditor u _) as [editor|]; [|now repeat split].
  destruct (String.eqb _ _); now repeat split.
Qed.

Lemma runVSCodeDiff_editor (k : string) (original : jsstring) (existing : bool)
    (u : Uri) (w : World) (e : NotebookEditor) :
  (runVSCodeDiff k original existing u w).1 = Some e ->
  fsPath (uri (notebook e)) = fsPath u.
Proof.
  unfold runVSCodeDiff, diffAnswer.
  destruct (activeNotebookEditor u _) as [editor|]; [|discriminate].
  destruct (String.eqb _ _) eqn:E; [|discriminate].
  intros [= <-]. now apply String.eqb_eq.
Qed.

Lemma openDiffEditor_keeps (k : string) (u : Uri) (existing : bool)
    (original : jsstring) (w : World) :
  files (openDiffEditor k u existing original w).2 = files w
  /\ DiffViewDisposable (openDiffEditor k u existing original w).2 = DiffViewDisposable w
  /\ needFocusDiffViews (openDiffEditor k u existing original w).2 = needFocusDiffViews w.
Proof.
  unfold openDiffEditor.
  destruct (if existsb _ _ then _ else None) as [editor|]; [now repeat split|].
  apply runVSCodeDiff_keeps.
Qed.

Lemma openDiffEditor_editor (k : string) (u : Uri) (existing : bool)
    (original : jsstring) (w : World) (e : NotebookEditor) :
  (openDiffEditor k u existing original w).1 = Some e ->
  fsPath (uri (notebook e)) = fsPath u.
Proof.
  unfold openDiffEditor.
  destruct (existsb _ _).
  - destruct (find _ _) as [editor|] eqn:Hfind.
    + intros [= <-]. apply find_some in Hfind as [_ Heq].
      now apply String.eqb_eq.
    + apply runVSCodeDiff_editor.
  - apply runVSCodeDiff_editor.
Qed.

(** When no editor comes up, the tabs are as before and exactly one
    diff command has been issued. *)
Lemma openDiffEditor_rejected (k : string) (u : Uri) (existing : bool)
    (original : jsstring) (w : World) :
  (openDiffEditor k u existing original w).1 = None ->
  (openDiffEditor k u existing original w).2
  = log (vscode_diff (originUri k original u) u existing) w.
Proof.
  unfold openDiffEditor.
  destruct (if existsb _ _ then _ else None) as [editor|]; [discriminate|].
  apply runVSCodeDiff_rejected.
Qed.

(** The file a session is created on, after the scaffold has been
    written where it was missing. *)
Lemma scaffold_content (p : string) (w : World) :
  default [] ((if bool_decide (is_Some (files w !! p)) then files w
               else <[p := []]> (files w)) !! p)
  = default [] (files w !! p).
Proof.
  case_bool_decide as Hex; [reflexivity|].
  rewrite lookup_insert_eq.
  destruct (files w !! p) eqn:E; [|reflexivity].
  exfalso. apply Hex. eauto.
Qed.

(** The session [createDiffView] makes, and what it leaves behind
    whether or not the comparison view opens. *)
Lemma createDiffView_session (k relpath dir : string) (w : World) :
  let p := resolvePath relpath dir in
  let r := createDiffView k relpath dir w in
  files r.2 = (if bool_decide (is_Some (files w !! p)) then files w
               else <[p := []]> (files w))
  /\ DiffViewDisposable r.2 = DiffViewDisposable w
  /\ (forall v, r.1 = Some v ->
        id v = k /\ fileUri v = Uri_file p /\ cwd v = dir
        /\ fileExists v = bool_decide (is_Some (files w !! p))
        /\ originalContent v = default [] (files w !! p)
        /\ isFinalized v = false /\ isReverted v = false /\ streamedLines v = []
        /\ fsPath (uri (notebook (activeDiffEditor v))) = p)
  /\ (r.1 = None ->
        tabGroups r.2 = tabGroups w
        /\ diffCommands r.2 = S (diffCommands w)).
Proof.
  cbv zeta. unfold createDiffView.
  change (fsPath (Uri_file (resolvePath relpath dir))) with (resolvePath relpath dir).
  set (p := resolvePath relpath dir).
  set (w1 := if negb _ then _ else w).
  assert (Hfiles : files w1 = (if bool_decide (is_Some (files w !! p)) then files w
                               else <[p := []]> (files w))).
  { subst w1. now destruct (bool_decide _). }
  assert (Hkeep : DiffViewDisposable w1 = DiffViewDisposable w
                  /\ tabGroups w1 = tabGroups w
                  /\ diffCommands w1 = diffCommands w).
  { subst w1. destruct (bool_decide _); cbn [negb]; [now repeat split|].
    repeat split. rewrite diffCommands_log. cbn [isDiffCommand].
    unfold diffCommands. cbn [calls set_files]. lia. }
  destruct Hkeep as (Hhook & Htabs & Hdiff).
  assert (Horig : default [] (files w1 !! p) = default [] (files w !! p)).
  { rewrite Hfiles. apply scaffold_content. }
  pose proof (openDiffEditor_keeps k (Uri_file p) (bool_decide (is_Some (files w !! p)))
                (default [] (files w1 !! p)) w1) as (Hf & Hh & _).
  pose proof (openDiffEditor_editor k (Uri_file p) (bool_decide (is_Some (files w !! p)))
                (default [] (files w1 !! p)) w1) as Hed.
  pose proof (openDiffEditor_rejected k (Uri_file p) (bool_decide (is_Some (files w !! p)))
                (default [] (files w1 !! p)) w1) as Hrej.
  destruct (openDiffEditor k (Uri_file p) _ _ w1) as [[editor|] w2];
    cbn [fst snd] in *.
  - split; [cbn [files set_allocated]; congruence|].
    split; [cbn [DiffViewDisposable set_allocated]; congruence|].
    split; [|discriminate].
    intros v [= <-]. cbn. repeat split; try assumption.
    exact (Hed editor eq_refl).
  - split; [congruence|]. split; [congruence|]. split; [discriminate|].
    intros _. rewrite (Hrej eq_refl). split; [exact Htabs|].
    rewrite diffCommands_log. cbn [isDiffCommand]. lia.
Qed.

Lemma createDiffView_unallocated (k relpath dir : string) (w : World) :
  (createDiffView k relpath dir w).1 = None ->
  allocated (createDiffView k relpath dir w).2 = allocated w.
Proof.
  unfold createDiffView.
  set (u := Uri_file (resolvePath relpath dir)).
  set (w1 := if negb _ then _ else w).
  assert (Hw1 : allocated w1 = allocated w).
  { subst w1. now destruct (negb _). }
  pose proof (openDiffEditor_frame k u
    (bool_decide (is_Some (files w !! fsPath u)))
    (default [] (files w1 !! fsPath u)) w1) as (_ & Ha & _).
  cbv zeta in Ha.
  destruct (openDiffEditor k u _ _ w1) as [[editor|] w2]; cbn [fst snd] in *;
    [discriminate|].
  intros _. congruence.
Qed.

Lemma createDiffView_needFocus (k relpath dir : string) (w : World) :
  needFocusDiffViews (createDiffView k relpath dir w).2 = needFocusDiffViews w.
Proof.
  unfold createDiffView.
  set (u := Uri_file (resolvePath relpath dir)).
  set (w1 := if negb _ then _ else w).
  assert (Hw1 : needFocusDiffViews w1 = needFocusDiffViews w).
  { subst w1. now destruct (negb _). }
  pose proof (openDiffEditor_keeps k u
    (bool_decide (is_Some (files w !! fsPath u)))
    (default [] (files w1 !! fsPath u)) w1) as (_ & _ & Hn).
  destruct (openDiffEditor k u _ _ w1) as [[editor|] w2]; cbn [fst snd] in *;
    cbn [needFocusDiffViews set_allocated]; congruence.
Qed.

(** The session object after [revertAndClose] is the same object on the
    same file. *)
Lemma revertAndClose_same_object (this : t) (w : World) :
  self (revertAndClose this w).1.1 = self this
  /\ id (revertAndClose this w).1.1 = id this
  /\ fileUri (revertAndClose this w).1.1 = fileUri this.
Proof.
  unfold revertAndClose.
  destruct (isReverted this); [now repeat split|].
  unfold discardChangesWithWorkspaceEdit.
  cbn [activeDiffEditor set_isReverted originalContent].
  destruct (negb (isDirty (notebook (activeDiffEditor this)))); [now repeat split|].
  destruct (executeDataToNotebook _ _) as [data| |]; now repeat split.
Qed.


(** The registry, the hook and the refocus request after a close
    event. *)
Lemma handleTabChanges_flags (tab : Tab) (closed : list Tab) (w : World) :
  needFocusDiffViews (handleTabChanges (tab :: closed) w) = false
  /\ DiffViewDisposable (handleTabChanges (tab :: closed) w)
     = DiffViewDisposable w
       && negb (length (DiffViewMap (handleTabChanges (tab :: closed) w)) =? 0)%nat.
Proof.
  unfold handleTabChanges.
  set (ids := idsToRemove _ _).
  destruct (removeMarked_flags ids w) as (Hh1 & Hn1).
  set (w1 := removeMarked ids w) in *.
  set (w2 := if _ && _ then _ else w1).
  assert (Hw2 : DiffViewMap w2 = DiffViewMap w1
                /\ needFocusDiffViews w2 = needFocusDiffViews w
                /\ DiffViewDisposable w2
                   = DiffViewDisposable w && negb (length (DiffViewMap w1) =? 0)%nat).
  { subst w2. rewrite <- Hh1, <- Hn1.
    destruct (length (DiffViewMap w1) =? 0)%nat, (DiffViewDisposable w1) eqn:E;
      cbn; rewrite ?E; now repeat split. }
  destruct Hw2 as (Hm2 & Hn2 & Hh2). clearbody w2.
  destruct (needFocusDiffViews w2) eqn:Hfocus.
  - unfold focusDiffViews. cbn [DiffViewMap set_needFocusDiffViews].
    destruct (DiffViewMap w2) as [|[k0 first] m] eqn:E; cbn; rewrite ?E;
      (split; [reflexivity|]); now rewrite Hh2, <- Hm2.
  - now rewrite Hfocus, Hh2, Hm2.
Qed.

Lemma handleTabChanges_hooked (closed : list Tab) (w : World) :
  hooked w -> hooked (handleTabChanges closed w).
Proof.
  intros Hhooked. destruct closed as [|tab closed]; [exact Hhooked|].
  intros Hne.
  destruct (handleTabChanges_flags tab closed w) as (_ & ->).
  rewrite (handleTabChanges_registry (tab :: closed) w) in * by discriminate.
  rewrite Hhooked.
  - destruct (filter _ _); [contradiction|reflexivity].
  - intros Hempty. rewrite Hempty in Hne. now apply Hne.
Qed.

(** A filter on the ids keeps or drops all that a registry holds under
    an id. *)
Lemma JsMap_get_filter_key {V : Type} (Q : string -> Prop)
    `{!forall k, Decision (Q k)} (k : string) (m : list (string * V)) :
  JsMap.get k (filter (fun kv => Q kv.1) m)
  = if decide (Q k) then JsMap.get k m else None.
Proof.
  induction m as [|[k0 v0] m IH]; [now destruct (decide (Q k))|].
  destruct (decide (Q k0)) as [Hq|Hq].
  - rewrite filter_cons_True by exact Hq. cbn [JsMap.get].
    destruct (String.eqb k0 k) eqn:E; [|exact IH].
    apply String.eqb_eq in E. subst k0. now rewrite decide_True.
  - rewrite filter_cons_False by exact Hq. cbn [JsMap.get]. rewrite IH.
    destruct (String.eqb k0 k) eqn:E; [|reflexivity].
    apply String.eqb_eq in E. subst k0. now destruct (decide (Q k)).
Qed.

Lemma pruned_refl (m : list (string * t)) : pruned m m.
Proof. intros k. now left. Qed.

Lemma pruned_trans (m1 m2 m3 : list (string * t)) :
  pruned m1 m2 -> pruned m2 m3 -> pruned m1 m3.
Proof.
  intros H12 H23 k. destruct (H23 k) as [->| ->]; [apply H12|now right].
Qed.

Lemma handleTabChanges_pruned (closed : list Tab) (w : World) :
  pruned (DiffViewMap w) (DiffViewMap (handleTabChanges closed w)).
Proof.
  destruct closed as [|tab closed]; [apply pruned_refl|].
  rewrite handleTabChanges_registry by discriminate.
  intros k.
  pose proof (JsMap_get_filter_key
                (fun k : string =>
                   k ∉ idsToRemove (visibleDiffViewIds w) (DiffViewMap w))
                k (DiffViewMap w)) as Hget.
  cbn beta in Hget. rewrite Hget.
  destruct (decide _); auto.
Qed.

(** A loop whose every round stays within a relation that is reflexive
    and transitive stays within it. *)
Lemma foldl_within {A : Type} (R : World -> World -> Prop)
    (f : World -> A -> World) (l : list A) :
  (forall w, R w w) -> (forall a b c, R a b -> R b c -> R a c) ->
  (forall w x, R w (f w x)) -> forall w, R w (foldl f w l).
Proof.
  intros Hrefl Htrans Hf. induction l as [|x l IH]; intros w; cbn [foldl].
  - apply Hrefl.
  - eapply Htrans; [apply Hf|apply IH].
Qed.

(** What closing one tab does to the bindings of the module: entries
    of the registry are removed at most, the hook stays installed while
    a session is registered, and a cleared refocus request stays
    cleared, in which case no diff command is issued. *)
Lemma closeTab_bindings (tab : Tab) (w : World) :
  pruned (DiffViewMap w) (DiffViewMap (closeTab tab w))
  /\ (hooked w -> hooked (closeTab tab w))
  /\ (needFocusDiffViews w = false ->
      needFocusDiffViews (closeTab tab w) = false
      /\ diffCommands (closeTab tab w) = diffCommands w)
  /\ (DiffViewDisposable w = false ->
      DiffViewDisposable (closeTab tab w) = false
      /\ DiffViewMap (closeTab tab w) = DiffViewMap w
      /\ needFocusDiffViews (closeTab tab w) = needFocusDiffViews w)
  /\ (DiffViewDisposable w = true -> needFocusDiffViews (closeTab tab w) = false).
Proof.
  unfold closeTab. cbv zeta.
  set (w1 := log (tabGroups_close tab)
               (set_tabGroups (map (filter (fun t' => t' <> tab)) (tabGroups w)) w)).
  assert (Hw1 : DiffViewMap w1 = DiffViewMap w
                /\ DiffViewDisposable w1 = DiffViewDisposable w
                /\ needFocusDiffViews w1 = needFocusDiffViews w
                /\ diffCommands w1 = diffCommands w).
  { subst w1. repeat split. rewrite diffCommands_log. cbn [isDiffCommand].
    unfold diffCommands. cbn [calls set_tabGroups]. lia. }
  destruct Hw1 as (Hm & Hh & Hn & Hd). clearbody w1.
  destruct (DiffViewDisposable w1) eqn:Hhook.
  - pose proof (handleTabChanges_pruned [tab] w1) as Hpruned.
    pose proof (handleTabChanges_hooked [tab] w1) as Hhooked.
    destruct (handleTabChanges_flags tab [] w1) as (Hflag & _).
    destruct (handleTabChanges_trace [tab] w1) as (extra & Hc & _ & Hcount).
    rewrite Hm in Hpruned.
    split; [exact Hpruned|]. split.
    { intros _. apply Hhooked. intros _. exact Hhook. }
    split.
    { intros Hoff. split; [exact Hflag|].
      rewrite Hn, Hoff in Hcount. rewrite <- Hd.
      unfold diffCommands. rewrite Hc, filter_app, length_app. lia. }
    split; [intros Hoff; congruence|]. intros _. exact Hflag.
  - rewrite Hm, Hn, Hd. split; [apply pruned_refl|]. split.
    { intros Hw Hne. rewrite Hm in Hne. apply Hw in Hne. congruence. }
    split; [intros Hoff; now split|].
    split; [intros _; now repeat split|]. intros Hon. congruence.
Qed.

(** The same for a loop of closings, each under a condition of its
    own. *)
Lemma closing_bindings (c : Tab -> bool) (tabs : list Tab) (w : World) :
  let w' := foldl (fun w tab => if c tab then closeTab tab w else w) w tabs in
  pruned (DiffViewMap w) (DiffViewMap w')
  /\ (hooked w -> hooked w')
  /\ (needFocusDiffViews w = false ->
      needFocusDiffViews w' = false /\ diffCommands w' = diffCommands w).
Proof.
  cbv zeta. split; [|split].
  - apply (foldl_within (fun w w' => pruned (DiffViewMap w) (DiffViewMap w'))).
    + intros w0. apply pruned_refl.
    + intros a b d. apply pruned_trans.
    + intros w0 tab. destruct (c tab); [apply closeTab_bindings|apply pruned_refl].
  - apply (foldl_within (fun w w' => hooked w -> hooked w')); [auto|auto|].
    intros w0 tab. destruct (c tab); [apply closeTab_bindings|auto].
  - apply (foldl_within
             (fun w w' => needFocusDiffViews w = false ->
                          needFocusDiffViews w' = false
                          /\ diffCommands w' = diffCommands w)).
    + auto.
    + intros a b d Hab Hbd Ha. destruct (Hab Ha) as (Hb & Hdb).
      destruct (Hbd Hb) as (Hd & Hdd). split; [exact Hd|congruence].
    + intros w0 tab. destruct (c tab); [apply closeTab_bindings|auto].
Qed.

Lemma closeAllNonDirtyDiffViews_bindings (w : World) :
  pruned (DiffViewMap w) (DiffViewMap (closeAllNonDirtyDiffViews w))
  /\ (hooked w -> hooked (closeAllNonDirtyDiffViews w))
  /\ (needFocusDiffViews w = false ->
      needFocusDiffViews (closeAllNonDirtyDiffViews w) = false
      /\ diffCommands (closeAllNonDirtyDiffViews w) = diffCommands w).
Proof.
  unfold closeAllNonDirtyDiffViews.
  apply (closing_bindings (fun tab => negb (tabIsDirty tab))).
Qed.

Lemma closeFileEditorTabs_bindings (u : Uri) (w : World) :
  pruned (DiffViewMap w) (DiffViewMap (closeFileEditorTabs u w))
  /\ (hooked w -> hooked (closeFileEditorTabs u w))
  /\ (needFocusDiffViews w = false ->
      needFocusDiffViews (closeFileEditorTabs u w) = false
      /\ diffCommands (closeFileEditorTabs u w) = diffCommands w).
Proof.
  unfold closeFileEditorTabs.
  apply (closing_bindings (fun _ => true)).
Qed.

(** With no plain text tab of the file open, [closeFileEditorTabs]
    finds nothing to close. *)
Lemma closeFileEditorTabs_nothing_open (u : Uri) (w : World) :
  isFileOpen u w = false -> closeFileEditorTabs u w = w.
Proof.
  unfold isFileOpen, closeFileEditorTabs.
  generalize (concat (tabGroups w)). intros l Hnone.
  replace (filter (fun tab => isTextTabOf (fsPath u) tab = true) l) with (@nil Tab);
    [reflexivity|].
  symmetry. induction l as [|tab l IH]; [reflexivity|].
  cbn [existsb] in Hnone. apply orb_false_iff in Hnone as [Htab Hl].
  rewrite filter_cons_False by (rewrite Htab; discriminate). now apply IH.
Qed.

(** [discardChangesWithWorkspaceEdit] works on the document and the
    files; the bindings of the module are not its business. *)
Lemma discardChanges_bindings (this : t) (w : World) (original : jsstring) :
  DiffViewMap (discardChangesWithWorkspaceEdit this w original).1.2 = DiffViewMap w
  /\ DiffViewDisposable (discardChangesWithWorkspaceEdit this w original).1.2
     = DiffViewDisposable w
  /\ needFocusDiffViews (discardChangesWithWorkspaceEdit this w original).1.2
     = needFocusDiffViews w.
Proof.
  unfold discardChangesWithWorkspaceEdit.
  destruct (negb (isDirty (notebook (activeDiffEditor this)))); [now repeat split|].
  destruct (executeDataToNotebook _ original) as [data| |]; now repeat split.
Qed.

(** [revertAndClose] removes entries from the registry at most, and
    keeps the hook installed while a session is registered. *)
Lemma revertAndClose_bindings (this : t) (w : World) :
  pruned (DiffViewMap w) (DiffViewMap (revertAndClose this w).1.2)
  /\ (hooked w -> hooked (revertAndClose this w).1.2).
Proof.
  unfold revertAndClose.
  destruct (isReverted this); [split; [apply pruned_refl|auto]|].
  destruct (discardChanges_bindings (set_isReverted true this) w
              (originalContent (set_isReverted true this))) as (Hm & Hh & _).
  destruct (discardChangesWithWorkspaceEdit _ w _) as [[this1 w1] [|]];
    cbn [fst snd] in *.
  - destruct (closeAllNonDirtyDiffViews_bindings w1) as (Hp & Hk & _).
    rewrite Hm in Hp.
    assert (Hw1 : hooked w -> hooked w1) by (unfold hooked; now rewrite Hm, Hh).
    destruct (isFileOpenBeforeDiffPreview this1); cbn -[closeAllNonDirtyDiffViews];
      (split; [exact Hp|]); intros Hw; apply Hk, Hw1, Hw.
  - rewrite Hm. split; [apply pruned_refl|]. unfold hooked. now rewrite Hm, Hh.
Qed.

(** The registry after [refresh]. *)
Lemma JsMap_get_refresh (this : t) (k : string) (m : list (string * t)) :
  JsMap.get k (refresh this m)
  = (fun v => if (self v =? self this)%nat then this else v) <$> JsMap.get k m.
Proof.
  unfold refresh. induction m as [|[k0 v0] m IH]; [reflexivity|].
  cbn [map JsMap.get fst snd].
  destruct (self v0 =? self this)%nat eqn:E; cbn [JsMap.get];
    destruct (String.eqb k0 k); try exact IH; cbn; now rewrite E.
Qed.


(** The registry [getOrCreate] leaves for an id that was not
    registered, when the view opens: the registry with the new session,
    less what the tab handler removed while the plain tabs of the file
    were closed; with no such tab open, nothing is closed and nothing
    removed. *)
Lemma getOrCreate_new_registry (k relpath dir : string) (w w' : World) (v : t) :
  JsMap.get k (DiffViewMap w) = None ->
  getOrCreate k relpath dir w = (Some v, w') ->
  pruned (JsMap.set k v (DiffViewMap w)) (DiffViewMap w')
  /\ (isFileOpen (Uri_file (resolvePath relpath dir)) w = false ->
      DiffViewMap w' = JsMap.set k v (DiffViewMap w)
      /\ diffCommands w' = diffCommands (createDiffView k relpath dir (installHook w)).2)
  /\ (needFocusDiffViews w = false ->
      diffCommands w' = diffCommands (createDiffView k relpath dir (installHook w)).2).
Proof.
  intros Hnew. unfold getOrCreate.
  destruct (installHook_keeps w) as (Hm0 & _ & Ht0 & _).
  assert (Hn0 : needFocusDiffViews (installHook w) = needFocusDiffViews w).
  { unfold installHook. now destruct (_ && _). }
  rewrite Hm0, Hnew.
  pose proof (createDiffView_frame k relpath dir (installHook w)) as [Hm1 _].
  pose proof (createDiffView_session k relpath dir (installHook w))
    as (_ & _ & Hsession & _).
  pose proof (createDiffView_needFocus k relpath dir (installHook w)) as Hn1.
  pose proof (isFileOpen_createDiffView (Uri_file (resolvePath relpath dir))
                k relpath dir (installHook w)) as Hopen.
  cbv zeta in Hm1, Hsession.
  destruct (createDiffView k relpath dir _) as [[v1|] w1]; [|discriminate].
  cbn [fst snd] in *. intros [= <- <-].
  destruct (Hsession v1 eq_refl) as (_ & Huri & _).
  set (w2 := set_DiffViewMap (JsMap.set k v1 (DiffViewMap w1)) w1).
  assert (Hm2 : DiffViewMap w2 = JsMap.set k v1 (DiffViewMap w))
    by (subst w2; cbn [DiffViewMap set_DiffViewMap]; congruence).
  destruct (closeFileEditorTabs_bindings (fileUri v1) w2) as (Hpruned & _ & Hquiet).
  rewrite Hm2 in Hpruned. split; [exact Hpruned|]. split.
  - intros Hclosed.
    rewrite closeFileEditorTabs_nothing_open; [now split|].
    rewrite Huri. subst w2. unfold isFileOpen in *.
    cbn [tabGroups set_DiffViewMap]. rewrite Hopen, Ht0. exact Hclosed.
  - intros Hoff. apply Hquiet. subst w2.
    cbn [needFocusDiffViews set_DiffViewMap]. congruence.
Qed.


(** The registry after the static [revertAndClose] of a registered
    id. *)
Lemma static_revertAndClose_registry (k : string) (v : t) (w : World) :
  JsMap.get k (DiffViewMap w) = Some v ->
  exists v' m,
    DiffViewMap (static_revertAndClose k w) = refresh v' m
    /\ pruned (DiffViewMap w) m
    /\ self v' = self v
    /\ isReverted v' = true.
Proof.
  intros Hget. unfold static_revertAndClose. rewrite Hget.
  destruct (revertAndClose_same_object v w) as (Hself & _).
  destruct (revertAndClose_bindings v w) as (Hpruned & _).
  pose proof (revertAndClose_isReverted v w) as Hrev.
  destruct (revertAndClose v w) as [[v1 w1] r]. cbn [fst snd] in *.
  exists v1, (DiffViewMap w1). now repeat split.
Qed.

(** The entry of a registered id after the static [revertAndClose]:
    gone, or the same object, reverted. *)
Lemma static_revertAndClose_entry (k : string) (v : t) (w : World) :
  JsMap.get k (DiffViewMap w) = Some v ->
  JsMap.get k (DiffViewMap (static_revertAndClose k w)) = None
  \/ exists v',
       JsMap.get k (DiffViewMap (static_revertAndClose k w)) = Some v'
       /\ self v' = self v
       /\ isReverted v' = true.
Proof.
  intros Hget.
  destruct (static_revertAndClose_registry k v w Hget)
    as (v' & m & -> & Hpruned & Hself & Hrev).
  rewrite JsMap_get_refresh.
  destruct (Hpruned k) as [->| ->]; [|now left].
  rewrite Hget. cbn. rewrite Hself, Nat.eqb_refl.
  right. exists v'. now repeat split.
Qed.

(** The static [revertAndClose] registers nothing. *)
Lemma static_revertAndClose_adds_nothing (k k' : string) (w : World) :
  JsMap.get k' (DiffViewMap w) = None ->
  JsMap.get k' (DiffViewMap (static_revertAndClose k w)) = None.
Proof.
  intros Hnone. unfold static_revertAndClose.
  destruct (JsMap.get k (DiffViewMap w)) as [v|] eqn:Hget; [|exact Hnone].
  destruct (revertAndClose_bindings v w) as (Hpruned & _).
  destruct (revertAndClose v w) as [[v1 w1] r]. cbn [fst snd] in *.
  cbn [DiffViewMap set_DiffViewMap]. rewrite JsMap_get_refresh.
  destruct (Hpruned k') as [->| ->]; [now rewrite Hnone|reflexivity].
Qed.

(** [dispose] as it returns, field by field. *)
Lemma dispose_fields (this : t) (w : World) :
  files (dispose this w) = files w
  /\ calls (dispose this w) = calls w ++ map dispose_of (disposables this)
  /\ detached (dispose this w)
     = detached w ++ (if fileExists this then [] else [ScaffoldCheck this]).
Proof.
  rewrite dispose_returns.
  destruct (fileExists this); cbn; now rewrite ?app_nil_r.
Qed.

End RegistryFacts.

(** [getOrCreate] of a registered id hands back the registered session
    and does nothing else: [relpath] and [cwd] are not looked at, no
    file is read or written, no view is opened. *)
Theorem getOrCreate_registered `{Host}
    (k relpath dir : string) (v : NotebookDiffView.t) (w : NotebookDiffView.World) :
  JsMap.get k (NotebookDiffView.DiffViewMap w) = Some v ->
  NotebookDiffView.getOrCreate k relpath dir w = (Some v, w).
Proof.
  intros Hget. unfold NotebookDiffView.getOrCreate.
  rewrite (installHook_registered k v w Hget). now rewrite Hget.
Qed.

Lemma getOrCreate_registered_witness :
  JsMap.get "X" (NotebookDiffView.DiffViewMap Examples.worldWithX)
  = Some Examples.freshSession
  /\ NotebookDiffView.getOrCreate (H := PlainHost.host) "X" "other.ipynb" "/elsewhere"
       Examples.worldWithX
     = (Some Examples.freshSession, Examples.worldWithX).
Proof.
  split; [reflexivity|].
  apply (getOrCreate_registered (H := PlainHost.host)). reflexivity.
Defined.

(** [getOrCreate] of an id that is not registered, when the comparison
    view opens: the session is on the file [relpath] resolves to against
    [cwd], holds the content the file had (empty for a file that was
    missing), is neither finalized nor reverted and has streamed
    nothing; its editor shows that file; and no plain text tab of the
    file is left open.  Where no plain text tab of the file was open the
    session is registered under the id and the other entries are as
    before.  Where one was open, closing it calls the tab handler, which
    may unregister sessions - the new one too: whatever the tabs, an id
    then holds what it held before, with the new session under its id,
    or nothing. *)
Theorem getOrCreate_registers_new_session `{Host}
    (k relpath dir : string) (w w' : NotebookDiffView.World) (v : NotebookDiffView.t) :
  JsMap.get k (NotebookDiffView.DiffViewMap w) = None ->
  NotebookDiffView.getOrCreate k relpath dir w = (Some v, w') ->
  (NotebookDiffView.isFileOpen (Uri_file (resolvePath relpath dir)) w = false ->
   JsMap.get k (NotebookDiffView.DiffViewMap w') = Some v
   /\ forall k', k' <> k ->
        JsMap.get k' (NotebookDiffView.DiffViewMap w')
        = JsMap.get k' (NotebookDiffView.DiffViewMap w))
  /\ (JsMap.get k (NotebookDiffView.DiffViewMap w') = Some v
      \/ JsMap.get k (NotebookDiffView.DiffViewMap w') = None)
  /\ (forall k', k' <> k ->
        JsMap.get k' (NotebookDiffView.DiffViewMap w')
        = JsMap.get k' (NotebookDiffView.DiffViewMap w)
        \/ JsMap.get k' (NotebookDiffView.DiffViewMap w') = None)
  /\ NotebookDiffView.id v = k
  /\ NotebookDiffView.fileUri v = Uri_file (resolvePath relpath dir)
  /\ NotebookDiffView.cwd v = dir
  /\ NotebookDiffView.fileExists v
     = bool_decide (is_Some (NotebookDiffView.files w !! resolvePath relpath dir))
  /\ NotebookDiffView.originalContent v
     = default [] (NotebookDiffView.files w !! resolvePath relpath dir)
  /\ NotebookDiffView.isFinalized v = false
  /\ NotebookDiffView.isReverted v = false
  /\ NotebookDiffView.streamedLines v = []
  /\ fsPath (uri (notebook (NotebookDiffView.activeDiffEditor v)))
     = resolvePath relpath dir
  /\ NotebookDiffView.isFileOpen (NotebookDiffView.fileUri v) w' = false.
Proof.
  intros Hnew Hrun.
  destruct (getOrCreate_new_registry k relpath dir w w' v Hnew Hrun)
    as (Hpruned & Hclosed & _).
  split; [|split; [|split]].
  - intros Hnone. destruct (Hclosed Hnone) as (-> & _).
    split; [apply JsMap_get_set|].
    intros k' Hne. now apply JsMap_get_set_ne.
  - destruct (Hpruned k) as [Hk|Hk]; [left|now right].
    now rewrite Hk, JsMap_get_set.
  - intros k' Hne. destruct (Hpruned k') as [Hk|Hk]; [left|now right].
    now rewrite Hk, JsMap_get_set_ne.
  - revert Hrun. unfold NotebookDiffView.getOrCreate.
    destruct (installHook_keeps w) as (Hm0 & Hf0 & _).
    rewrite Hm0, Hnew.
    pose proof (createDiffView_session k relpath dir (NotebookDiffView.installHook w))
      as (_ & _ & Hsession & _).
    cbv zeta in Hsession.
    destruct (NotebookDiffView.createDiffView k relpath dir _) as [[v1|] w1];
      [|discriminate].
    cbn [fst snd] in *. intros [= <- <-].
    destruct (Hsession v1 eq_refl)
      as (Hid & Huri & Hcwd & Hex & Horig & Hfin & Hrev & Hstr & Hed).
    rewrite Hf0 in Hex, Horig.
    repeat (split; [assumption|]).
    apply closeFileEditorTabs_tab_iff.
    exact (mkTab TabInputOther false).
Qed.

Lemma getOrCreate_registers_new_session_witness :
  JsMap.get "Y" (NotebookDiffView.DiffViewMap (Examples.workspace Examples.text_ab)) = None
  /\ JsMap.get "Y"
       (NotebookDiffView.DiffViewMap
          (NotebookDiffView.getOrCreate (H := PlainHost.host) "Y" "nb.ipynb" "/w"
             (Examples.workspace Examples.text_ab)).2)
     = Some Examples.sessionY
  /\ NotebookDiffView.originalContent Examples.sessionY = Examples.text_ab.
Proof.
  assert (Hnew : JsMap.get "Y"
            (NotebookDiffView.DiffViewMap (Examples.workspace Examples.text_ab)) = None)
    by (vm_compute; reflexivity).
  assert (Hrun : NotebookDiffView.getOrCreate (H := PlainHost.host) "Y" "nb.ipynb" "/w"
                   (Examples.workspace Examples.text_ab)
                 = (Some Examples.sessionY,
                    (NotebookDiffView.getOrCreate (H := PlainHost.host) "Y" "nb.ipynb" "/w"
                       (Examples.workspace Examples.text_ab)).2))
    by (vm_compute; reflexivity).
  destruct (getOrCreate_registers_new_session (H := PlainHost.host)
              "Y" "nb.ipynb" "/w" (Examples.workspace Examples.text_ab) _
              Examples.sessionY Hnew Hrun) as (Hget & _).
  destruct (Hget ltac:(vm_compute; reflexivity)) as (Hreg & _).
  split; [exact Hnew|]. split; [exact Hreg|]. reflexivity.
Defined.

(** [getOrCreate] when the comparison view does not open: nothing is
    registered and no session object is made, but what was done before
    the failure stays - the tab hook installed for an empty registry, and
    the empty file written for a path that was missing; the tabs are as
    before and one diff command has been issued. *)
Theorem getOrCreate_failure `{Host}
    (k relpath dir : string) (w : NotebookDiffView.World) :
  (NotebookDiffView.getOrCreate k relpath dir w).1 = None ->
  NotebookDiffView.DiffViewMap (NotebookDiffView.getOrCreate k relpath dir w).2
  = NotebookDiffView.DiffViewMap w
  /\ NotebookDiffView.allocated (NotebookDiffView.getOrCreate k relpath dir w).2
     = NotebookDiffView.allocated w
  /\ NotebookDiffView.tabGroups (NotebookDiffView.getOrCreate k relpath dir w).2
     = NotebookDiffView.tabGroups w
  /\ NotebookDiffView.files (NotebookDiffView.getOrCreate k relpath dir w).2
     = (if bool_decide (is_Some (NotebookDiffView.files w !! resolvePath relpath dir))
        then NotebookDiffView.files w
        else <[resolvePath relpath dir := []]> (NotebookDiffView.files w))
  /\ (NotebookDiffView.DiffViewMap w = [] ->
      NotebookDiffView.DiffViewDisposable (NotebookDiffView.getOrCreate k relpath dir w).2
      = true)
  /\ NotebookDiffView.diffCommands (NotebookDiffView.getOrCreate k relpath dir w).2
     = S (NotebookDiffView.diffCommands w).
Proof.
  unfold NotebookDiffView.getOrCreate.
  destruct (installHook_keeps w) as (Hm0 & Hf0 & Ht0 & Ha0 & _).
  pose proof (installHook_hook w) as Hh0.
  destruct (quiet_installHook w) as (_ & _ & Hd0).
  destruct (JsMap.get k _) as [v|]; [discriminate|].
  pose proof (createDiffView_frame k relpath dir (NotebookDiffView.installHook w))
    as [Hm1 _].
  pose proof (createDiffView_session k relpath dir (NotebookDiffView.installHook w))
    as (Hf1 & Hh1 & _ & Hrej).
  pose proof (createDiffView_unallocated k relpath dir (NotebookDiffView.installHook w))
    as Ha1.
  cbv zeta in Hm1, Hf1, Hh1, Hrej.
  destruct (NotebookDiffView.createDiffView k relpath dir _) as [[v1|] w1];
    [discriminate|].
  cbn [fst snd] in *. intros _.
  destruct (Hrej eq_refl) as (Ht1 & Hd1).
  split; [congruence|]. split; [rewrite (Ha1 eq_refl); exact Ha0|].
  split; [congruence|].
  split; [rewrite Hf1, Hf0; reflexivity|].
  split; [|lia].
  intros Hempty. rewrite Hh1, Hh0, Hempty. apply orb_true_r.
Qed.

Lemma getOrCreate_failure_witness :
  (NotebookDiffView.getOrCreate (H := PlainHost.closedHost) "X" "new.ipynb" "/w"
     (Examples.workspace Examples.text_ab)).1 = None
  /\ NotebookDiffView.files
       (NotebookDiffView.getOrCreate (H := PlainHost.closedHost) "X" "new.ipynb" "/w"
          (Examples.workspace Examples.text_ab)).2 !! "/w/new.ipynb"
     = Some [].
Proof.
  assert (Hfail : (NotebookDiffView.getOrCreate (H := PlainHost.closedHost)
                     "X" "new.ipynb" "/w" (Examples.workspace Examples.text_ab)).1 = None)
    by (vm_compute; reflexivity).
  destruct (getOrCreate_failure (H := PlainHost.closedHost)
              "X" "new.ipynb" "/w" (Examples.workspace Examples.text_ab) Hfail)
    as (_ & _ & _ & Hfiles & _).
  split; [exact Hfail|]. rewrite Hfiles. vm_compute. reflexivity.
Defined.



(** After a close event has been handled the refocus request is
    cleared, and the tab hook is installed exactly if it was installed
    before and a session is left: the hook is disposed of with the last
    session. *)
Theorem handleTabChanges_hook_and_focus `{Host}
    (tab : Tab) (closed : list Tab) (w : NotebookDiffView.World) :
  NotebookDiffView.needFocusDiffViews
    (NotebookDiffView.handleTabChanges (tab :: closed) w) = false
  /\ NotebookDiffView.DiffViewDisposable
       (NotebookDiffView.handleTabChanges (tab :: closed) w)
     = NotebookDiffView.DiffViewDisposable w
       && negb (length (NotebookDiffView.DiffViewMap
                          (NotebookDiffView.handleTabChanges (tab :: closed) w)) =? 0)%nat.
Proof. apply handleTabChanges_flags. Qed.

(** The sessions a close event leaves registered, as the handler
    decides: those whose id is the path of the original side of an open
    text diff tab on the origin scheme, and that share their file with
    no session whose id is not. *)
Theorem handleTabChanges_survivors `{Host}
    (closed : list Tab) (w : NotebookDiffView.World)
    (k : string) (v : NotebookDiffView.t) :
  closed <> [] ->
  (k, v) ∈ NotebookDiffView.DiffViewMap (NotebookDiffView.handleTabChanges closed w)
  <-> (k, v) ∈ NotebookDiffView.DiffViewMap w
      /\ (exists tab original modified,
            tab ∈ concat (NotebookDiffView.tabGroups w)
            /\ input tab = TabInputTextDiff original modified
            /\ scheme original = DiffOriginNotebookProvider.scheme
            /\ path original = k)
      /\ (forall v0 k' v',
            (k, v0) ∈ NotebookDiffView.DiffViewMap w ->
            (k', v') ∈ NotebookDiffView.DiffViewMap w ->
            fsPath (NotebookDiffView.fileUri v') = fsPath (NotebookDiffView.fileUri v0) ->
            k' ∈ NotebookDiffView.visibleDiffViewIds w).
Proof.
  intros Hclosed. rewrite <- elem_of_visibleDiffViewIds.
  now apply handleTabChanges_keeps.
Qed.

Lemma handleTabChanges_survivors_witness :
  [Examples.readmeTab] <> []
  /\ ~ ("X", Examples.freshSession)
       ∈ NotebookDiffView.DiffViewMap
           (NotebookDiffView.handleTabChanges (H := PlainHost.host)
              [Examples.readmeTab] Examples.worldWithX).
Proof.
  assert (Hclosed : [Examples.readmeTab] <> []) by discriminate.
  split; [exact Hclosed|].
  intros Hin.
  apply (handleTabChanges_survivors (H := PlainHost.host) [Examples.readmeTab]
           Examples.worldWithX "X" Examples.freshSession Hclosed) in Hin
    as (_ & (tab & original & modified & Htab & Hinput & _) & _).
  apply list_elem_of_In in Htab. cbn in Htab.
  destruct Htab as [<-|[]]. discriminate Hinput.
Defined.

(** What [dispose] does to the files and to the listeners.  When it
    returns it has disposed of every listener of the session, in order,
    and nothing else: no file has changed and the session is not
    unregistered; for a session that created its file the check of that
    file has been started and is left behind.  That check, whenever it
    runs, removes at most the session's own file, and only if it is
    still empty. *)
Theorem dispose_removes_only_its_empty_scaffold
    (this : NotebookDiffView.t) (w : NotebookDiffView.World) (p : string) :
  NotebookDiffView.files (NotebookDiffView.dispose this w) = NotebookDiffView.files w
  /\ NotebookDiffView.DiffViewMap (NotebookDiffView.dispose this w)
     = NotebookDiffView.DiffViewMap w
  /\ NotebookDiffView.calls (NotebookDiffView.dispose this w)
     = NotebookDiffView.calls w ++ map dispose_of (NotebookDiffView.disposables this)
  /\ NotebookDiffView.detached (NotebookDiffView.dispose this w)
     = NotebookDiffView.detached w
       ++ (if NotebookDiffView.fileExists this then []
           else [NotebookDiffView.ScaffoldCheck this])
  /\ forall w0,
       (NotebookDiffView.files (NotebookDiffView.scaffoldCheck this w0) !! p
        = NotebookDiffView.files w0 !! p
        \/ (p = fsPath (NotebookDiffView.fileUri this)
            /\ NotebookDiffView.files w0 !! p = Some []
            /\ NotebookDiffView.files (NotebookDiffView.scaffoldCheck this w0) !! p
               = None))
       /\ NotebookDiffView.DiffViewMap (NotebookDiffView.scaffoldCheck this w0)
          = NotebookDiffView.DiffViewMap w0
       /\ (NotebookDiffView.calls (NotebookDiffView.scaffoldCheck this w0)
           = NotebookDiffView.calls w0
           \/ NotebookDiffView.calls (NotebookDiffView.scaffoldCheck this w0)
              = NotebookDiffView.calls w0 ++ [fs_delete (NotebookDiffView.fileUri this)]).
Proof.
  destruct (dispose_fields this w) as (Hfiles & Hcalls & Hdetached).
  destruct (dispose_bindings this w) as (Hmap & _).
  repeat (split; [assumption|]).
  intros w0. unfold NotebookDiffView.scaffoldCheck.
  destruct (NotebookDiffView.files w0 !! fsPath (NotebookDiffView.fileUri this))
    as [[|c l]|] eqn:Hfile; try (split; [now left|split; [reflexivity|now left]]).
  cbn [NotebookDiffView.files NotebookDiffView.DiffViewMap NotebookDiffView.calls
       NotebookDiffView.log NotebookDiffView.set_files].
  split; [|split; [reflexivity|now right]].
  destruct (decide (p = fsPath (NotebookDiffView.fileUri this))) as [->|Hne].
  - right. rewrite lookup_delete_eq. auto.
  - left. now rewrite lookup_delete_ne by congruence.
Qed.

(** A session on a missing file: [getOrCreate] writes the file empty
    and the session records that it did not exist.  Disposing of the
    session starts the check of the file and returns with the file
    still there; once that check has run, with the file still empty,
    the file is deleted, so the files are as they were before the
    session. *)
Theorem scaffold_file_is_removed_on_dispose `{Host}
    (k relpath dir : string) (w w' : NotebookDiffView.World) (v : NotebookDiffView.t) :
  JsMap.get k (NotebookDiffView.DiffViewMap w) = None ->
  NotebookDiffView.files w !! resolvePath relpath dir = None ->
  NotebookDiffView.getOrCreate k relpath dir w = (Some v, w') ->
  NotebookDiffView.files w' = <[resolvePath relpath dir := []]> (NotebookDiffView.files w)
  /\ NotebookDiffView.fileExists v = false
  /\ NotebookDiffView.originalContent v = []
  /\ NotebookDiffView.files (NotebookDiffView.dispose v w') = NotebookDiffView.files w'
  /\ NotebookDiffView.detached (NotebookDiffView.dispose v w')
     = NotebookDiffView.detached w' ++ [NotebookDiffView.ScaffoldCheck v]
  /\ NotebookDiffView.files
       (NotebookDiffView.resume (NotebookDiffView.ScaffoldCheck v)
          (NotebookDiffView.dispose v w'))
     = NotebookDiffView.files w.
Proof.
  intros Hnew Hmissing. unfold NotebookDiffView.getOrCreate.
  destruct (installHook_keeps w) as (Hm0 & Hf0 & _).
  rewrite Hm0, Hnew.
  pose proof (createDiffView_session k relpath dir (NotebookDiffView.installHook w))
    as (Hf1 & _ & Hsession & _).
  cbv zeta in Hf1, Hsession.
  destruct (NotebookDiffView.createDiffView k relpath dir _) as [[v1|] w1];
    [|discriminate].
  cbn [fst snd] in *. intros [= <- <-].
  destruct (Hsession v1 eq_refl) as (_ & Huri & _ & Hex & Horig & _).
  rewrite Hf0 in Hf1, Hex, Horig.
  rewrite bool_decide_eq_false_2 in Hf1, Hex
    by (rewrite Hmissing; intros [x Hx]; discriminate).
  pose proof Hmissing as Hnone. unfold Js.jsstring in Hnone, Horig.
  rewrite Hnone in Horig. cbn [default from_option] in Horig.
  set (w' := NotebookDiffView.closeFileEditorTabs _ _).
  assert (Hfiles : NotebookDiffView.files w'
                   = <[resolvePath relpath dir := []]> (NotebookDiffView.files w)).
  { subst w'. rewrite (closeFileEditorTabs_keeps NotebookDiffView.files)
      by (intros; apply closeTab_files).
    exact Hf1. }
  destruct (dispose_fields v1 w') as (Hkept & _ & Hdetached).
  rewrite Hex in Hdetached.
  repeat split; [exact Hfiles|exact Hex|exact Horig|exact Hkept|exact Hdetached|].
  cbn [NotebookDiffView.resume]. unfold NotebookDiffView.scaffoldCheck.
  rewrite Hkept, Hfiles, Huri. cbn [fsPath Uri_file path].
  rewrite lookup_insert_eq.
  cbn [NotebookDiffView.files NotebookDiffView.log NotebookDiffView.set_files].
  rewrite ?Hkept, ?Hfiles.
  now apply delete_insert_id.
Qed.

Lemma scaffold_file_is_removed_on_dispose_witness :
  NotebookDiffView.files (Examples.workspace Examples.text_ab) !! "/w/new.ipynb" = None
  /\ NotebookDiffView.files
       (NotebookDiffView.getOrCreate (H := PlainHost.host) "Y" "new.ipynb" "/w"
          (Examples.workspace Examples.text_ab)).2 !! "/w/new.ipynb"
     = Some []
  /\ NotebookDiffView.files
       (NotebookDiffView.resume (H := PlainHost.host)
          (NotebookDiffView.ScaffoldCheck
             (default Examples.sessionY
                (NotebookDiffView.getOrCreate (H := PlainHost.host) "Y" "new.ipynb" "/w"
                   (Examples.workspace Examples.text_ab)).1))
          (NotebookDiffView.dispose
             (default Examples.sessionY
                (NotebookDiffView.getOrCreate (H := PlainHost.host) "Y" "new.ipynb" "/w"
                   (Examples.workspace Examples.text_ab)).1)
             (NotebookDiffView.getOrCreate (H := PlainHost.host) "Y" "new.ipynb" "/w"
                (Examples.workspace Examples.text_ab)).2))
     = NotebookDiffView.files (Examples.workspace Examples.text_ab).
Proof.
  assert (Hnew : JsMap.get "Y"
            (NotebookDiffView.DiffViewMap (Examples.workspace Examples.text_ab)) = None)
    by (vm_compute; reflexivity).
  assert (Hmissing : NotebookDiffView.files (Examples.workspace Examples.text_ab)
                       !! resolvePath (Host := PlainHost.host) "new.ipynb" "/w" = None)
    by (vm_compute; reflexivity).
  assert (Hrun : NotebookDiffView.getOrCreate (H := PlainHost.host) "Y" "new.ipynb" "/w"
                   (Examples.workspace Examples.text_ab)
                 = (Some (default Examples.sessionY
                            (NotebookDiffView.getOrCreate (H := PlainHost.host)
                               "Y" "new.ipynb" "/w"
                               (Examples.workspace Examples.text_ab)).1),
                    (NotebookDiffView.getOrCreate (H := PlainHost.host) "Y" "new.ipynb" "/w"
                       (Examples.workspace Examples.text_ab)).2))
    by (vm_compute; reflexivity).
  destruct (scaffold_file_is_removed_on_dispose (H := PlainHost.host)
              "Y" "new.ipynb" "/w" (Examples.workspace Examples.text_ab) _ _
              Hnew Hmissing Hrun) as (Hfiles & _ & _ & _ & _ & Hback).
  split; [exact Hmissing|]. split; [|exact Hback].
  rewrite Hfiles. apply lookup_insert_eq.
Defined.

(** The static [revertAndClose] of a registered id registers nothing,
    and leaves under the id nothing or the same session object, now
    marked reverted.  (Its [closeAllNonDirtyDiffViews] closes the clean
    comparison views, and the tab handler unregisters sessions on a
    close event.)  A session still registered under the id is handed
    back by a later [getOrCreate] without anything being opened, and
    every [update] on it is ignored. *)
Theorem static_revertAndClose_leaves_reverted_session `{Host}
    (k relpath dir : string) (v : NotebookDiffView.t) (w : NotebookDiffView.World) :
  JsMap.get k (NotebookDiffView.DiffViewMap w) = Some v ->
  (forall k',
      JsMap.get k' (NotebookDiffView.DiffViewMap w) = None ->
      JsMap.get k' (NotebookDiffView.DiffViewMap (NotebookDiffView.static_revertAndClose k w))
      = None)
  /\ (JsMap.get k (NotebookDiffView.DiffViewMap (NotebookDiffView.static_revertAndClose k w))
      = None
      \/ exists v',
           JsMap.get k
             (NotebookDiffView.DiffViewMap (NotebookDiffView.static_revertAndClose k w))
           = Some v'
           /\ NotebookDiffView.getOrCreate k relpath dir
                (NotebookDiffView.static_revertAndClose k w)
              = (Some v', NotebookDiffView.static_revertAndClose k w)
           /\ NotebookDiffView.self v' = NotebookDiffView.self v
           /\ NotebookDiffView.isReverted v' = true
           /\ forall w2 content isFinal abortSignal,
                NotebookDiffView.update v' w2 content isFinal abortSignal = (v', w2)).
Proof.
  intros Hget. split.
  - intros k'. apply static_revertAndClose_adds_nothing.
  - destruct (static_revertAndClose_entry k v w Hget)
      as [Hgone|(v' & Hentry & Hself & Hrev)]; [now left|].
    right. exists v'. split; [exact Hentry|].
    split; [|split; [exact Hself|split; [exact Hrev|]]].
    + unfold NotebookDiffView.getOrCreate.
      rewrite (installHook_registered k v' _ Hentry). now rewrite Hentry.
    + intros w2 content isFinal abortSignal. unfold NotebookDiffView.update.
      now rewrite Hrev, orb_true_r.
Qed.

Lemma static_revertAndClose_leaves_reverted_session_witness :
  JsMap.get "X" (NotebookDiffView.DiffViewMap Examples.worldWithX)
  = Some Examples.freshSession
  /\ JsMap.get "Y"
       (NotebookDiffView.DiffViewMap
          (NotebookDiffView.static_revertAndClose (H := PlainHost.host) "X"
             Examples.worldWithX))
     = None
  /\ JsMap.get "X"
       (NotebookDiffView.DiffViewMap
          (NotebookDiffView.static_revertAndClose (H := PlainHost.host) "X"
             Examples.worldWithX))
     = None.
Proof.
  assert (Hget : JsMap.get "X" (NotebookDiffView.DiffViewMap Examples.worldWithX)
                 = Some Examples.freshSession) by reflexivity.
  destruct (static_revertAndClose_leaves_reverted_session (H := PlainHost.host)
              "X" "nb.ipynb" "/w" Examples.freshSession Examples.worldWithX Hget)
    as (Hadds & _).
  split; [exact Hget|]. split; [apply Hadds; reflexivity|].
  vm_compute. reflexivity.
Defined.

(** A session for a file whose comparison view is already open - a
    notebook diff tab on the origin scheme for the file, with a visible
    notebook editor of the file - takes that editor: [getOrCreate]
    succeeds with a session on that editor.  Where no plain text tab of
    the file is open the session is registered and no diff command is
    issued; no diff command is issued either where no refocus of the
    views is pending. *)
Theorem getOrCreate_reuses_open_view `{Host}
    (k relpath dir : string) (w : NotebookDiffView.World) (e : NotebookEditor) :
  JsMap.get k (NotebookDiffView.DiffViewMap w) = None ->
  existsb (NotebookDiffView.isReusableDiffTab (Uri_file (resolvePath relpath dir)))
    (concat (NotebookDiffView.tabGroups w)) = true ->
  find (fun e => String.eqb (fsPath (uri (notebook e))) (resolvePath relpath dir))
    (NotebookDiffView.visibleNotebookEditors w) = Some e ->
  exists v,
    (NotebookDiffView.getOrCreate k relpath dir w).1 = Some v
    /\ NotebookDiffView.activeDiffEditor v = e
    /\ (NotebookDiffView.isFileOpen (Uri_file (resolvePath relpath dir)) w = false ->
        JsMap.get k (NotebookDiffView.DiffViewMap
                       (NotebookDiffView.getOrCreate k relpath dir w).2) = Some v
        /\ NotebookDiffView.diffCommands (NotebookDiffView.getOrCreate k relpath dir w).2
           = NotebookDiffView.diffCommands w)
    /\ (NotebookDiffView.needFocusDiffViews w = false ->
        NotebookDiffView.diffCommands (NotebookDiffView.getOrCreate k relpath dir w).2
        = NotebookDiffView.diffCommands w).
Proof.
  intros Hnew Htab Hfind.
  assert (Hcreate : exists v w1,
            NotebookDiffView.createDiffView k relpath dir (NotebookDiffView.installHook w)
            = (Some v, w1)
            /\ NotebookDiffView.activeDiffEditor v = e
            /\ NotebookDiffView.diffCommands w1 = NotebookDiffView.diffCommands w).
  { destruct (installHook_keeps w) as (Hm0 & _ & Ht0 & _ & Hv0).
    destruct (quiet_installHook w) as (_ & _ & Hd0).
    unfold NotebookDiffView.createDiffView.
    change (fsPath (Uri_file (resolvePath relpath dir))) with (resolvePath relpath dir).
    set (w0 := NotebookDiffView.installHook w) in *.
    set (w1 := if negb _ then _ else w0).
    assert (Hw1 : NotebookDiffView.tabGroups w1 = NotebookDiffView.tabGroups w
                  /\ NotebookDiffView.visibleNotebookEditors w1
                     = NotebookDiffView.visibleNotebookEditors w
                  /\ NotebookDiffView.diffCommands w1 = NotebookDiffView.diffCommands w).
    { subst w1. destruct (negb _); [|now repeat split; congruence].
      repeat split; [exact Ht0|exact Hv0|].
      rewrite diffCommands_log. cbn [NotebookDiffView.isDiffCommand].
      unfold NotebookDiffView.diffCommands in *.
      cbn [NotebookDiffView.calls NotebookDiffView.set_files]. lia. }
    destruct Hw1 as (Ht1 & Hv1 & Hd1).
    unfold NotebookDiffView.openDiffEditor.
    change (fsPath (Uri_file (resolvePath relpath dir))) with (resolvePath relpath dir).
    rewrite Ht1, Htab, Hv1, Hfind.
    eexists. eexists. split; [reflexivity|]. split; [reflexivity|].
    unfold NotebookDiffView.diffCommands in *.
    cbn [NotebookDiffView.calls NotebookDiffView.set_allocated]. exact Hd1. }
  destruct Hcreate as (v & w1 & Hcreate & Heditor & Hd1).
  assert (Hrun : NotebookDiffView.getOrCreate k relpath dir w
                 = (Some v, (NotebookDiffView.getOrCreate k relpath dir w).2)).
  { unfold NotebookDiffView.getOrCreate.
    destruct (installHook_keeps w) as (Hm0 & _).
    now rewrite Hm0, Hnew, Hcreate. }
  destruct (getOrCreate_new_registry k relpath dir w _ v Hnew Hrun)
    as (_ & Hclosed & Hquiet).
  rewrite Hcreate in Hclosed, Hquiet. cbn [snd] in Hclosed, Hquiet.
  exists v. split; [now rewrite Hrun|]. split; [exact Heditor|]. split.
  - intros Hnone. destruct (Hclosed Hnone) as (-> & ->).
    split; [apply JsMap_get_set|exact Hd1].
  - intros Hoff. now rewrite (Hquiet Hoff).
Qed.

Lemma getOrCreate_reuses_open_view_witness :
  NotebookDiffView.diffCommands
    (NotebookDiffView.getOrCreate (H := PlainHost.host) "X" "nb.ipynb" "/w"
       (Examples.workspace Examples.text_ab)).2 = 1
  /\ NotebookDiffView.diffCommands
       (NotebookDiffView.getOrCreate (H := PlainHost.host) "Y" "nb.ipynb" "/w"
          (NotebookDiffView.getOrCreate (H := PlainHost.host) "X" "nb.ipynb" "/w"
             (Examples.workspace Examples.text_ab)).2).2 = 1.
Proof.
  assert (Hfirst : NotebookDiffView.diffCommands
            (NotebookDiffView.getOrCreate (H := PlainHost.host) "X" "nb.ipynb" "/w"
               (Examples.workspace Examples.text_ab)).2 = 1)
    by (vm_compute; reflexivity).
  split; [exact Hfirst|].
  destruct (getOrCreate_reuses_open_view (H := PlainHost.host) "Y" "nb.ipynb" "/w"
              (NotebookDiffView.getOrCreate (H := PlainHost.host) "X" "nb.ipynb" "/w"
                 (Examples.workspace Examples.text_ab)).2
              (mkEditor (mkNotebook Examples.nbUri PlainHost.notebookTypeName
                           (PlainHost.toCells Examples.text_ab) false))
              ltac:(vm_compute; reflexivity) ltac:(vm_compute; reflexivity)
              ltac:(vm_compute; reflexivity))
    as (v & _ & _ & _ & Hd).
  rewrite (Hd ltac:(vm_compute; reflexivity)). exact Hfirst.
Defined.

(* ------------------------------------------------------------------ *)
(** * Calls under the group while no plain tab of the file is open *)

Section Exclusive.
Import NotebookDiffView RunExclusive.
Context `{Host}.
Variables (id : string) (w0 : World).

(** The call that entered first is resumed. *)
Lemma first_moves (a : Args) (p q k : Call) (b b' : bool) (w w' : World) (n : nat) :
  JsMap.get id (DiffViewMap w0) = None ->
  arg_id a = id ->
  isFileOpen (target a) w = false ->
  onTarget a p ->
  shape id w0 p q b w n ->
  advance true a p b w = Some (k, b', w') ->
  shape id w0 k q b' w' (S n).
Proof.
  intros Hnew Ha Hclosed Htarget Hs Hadv.
  destruct Hs; unfold advance in Hadv; cbn [andb negb] in Hadv;
    rewrite ?Ha in Hadv; try discriminate Hadv.
  - destruct (quiet_installHook w0) as (Hm & Hal & Hd).
    rewrite Hm, Hnew in Hadv. injection Hadv as <- <- <-.
    apply shape_creating; congruence.
  - pose proof (createDiffView_frame id (arg_relpath a) (arg_cwd a) w) as [Hm Hok].
    cbv zeta in Hm, Hok.
    destruct (createDiffView id (arg_relpath a) (arg_cwd a) w) as [[diffView|] w1];
      cbn [fst snd] in *; injection Hadv as <- <- <-.
    + destruct (Hok diffView eq_refl) as (Hal & Hd & _).
      apply shape_closing.
      * cbn [DiffViewMap set_DiffViewMap]. apply JsMap_get_set.
      * cbn [allocated set_DiffViewMap]. congruence.
      * change (diffCommands (set_DiffViewMap _ w1)) with (diffCommands w1). lia.
    + apply shape_rejected. congruence.
  - cbn [onTarget] in Htarget.
    rewrite Htarget, (closeFileEditorTabs_nothing_open _ _ Hclosed) in Hadv.
    injection Hadv as <- <- <-.
    now apply shape_resolved.
Qed.

(** Resuming a call opens no plain text tab, and a call that comes to
    wait for [closeFileEditorTabs] holds the session for its file. *)
Lemma advance_undisturbed (exclusive : bool) (a : Args) (u : Uri) (p k : Call)
    (b b' : bool) (w w' : World) :
  isFileOpen (target a) w = false ->
  onTarget a p ->
  advance exclusive a p b w = Some (k, b', w') ->
  isFileOpen u w' = isFileOpen u w /\ onTarget a k.
Proof.
  intros Hclosed Htarget Hadv. destruct p as [| |diffView|result];
    unfold advance in Hadv.
  - destruct (exclusive && b); [discriminate|].
    destruct (installHook_keeps w) as (_ & _ & Ht & _).
    assert (Hopen : isFileOpen u (installHook w) = isFileOpen u w)
      by (unfold isFileOpen; now rewrite Ht).
    destruct (JsMap.get (arg_id a) _); injection Hadv as <- <- <-; now split.
  - pose proof (isFileOpen_createDiffView u (arg_id a) (arg_relpath a) (arg_cwd a) w)
      as Hopen.
    pose proof (createDiffView_session (arg_id a) (arg_relpath a) (arg_cwd a) w)
      as (_ & _ & Hsession & _).
    cbv zeta in Hsession.
    destruct (createDiffView _ _ _ w) as [[diffView|] w1]; cbn [fst snd] in *;
      injection Hadv as <- <- <-; (split; [exact Hopen|]); [|exact I].
    cbn [onTarget]. now destruct (Hsession diffView eq_refl) as (_ & -> & _).
  - cbn [onTarget] in Htarget.
    rewrite Htarget, (closeFileEditorTabs_nothing_open _ _ Hclosed) in Hadv.
    injection Hadv as <- <- <-. now split.
  - discriminate.
Qed.

Lemma undisturbed_step (exclusive : bool) (a1 a2 : Args) (c c' : Config) :
  undisturbed a1 a2 c -> step exclusive a1 a2 c c' -> undisturbed a1 a2 c'.
Proof.
  intros (H1 & H2 & T1 & T2) Hstep.
  destruct Hstep as [c k b w Hadv|c k b w Hadv]; unfold undisturbed;
    cbn [call1 call2 busy world].
  - destruct (advance_undisturbed exclusive a1 (target a1) _ _ _ _ _ _ H1 T1 Hadv)
      as (-> & Hk).
    destruct (advance_undisturbed exclusive a1 (target a2) _ _ _ _ _ _ H1 T1 Hadv)
      as (-> & _).
    now repeat split.
  - destruct (advance_undisturbed exclusive a2 (target a1) _ _ _ _ _ _ H2 T2 Hadv)
      as (-> & Hk).
    destruct (advance_undisturbed exclusive a2 (target a2) _ _ _ _ _ _ H2 T2 Hadv)
      as (-> & _).
    now repeat split.
Qed.

(** The other call is resumed.  From [start] it becomes the one that
    entered first. *)
Lemma second_moves (a : Args) (p q k : Call) (b b' : bool) (w w' : World) (n : nat) :
  JsMap.get id (DiffViewMap w0) = None ->
  arg_id a = id ->
  shape id w0 p q b w n ->
  advance true a q b w = Some (k, b', w') ->
  shape id w0 p k b' w' (S n) \/ shape id w0 k p b' w' (S n).
Proof.
  intros Hnew Ha Hs Hadv.
  destruct Hs; unfold advance in Hadv; cbn [andb negb] in Hadv;
    rewrite ?Ha in Hadv; try discriminate Hadv.
  - right. destruct (quiet_installHook w0) as (Hm & Hal & Hd).
    rewrite Hm, Hnew in Hadv. injection Hadv as <- <- <-.
    apply shape_creating; congruence.
  - left. destruct (quiet_installHook w) as (Hm & Hal & Hd).
    rewrite Hm in Hadv.
    match goal with Hget : JsMap.get id _ = Some _ |- _ => rewrite Hget in Hadv end.
    injection Hadv as <- <- <-.
    apply shape_agreed; [congruence | congruence | lia].
  - left. destruct (quiet_installHook w) as (Hm & Hal & Hd).
    rewrite Hm in Hadv.
    match goal with Hget : JsMap.get id _ = None |- _ => rewrite Hget in Hadv end.
    injection Hadv as <- <- <-. apply shape_retry.
  - left.
    destruct (createDiffView id (arg_relpath a) (arg_cwd a) w) as [[diffView|] w1];
      injection Hadv as <- <- <-.
    + apply shape_retry_closing.
    + apply shape_retry_rejected.
  - left. injection Hadv as <- <- <-. apply shape_retry_resolved.
Qed.

Lemma shaped_step (a1 a2 : Args) (c c' : Config) (n : nat) :
  JsMap.get id (DiffViewMap w0) = None ->
  arg_id a1 = id -> arg_id a2 = id ->
  undisturbed a1 a2 c ->
  shaped id w0 c n -> step true a1 a2 c c' -> shaped id w0 c' (S n).
Proof.
  intros Hnew H1 H2 (C1 & C2 & T1 & T2) [Hs|Hs] Hstep;
    destruct Hstep as [c k b w Hadv|c k b w Hadv];
    unfold shaped; cbn [call1 call2 busy world].
  - left. exact (first_moves a1 _ _ _ _ _ _ _ _ Hnew H1 C1 T1 Hs Hadv).
  - exact (second_moves a2 _ _ _ _ _ _ _ _ Hnew H2 Hs Hadv).
  - destruct (second_moves a1 _ _ _ _ _ _ _ _ Hnew H1 Hs Hadv); auto.
  - right. exact (first_moves a2 _ _ _ _ _ _ _ _ Hnew H2 C2 T2 Hs Hadv).
Qed.

Lemma shaped_steps (a1 a2 : Args) (m : nat) (c c' : Config) (n : nat) :
  JsMap.get id (DiffViewMap w0) = None ->
  arg_id a1 = id -> arg_id a2 = id ->
  undisturbed a1 a2 c ->
  shaped id w0 c n -> steps true a1 a2 m c c' -> shaped id w0 c' (n + m).
Proof.
  intros Hnew H1 H2 Hcalm Hs Hsteps. revert n Hcalm Hs.
  induction Hsteps as [c|m c c1 c2 Hstep Hsteps IH]; intros n Hcalm Hs.
  - now rewrite Nat.add_0_r.
  - replace (n + S m) with (S n + m) by lia.
    apply IH.
    + exact (undisturbed_step true a1 a2 _ _ Hcalm Hstep).
    + exact (shaped_step a1 a2 _ _ _ Hnew H1 H2 Hcalm Hs Hstep).
Qed.

(** No reachable configuration is stuck before both calls have settled:
    one of the two calls can be resumed, whatever its arguments. *)
Lemma shape_progress (p q : Call) (b : bool) (w : World) (n : nat) :
  shape id w0 p q b w n ->
  (isSettled p && isSettled q = true)
  \/ (forall a, exists r, advance true a p b w = Some r)
  \/ (forall a, exists r, advance true a q b w = Some r).
Proof.
  intros Hs. destruct Hs; cbn [isSettled andb]; auto; right.
  - left. intros a. unfold advance. cbn [andb].
    destruct (JsMap.get (arg_id a) _); eauto.
  - left. intros a. unfold advance.
    destruct (createDiffView _ _ _ w) as [[?|] ?]; eauto.
  - left. intros a. unfold advance. eauto.
  - right. intros a. unfold advance. cbn [andb].
    destruct (JsMap.get (arg_id a) _); eauto.
  - right. intros a. unfold advance. cbn [andb].
    destruct (JsMap.get (arg_id a) _); eauto.
  - right. intros a. unfold advance.
    destruct (createDiffView _ _ _ w) as [[?|] ?]; eauto.
  - right. intros a. unfold advance. eauto.
Qed.

Lemma shape_bound (p q : Call) (b : bool) (w : World) (n : nat) :
  shape id w0 p q b w n -> n <= 5.
Proof. intros Hs. destruct Hs; lia. Qed.

(** When both calls have resolved, they hold the session the registry
    holds. *)
Lemma shape_agreement (p q : Call) (b : bool) (w : World) (n : nat)
    (v1 v2 : t) :
  shape id w0 p q b w n ->
  p = Settled (Some v1) -> q = Settled (Some v2) ->
  v1 = v2
  /\ JsMap.get id (DiffViewMap w) = Some v1
  /\ allocated w = S (allocated w0)
  /\ diffCommands w <= S (diffCommands w0).
Proof.
  intros Hs Hp Hq. destruct Hs; try discriminate.
  injection Hp as ->. injection Hq as ->. auto.
Qed.

End Exclusive.

(** Two calls of [getOrCreate] for the same id that is not yet
    registered, made while no plain text tab of their files is open and
    resumed in any order the group allows.  Every run is at most five
    resumptions long; no run is stuck before both calls have settled;
    and when both calls resolve, they resolve to the very same session
    object - the one the registry holds - with one object made and at
    most one diff command issued since the calls were made. *)
Lemma getOrCreate_exclusive_calls_agree `{Host}
    (id relpath1 cwd1 relpath2 cwd2 : string) (w0 : NotebookDiffView.World)
    (n : nat) (c : RunExclusive.Config) :
  JsMap.get id (NotebookDiffView.DiffViewMap w0) = None ->
  NotebookDiffView.isFileOpen (Uri_file (resolvePath relpath1 cwd1)) w0 = false ->
  NotebookDiffView.isFileOpen (Uri_file (resolvePath relpath2 cwd2)) w0 = false ->
  RunExclusive.steps true (RunExclusive.mkArgs id relpath1 cwd1)
    (RunExclusive.mkArgs id relpath2 cwd2) n (RunExclusive.start w0) c ->
  n <= 5
  /\ (RunExclusive.settled_both c = true
      \/ exists c', RunExclusive.step true (RunExclusive.mkArgs id relpath1 cwd1)
                      (RunExclusive.mkArgs id relpath2 cwd2) c c')
  /\ (forall v1 v2 : NotebookDiffView.t,
        RunExclusive.call1 c = RunExclusive.Settled (Some v1) ->
        RunExclusive.call2 c = RunExclusive.Settled (Some v2) ->
        v1 = v2
        /\ JsMap.get id (NotebookDiffView.DiffViewMap (RunExclusive.world c)) = Some v1
        /\ NotebookDiffView.allocated (RunExclusive.world c)
           = S (NotebookDiffView.allocated w0)
        /\ NotebookDiffView.diffCommands (RunExclusive.world c)
           <= S (NotebookDiffView.diffCommands w0)).
Proof.
  intros Hnew Hclosed1 Hclosed2 Hsteps.
  set (a1 := RunExclusive.mkArgs id relpath1 cwd1) in *.
  set (a2 := RunExclusive.mkArgs id relpath2 cwd2) in *.
  assert (Hshaped : RunExclusive.shaped id w0 c n).
  { apply (shaped_steps id w0 a1 a2 n (RunExclusive.start w0) c 0 Hnew eq_refl eq_refl);
      [now repeat split| |exact Hsteps].
    left. apply RunExclusive.shape_start. }
  destruct Hshaped as [Hs|Hs].
  - split; [exact (shape_bound id w0 _ _ _ _ _ Hs)|]. split.
    + destruct (shape_progress id w0 _ _ _ _ _ Hs) as [Hdone|[Hp|Hq]].
      * now left.
      * right. destruct (Hp a1) as [[[k b] w] Hadv].
        eexists. apply RunExclusive.step_call1, Hadv.
      * right. destruct (Hq a2) as [[[k b] w] Hadv].
        eexists. apply RunExclusive.step_call2, Hadv.
    + intros v1 v2 H1 H2. exact (shape_agreement id w0 _ _ _ _ _ v1 v2 Hs H1 H2).
  - split; [exact (shape_bound id w0 _ _ _ _ _ Hs)|]. split.
    + destruct (shape_progress id w0 _ _ _ _ _ Hs) as [Hdone|[Hp|Hq]].
      * left. unfold RunExclusive.settled_both. now rewrite andb_comm.
      * right. destruct (Hp a2) as [[[k b] w] Hadv].
        eexists. apply RunExclusive.step_call2, Hadv.
      * right. destruct (Hq a1) as [[[k b] w] Hadv].
        eexists. apply RunExclusive.step_call1, Hadv.
    + intros v1 v2 H1 H2.
      destruct (shape_agreement id w0 _ _ _ _ _ v2 v1 Hs H2 H1) as (-> & Hrest).
      now split.
Qed.

(** The two calls on a workspace with no tab open, the first run to
    its end before the second. *)
Lemma getOrCreate_exclusive_calls_agree_example :
  JsMap.get "Y" (NotebookDiffView.DiffViewMap (Examples.workspace Examples.text_ab)) = None
  /\ RunExclusive.steps (H := PlainHost.host) true Examples.callY Examples.callY 4
       (RunExclusive.start (Examples.workspace Examples.text_ab))
       Examples.oneAfterTheOther
  /\ RunExclusive.call1 Examples.oneAfterTheOther
     = RunExclusive.Settled (Some Examples.sessionY)
  /\ RunExclusive.call2 Examples.oneAfterTheOther
     = RunExclusive.Settled (Some Examples.sessionY)
  /\ NotebookDiffView.allocated (RunExclusive.world Examples.oneAfterTheOther) = 1
  /\ NotebookDiffView.diffCommands (RunExclusive.world Examples.oneAfterTheOther) <= 1.
Proof.
  assert (Hnew : JsMap.get "Y"
            (NotebookDiffView.DiffViewMap (Examples.workspace Examples.text_ab)) = None)
    by (vm_compute; reflexivity).
  assert (Hsteps : RunExclusive.steps (H := PlainHost.host) true Examples.callY
            Examples.callY 4
            (RunExclusive.start (Examples.workspace Examples.text_ab))
            Examples.oneAfterTheOther).
  { apply (schedule_steps (H := PlainHost.host) true Examples.callY Examples.callY
             [true; true; true; false]).
    vm_compute. reflexivity. }
  assert (H1 : RunExclusive.call1 Examples.oneAfterTheOther
               = RunExclusive.Settled (Some Examples.sessionY))
    by (vm_compute; reflexivity).
  assert (H2 : RunExclusive.call2 Examples.oneAfterTheOther
               = RunExclusive.Settled (Some Examples.sessionY))
    by (vm_compute; reflexivity).
  destruct (getOrCreate_exclusive_calls_agree (H := PlainHost.host)
              "Y" "nb.ipynb" "/w" "nb.ipynb" "/w"
              (Examples.workspace Examples.text_ab) 4 Examples.oneAfterTheOther
              Hnew eq_refl eq_refl Hsteps) as (_ & _ & Hagree).
  destruct (Hagree _ _ H1 H2) as (_ & _ & Halloc & Hdiff).
  repeat split; assumption.
Qed.

(* ------------------------------------------------------------------ *)
(** * The refocus request of [saveChanges] *)

Section RequestFacts.
Import NotebookDiffView Effects.
Context `{Host}.

(** While the hook is not installed, closing tabs leaves the refocus
    request as it is. *)
Lemma closing_unhooked (c : Tab -> bool) (tabs : list Tab) (w : World) :
  DiffViewDisposable w = false ->
  DiffViewDisposable (foldl (fun w tab => if c tab then closeTab tab w else w) w tabs)
  = false
  /\ needFocusDiffViews (foldl (fun w tab => if c tab then closeTab tab w else w) w tabs)
     = needFocusDiffViews w.
Proof.
  revert w. induction tabs as [|tab tabs IH]; intros w Hoff; cbn [foldl]; [now split|].
  destruct (c tab); [|now apply IH].
  destruct (closeTab_bindings tab w) as (_ & _ & _ & Hstill & _).
  destruct (Hstill Hoff) as (Hoff' & _ & Hflag).
  destruct (IH _ Hoff') as (-> & ->). now split.
Qed.

(** With the hook installed, the first tab closed calls the handler,
    and the handler takes the refocus request. *)
Lemma closing_takes_request (c : Tab -> bool) (tabs : list Tab) (w : World) :
  DiffViewDisposable w = true \/ needFocusDiffViews w = false ->
  Exists (fun tab => c tab = true) tabs ->
  needFocusDiffViews (foldl (fun w tab => if c tab then closeTab tab w else w) w tabs)
  = false.
Proof.
  intros Hw Hsome. revert w Hw.
  induction Hsome as [tab tabs Hc|tab tabs Hsome IH]; intros w Hw; cbn [foldl].
  - rewrite Hc.
    destruct (closeTab_bindings tab w) as (_ & _ & Hquiet & _ & Hfires).
    apply (closing_bindings c tabs (closeTab tab w)).
    destruct Hw as [Hon|Hoff]; [now apply Hfires|now apply Hquiet].
  - apply IH. destruct (c tab); [|exact Hw].
    destruct (closeTab_bindings tab w) as (_ & _ & Hquiet & _ & Hfires).
    right. destruct Hw as [Hon|Hoff]; [now apply Hfires|now apply Hquiet].
Qed.

Lemma markTabs_In (p : string) (d : bool) (g : list (list Tab)) (tab : Tab) :
  In tab (concat g) ->
  In (if showsNotebook p tab then mkTab (input tab) d else tab)
    (concat (markTabs p d g)).
Proof.
  unfold markTabs. induction g as [|g0 g IH]; cbn [concat map]; [contradiction|].
  rewrite !in_app_iff. intros [Hin|Hin]; [left|right; now apply IH].
  now apply (in_map (fun tab => if showsNotebook p tab then mkTab (input tab) d else tab)).
Qed.

Lemma withTextTab_In (u : Uri) (g : list (list Tab)) (tab : Tab) :
  In tab (concat g) -> In tab (concat (withTextTab u g)).
Proof.
  unfold withTextTab. destruct (existsb _ _); [auto|].
  destruct g as [|g0 gs]; [contradiction|].
  cbn [concat]. rewrite !in_app_iff. intros [Hin|Hin]; auto.
Qed.

(** A clean comparison view stays open and clean while the notebook is
    saved and the file is shown. *)
Lemma cleanViewOpen_after_save_and_show (this : t) (w : World) :
  cleanViewOpen w = true ->
  cleanViewOpen
    (set_needFocusDiffViews true
       (openAndShow (fileUri this)
          (if isDirty (notebook (activeDiffEditor this)) then save this w
           else (this, w)).2))
  = true.
Proof.
  unfold cleanViewOpen. rewrite !existsb_exists.
  intros (tab & Hin & Hclean). apply andb_true_iff in Hclean as [Hview Hnot].
  destruct (isDirty (notebook (activeDiffEditor this))).
  - exists (if showsNotebook (fsPath (uri (notebook (activeDiffEditor this)))) tab
            then mkTab (input tab) false else tab).
    split.
    + cbn. apply withTextTab_In. now apply markTabs_In.
    + destruct (showsNotebook _ tab); [|now rewrite Hview, Hnot].
      unfold isOriginNotebookDiff in *. cbn. now rewrite Hview.
  - exists tab. split; [|now rewrite Hview, Hnot].
    cbn. now apply withTextTab_In.
Qed.

(** The refocus request after [closeAllNonDirtyDiffViews]. *)
Lemma closeAllNonDirtyDiffViews_request (w : World) :
  (DiffViewDisposable w = false ->
   needFocusDiffViews (closeAllNonDirtyDiffViews w) = needFocusDiffViews w)
  /\ (DiffViewDisposable w = true -> cleanViewOpen w = true ->
      needFocusDiffViews (closeAllNonDirtyDiffViews w) = false).
Proof.
  unfold closeAllNonDirtyDiffViews. split.
  - intros Hoff.
    apply (closing_unhooked (fun tab => negb (tabIsDirty tab)) _ w Hoff).
  - intros Hon Hopen.
    apply (closing_takes_request (fun tab => negb (tabIsDirty tab))); [now left|].
    unfold cleanViewOpen in Hopen.
    apply existsb_exists in Hopen as (tab & Hin & Hclean).
    apply andb_true_iff in Hclean as [Hview Hnot].
    apply Exists_exists. exists tab. split; [|exact Hnot].
    apply list_elem_of_filter. split; [exact Hview|]. now apply list_elem_of_In.
Qed.

End RequestFacts.

(** The state [saveChanges] leaves, for every session: the notebook has
    no unsaved changes, the file is open in a plain tab, and the
    session's flags and streamed lines are as before - saving marks the
    session neither finalized nor reverted.  The refocus request that
    [saveChanges] raises before it closes the clean comparison views is
    still raised on return where the tab hook is not installed; where
    the hook is installed and a clean comparison view is open, closing
    that view calls the tab handler, which takes the request, and on
    return it is cleared. *)
Theorem saveChanges_leaves `{Host}
    (this : NotebookDiffView.t) (w : NotebookDiffView.World)
    (relPath : string) (newContent : jsstring) :
  isDirty (notebook (NotebookDiffView.activeDiffEditor
                       (NotebookDiffView.saveChanges this w relPath newContent).1.1))
  = false
  /\ NotebookDiffView.isFileOpen (NotebookDiffView.fileUri this)
       (NotebookDiffView.saveChanges this w relPath newContent).1.2 = true
  /\ NotebookDiffView.isFinalized
       (NotebookDiffView.saveChanges this w relPath newContent).1.1
     = NotebookDiffView.isFinalized this
  /\ NotebookDiffView.isReverted
       (NotebookDiffView.saveChanges this w relPath newContent).1.1
     = NotebookDiffView.isReverted this
  /\ NotebookDiffView.streamedLines
       (NotebookDiffView.saveChanges this w relPath newContent).1.1
     = NotebookDiffView.streamedLines this
  /\ (NotebookDiffView.DiffViewDisposable w = false ->
      NotebookDiffView.needFocusDiffViews
        (NotebookDiffView.saveChanges this w relPath newContent).1.2 = true)
  /\ (NotebookDiffView.DiffViewDisposable w = true ->
      Effects.cleanViewOpen w = true ->
      NotebookDiffView.needFocusDiffViews
        (NotebookDiffView.saveChanges this w relPath newContent).1.2 = false).
Proof.
  pose proof (cleanViewOpen_after_save_and_show this w) as Hopen.
  unfold NotebookDiffView.saveChanges.
  destruct (isDirty (notebook (NotebookDiffView.activeDiffEditor this))) eqn:Hdirty;
    cbn -[NotebookDiffView.closeAllNonDirtyDiffViews NotebookDiffView.openAndShow
          NotebookDiffView.isFileOpen NotebookDiffView.set_needFocusDiffViews]
      in Hopen |- *;
    unfold NotebookDiffView.waitForDiagnostic;
    rewrite ?Hdirty;
    (split; [reflexivity|]);
    (split; [apply isFileOpen_after_show_and_close|]);
    do 3 (split; [reflexivity|]);
    match goal with
    | |- context [NotebookDiffView.closeAllNonDirtyDiffViews ?w1] =>
        destruct (closeAllNonDirtyDiffViews_request w1) as (Hoff & Hon)
    end;
    (split; [intros Hhook; now rewrite Hoff|]);
    intros Hhook Hclean; (apply Hon; [exact Hhook|now apply Hopen]).
Qed.

(* ------------------------------------------------------------------ *)
(** * Properties of the editing flow *)

Section FlowFacts.
Import NotebookDiffView Effects.
Context `{Host}.






End FlowFacts.





(** When the edit cannot be prepared - the path is refused, the file
    cannot be read, or parsing, editing or serializing throws -
    [editNotebook] reports failure, and the session registered under a
    non-empty tool call id has been reverted: afterwards the id holds
    nothing or that session object, marked reverted, and no id holds a
    session that was not registered before. *)
Theorem editNotebook_failure_reverts `{Host} {Notebook : Type}
    (validateNotebookPath : string -> bool)
    (parseNotebook : jsstring -> option Notebook)
    (editNotebookCell : Notebook -> string -> jsstring -> option Notebook)
    (serializeNotebook : Notebook -> option jsstring)
    (filePath cellId : string) (content : jsstring)
    (o : EditNotebook.Options) (w : NotebookDiffView.World) (v : NotebookDiffView.t) :
  EditNotebook.serialized validateNotebookPath parseNotebook editNotebookCell
    serializeNotebook filePath cellId content o w = None ->
  EditNotebook.toolCallId o <> EmptyString ->
  JsMap.get (EditNotebook.toolCallId o) (NotebookDiffView.DiffViewMap w) = Some v ->
  (EditNotebook.editNotebook validateNotebookPath parseNotebook editNotebookCell
     serializeNotebook filePath cellId content o w).1 = false
  /\ (forall v',
        JsMap.get (EditNotebook.toolCallId o)
          (NotebookDiffView.DiffViewMap
             (EditNotebook.editNotebook validateNotebookPath parseNotebook
                editNotebookCell serializeNotebook filePath cellId content o w).2)
        = Some v' ->
        NotebookDiffView.self v' = NotebookDiffView.self v
        /\ NotebookDiffView.isReverted v' = true)
  /\ (forall k,
        JsMap.get k (NotebookDiffView.DiffViewMap w) = None ->
        JsMap.get k
          (NotebookDiffView.DiffViewMap
             (EditNotebook.editNotebook validateNotebookPath parseNotebook
                editNotebookCell serializeNotebook filePath cellId content o w).2)
        = None).
Proof.
  intros Hser Hid Hget. unfold EditNotebook.editNotebook. rewrite Hser.
  cbn [fst snd]. split; [reflexivity|].
  unfold EditNotebook.onError.
  destruct (EditNotebook.toolCallId o) as [|c rest] eqn:Ek; [contradiction|].
  cbn [String.length Nat.eqb]. split.
  - intros v' Hentry.
    destruct (static_revertAndClose_entry (String c rest) v w Hget)
      as [Hgone|(v1 & Hv1 & Hself & Hrev)]; [congruence|].
    rewrite Hv1 in Hentry. injection Hentry as <-. now split.
  - intros k. apply static_revertAndClose_adds_nothing.
Qed.

Lemma editNotebook_failure_reverts_witness :
  (EditNotebook.editNotebook (H := PlainHost.host) (fun _ => false) Some
     (fun _ _ content => Some content) Some "nb.txt" "cell-1" Examples.text_ac
     (EditNotebook.mkOptions "/w" "X" false None) Examples.worldWithX).1 = false
  /\ JsMap.get "Y"
       (NotebookDiffView.DiffViewMap
          (EditNotebook.editNotebook (H := PlainHost.host) (fun _ => false) Some
             (fun _ _ content => Some content) Some "nb.txt" "cell-1"
             Examples.text_ac (EditNotebook.mkOptions "/w" "X" false None)
             Examples.worldWithX).2)
     = None.
Proof.
  destruct (editNotebook_failure_reverts (H := PlainHost.host) (fun _ => false) Some
              (fun _ _ content => Some content) Some "nb.txt" "cell-1"
              Examples.text_ac (EditNotebook.mkOptions "/w" "X" false None)
              Examples.worldWithX Examples.freshSession
              eq_refl ltac:(discriminate) eq_refl)
    as (Hfalse & _ & Hadds).
  split; [exact Hfalse|]. apply Hadds. reflexivity.
Defined.

(* ------------------------------------------------------------------ *)
(** * Properties of the normalization in [saveChanges] *)

Section NormalizeFacts.
Import Js Effects.

Lemma trimEnd_blank (ws : jsstring) : Forall blank ws -> trimEnd ws = [].
Proof.
  induction 1 as [|c ws Hc _ IH]; cbn; [reflexivity|].
  rewrite IH. unfold blank in Hc. now rewrite Hc.
Qed.

Lemma trimEnd_app_blank (s ws : jsstring) :
  Forall blank ws -> trimEnd (s ++ ws) = trimEnd s.
Proof.
  intros Hws. induction s as [|c s IH]; cbn.
  - now apply trimEnd_blank.
  - now rewrite IH.
Qed.

Lemma trimEnd_app_same (a x y : jsstring) :
  trimEnd x = trimEnd y -> trimEnd (a ++ x) = trimEnd (a ++ y).
Proof.
  intros Hxy. induction a as [|c a IH]; cbn; [exact Hxy|]. now rewrite IH.
Qed.

Lemma replace_EOL_cons2 (eol : jsstring) (c d : N) (s : jsstring) :
  replace_EOL eol (c :: d :: s)
  = if (c =? LF)%N then eol ++ replace_EOL eol (d :: s)
    else if (c =? CR)%N then
      if (d =? LF)%N then eol ++ replace_EOL eol s
      else c :: replace_EOL eol (d :: s)
    else c :: replace_EOL eol (d :: s).
Proof. reflexivity. Qed.

Lemma replace_EOL_blank (eol ws : jsstring) :
  Forall blank eol -> Forall blank ws -> Forall blank (replace_EOL eol ws).
Proof.
  intros Heol Hws.
  enough (Hboth : Forall blank (replace_EOL eol ws)
                  /\ forall c, blank c -> Forall blank (replace_EOL eol (c :: ws)))
    by apply Hboth.
  induction Hws as [|d ws Hd Hws [IH1 IH2]].
  - split; [constructor|]. intros c Hc. cbn.
    destruct (c =? LF)%N; [now rewrite app_nil_r|].
    destruct (c =? CR)%N; now repeat constructor.
  - split; [now apply IH2|]. intros c Hc.
    rewrite replace_EOL_cons2.
    destruct (c =? LF)%N; [apply Forall_app; split; [assumption|now apply IH2]|].
    destruct (c =? CR)%N.
    + destruct (d =? LF)%N.
      * apply Forall_app. now split.
      * constructor; [assumption|now apply IH2].
    + constructor; [assumption|now apply IH2].
Qed.

(** Blank characters at the end of the text do not survive the
    replacement and the trim. *)
Lemma trimEnd_replace_EOL_app (eol s ws : jsstring) :
  Forall blank eol -> Forall blank ws ->
  trimEnd (replace_EOL eol (s ++ ws)) = trimEnd (replace_EOL eol s).
Proof.
  intros Heol Hws.
  enough (Hboth : trimEnd (replace_EOL eol (s ++ ws)) = trimEnd (replace_EOL eol s)
                  /\ forall c, trimEnd (replace_EOL eol ((c :: s) ++ ws))
                               = trimEnd (replace_EOL eol (c :: s)))
    by apply Hboth.
  induction s as [|d s [IH1 IH2]].
  - assert (Hnil : trimEnd (replace_EOL eol ws) = [])
      by now apply trimEnd_blank, replace_EOL_blank.
    split; [exact Hnil|]. intros c. cbn [app].
    assert (Hcons : forall x, blank x -> trimEnd (replace_EOL eol (x :: ws)) = []).
    { intros x Hx. apply trimEnd_blank, replace_EOL_blank; [assumption|].
      now constructor. }
    destruct (isWhiteSpace c) eqn:Hc.
    + rewrite (Hcons c Hc). symmetry.
      apply trimEnd_blank, replace_EOL_blank; [assumption|]. now repeat constructor.
    + assert (Hlf : (c =? LF)%N = false).
      { destruct (c =? LF)%N eqn:E; [|reflexivity].
        apply N.eqb_eq in E. subst c. discriminate Hc. }
      assert (Hcr : (c =? CR)%N = false).
      { destruct (c =? CR)%N eqn:E; [|reflexivity].
        apply N.eqb_eq in E. subst c. discriminate Hc. }
      destruct ws as [|x ws']; [reflexivity|].
      rewrite replace_EOL_cons2, Hlf, Hcr.
      change (c :: replace_EOL eol (x :: ws')) with ([c] ++ replace_EOL eol (x :: ws')).
      rewrite trimEnd_app_blank by now apply replace_EOL_blank.
      cbn [replace_EOL]. now rewrite Hlf, Hcr.
  - split; [apply IH2|]. intros c. cbn [app].
    rewrite !replace_EOL_cons2.
    pose proof (IH2 d) as Hd. cbn [app] in Hd.
    destruct (c =? LF)%N; [now apply trimEnd_app_same|].
    destruct (c =? CR)%N.
    + destruct (d =? LF)%N; [now apply trimEnd_app_same|].
      now apply (trimEnd_app_same [c]).
    + now apply (trimEnd_app_same [c]).
Qed.

End NormalizeFacts.

(** The normalization [saveChanges] applies before it compares texts
    makes the comparison blind to what the editor appends: blank
    characters - spaces, tabs, line ends - at the end of a text change
    nothing of its normal form, for either line ending. *)
Theorem normalizeEOL_ignores_trailing_blanks (crlf : bool) (s ws : jsstring) :
  Forall Effects.blank ws ->
  NotebookDiffView.normalizeEOL (if crlf then [Js.CR; Js.LF] else [Js.LF]) (s ++ ws)
  = NotebookDiffView.normalizeEOL (if crlf then [Js.CR; Js.LF] else [Js.LF]) s.
Proof.
  intros Hws. unfold NotebookDiffView.normalizeEOL. f_equal.
  apply trimEnd_replace_EOL_app; [|exact Hws].
  destruct crlf; now repeat constructor.
Qed.

Lemma normalizeEOL_ignores_trailing_blanks_witness :
  NotebookDiffView.normalizeEOL [Js.LF] (Js.lit "x" ++ [Js.CR; Js.LF; Js.LF])
  = NotebookDiffView.normalizeEOL [Js.LF] (Js.lit "x").
Proof.
  apply (normalizeEOL_ignores_trailing_blanks false (Js.lit "x") [Js.CR; Js.LF; Js.LF]).
  now repeat constructor.
Defined.

(* ------------------------------------------------------------------ *)
(** * From preview to revert *)

(** From preview to revert the plain tab of the file comes back as it
    was: [getOrCreate] closes the plain tabs of the file, and when the
    new session is reverted on the state [getOrCreate] left and the
    revert fulfils, the file is open in a plain tab exactly if it was
    before the session was created. *)
Theorem revertAndClose_restores_file_tab `{Host}
    (k relpath dir : string) (w w' : NotebookDiffView.World) (v : NotebookDiffView.t) :
  JsMap.get k (NotebookDiffView.DiffViewMap w) = None ->
  NotebookDiffView.getOrCreate k relpath dir w = (Some v, w') ->
  (NotebookDiffView.revertAndClose v w').2 = NotebookDiffView.Fulfilled ->
  NotebookDiffView.isFileOpen (Uri_file (resolvePath relpath dir)) w' = false
  /\ NotebookDiffView.isFileOpen (Uri_file (resolvePath relpath dir))
       (NotebookDiffView.revertAndClose v w').1.2
     = NotebookDiffView.isFileOpen (Uri_file (resolvePath relpath dir)) w.
Proof.
  intros Hnew Hrun.
  assert (Hfacts : NotebookDiffView.fileUri v = Uri_file (resolvePath relpath dir)
                   /\ NotebookDiffView.isReverted v = false
                   /\ NotebookDiffView.isFileOpenBeforeDiffPreview v
                      = NotebookDiffView.isFileOpen (Uri_file (resolvePath relpath dir)) w
                   /\ NotebookDiffView.isFileOpen (NotebookDiffView.fileUri v) w' = false).
  { revert Hrun. unfold NotebookDiffView.getOrCreate.
    destruct (installHook_keeps w) as (Hm0 & _ & Ht0 & _).
    rewrite Hm0, Hnew.
    pose proof (createDiffView_session k relpath dir (NotebookDiffView.installHook w))
      as (_ & _ & Hsession & _).
    pose proof (createDiffView_wasOpen k relpath dir (NotebookDiffView.installHook w))
      as Hwas.
    cbv zeta in Hsession.
    destruct (NotebookDiffView.createDiffView k relpath dir _) as [[v1|] w1];
      [|discriminate].
    cbn [fst snd] in *. intros [= <- <-].
    destruct (Hsession v1 eq_refl) as (_ & Huri & _ & _ & _ & _ & Hrev & _).
    split; [exact Huri|]. split; [exact Hrev|]. split.
    - rewrite (Hwas v1 eq_refl). unfold NotebookDiffView.isFileOpen. now rewrite Ht0.
    - apply closeFileEditorTabs_tab_iff. exact (mkTab TabInputOther false). }
  destruct Hfacts as (Huri & Hrev & Hwas & Hclosed).
  rewrite Huri in Hclosed. intros Hdone. split; [exact Hclosed|].
  revert Hdone. unfold NotebookDiffView.revertAndClose. rewrite Hrev.
  pose proof (isFileOpen_discardChanges (Uri_file (resolvePath relpath dir))
                (NotebookDiffView.set_isReverted true v) w'
                (NotebookDiffView.originalContent (NotebookDiffView.set_isReverted true v)))
    as Hdiscard.
  assert (Hsame : NotebookDiffView.isFileOpenBeforeDiffPreview
                    (NotebookDiffView.discardChangesWithWorkspaceEdit
                       (NotebookDiffView.set_isReverted true v) w'
                       (NotebookDiffView.originalContent
                          (NotebookDiffView.set_isReverted true v))).1.1
                  = NotebookDiffView.isFileOpenBeforeDiffPreview v
                  /\ NotebookDiffView.fileUri
                       (NotebookDiffView.discardChangesWithWorkspaceEdit
                          (NotebookDiffView.set_isReverted true v) w'
                          (NotebookDiffView.originalContent
                             (NotebookDiffView.set_isReverted true v))).1.1
                     = NotebookDiffView.fileUri v).
  { unfold NotebookDiffView.discardChangesWithWorkspaceEdit.
    destruct (negb _); [now split|].
    destruct (executeDataToNotebook _ _) as [data| |]; now split. }
  destruct Hsame as (Hbefore & Hfile).
  destruct (NotebookDiffView.discardChangesWithWorkspaceEdit _ w' _)
    as [[v1 w1] [|]]; cbn [fst snd] in *; [|discriminate].
  intros _. rewrite Hbefore, Hfile, Hwas, Huri.
  destruct (NotebookDiffView.isFileOpen (Uri_file (resolvePath relpath dir)) w) eqn:Hopen.
  - unfold NotebookDiffView.isFileOpen, NotebookDiffView.openAndShow.
    cbn [NotebookDiffView.tabGroups NotebookDiffView.log NotebookDiffView.set_tabGroups].
    apply withTextTab_shows.
  - rewrite isFileOpen_closeAllNonDirtyDiffViews. congruence.
Qed.

Lemma revertAndClose_restores_file_tab_witness :
  NotebookDiffView.isFileOpen Examples.nbUri
    (NotebookDiffView.set_tabGroups [[mkTab (TabInputText Examples.nbUri) false]]
       (Examples.workspace Examples.text_ab)) = true
  /\ NotebookDiffView.isFileOpen Examples.nbUri
       (NotebookDiffView.getOrCreate (H := PlainHost.host) "Y" "nb.ipynb" "/w"
          (NotebookDiffView.set_tabGroups [[mkTab (TabInputText Examples.nbUri) false]]
             (Examples.workspace Examples.text_ab))).2 = false
  /\ NotebookDiffView.isFileOpen Examples.nbUri
       (NotebookDiffView.revertAndClose (H := PlainHost.host)
          (default Examples.sessionY
             (NotebookDiffView.getOrCreate (H := PlainHost.host) "Y" "nb.ipynb" "/w"
                (NotebookDiffView.set_tabGroups
                   [[mkTab (TabInputText Examples.nbUri) false]]
                   (Examples.workspace Examples.text_ab))).1)
          (NotebookDiffView.getOrCreate (H := PlainHost.host) "Y" "nb.ipynb" "/w"
             (NotebookDiffView.set_tabGroups [[mkTab (TabInputText Examples.nbUri) false]]
                (Examples.workspace Examples.text_ab))).2).1.2 = true.
Proof.
  assert (Hopen : NotebookDiffView.isFileOpen Examples.nbUri
            (NotebookDiffView.set_tabGroups [[mkTab (TabInputText Examples.nbUri) false]]
               (Examples.workspace Examples.text_ab)) = true)
    by (vm_compute; reflexivity).
  destruct (revertAndClose_restores_file_tab (H := PlainHost.host) "Y" "nb.ipynb" "/w"
              (NotebookDiffView.set_tabGroups [[mkTab (TabInputText Examples.nbUri) false]]
                 (Examples.workspace Examples.text_ab))
              (NotebookDiffView.getOrCreate (H := PlainHost.host) "Y" "nb.ipynb" "/w"
                 (NotebookDiffView.set_tabGroups
                    [[mkTab (TabInputText Examples.nbUri) false]]
                    (Examples.workspace Examples.text_ab))).2
              (default Examples.sessionY
                 (NotebookDiffView.getOrCreate (H := PlainHost.host) "Y" "nb.ipynb" "/w"
                    (NotebookDiffView.set_tabGroups
                       [[mkTab (TabInputText Examples.nbUri) false]]
                       (Examples.workspace Examples.text_ab))).1)
              ltac:(vm_compute; reflexivity) ltac:(vm_compute; reflexivity)
              ltac:(vm_compute; reflexivity))
    as (Hclosed & Hback).
  split; [exact Hopen|]. split; [exact Hclosed|].
  etransitivity; [exact Hback|exact Hopen].
Defined.
